(** * qfix: daily conversion quota and the one-page tailoring loop

    A shallow embedding of the two pieces of control logic of the resume
    tailoring service:

    - [src/lib/serverRateLimit.ts]: the per-user daily quota kept in the
      Firestore collection [users] ([checkAndReserveConversion],
      [checkServerConversionLimit]);
    - [src/app/api/tailor/route.ts]: the [POST] handler, the retry loop around
      the language-model call ([getTailoredResume], [isRateLimitError]) and the
      loop that regenerates the resume until the PDF fits on one page.

    Firestore, the system clock, the language model, the headless browser and
    the PDF parser are outside the repository.  The store is an in-memory
    finite map, the clock readings are arguments, and the three remote
    services are oracles indexed by the number of calls made so far, so that
    a service may answer differently on every call. *)

From Stdlib Require Import ZArith String Ascii List Bool Lia.
From stdpp Require Import base option list gmap strings fin_maps.

Local Open Scope Z_scope.

(* ===================================================================== *)
(** ** JavaScript strings and thrown values *)
(* ===================================================================== *)

Module Js.

(** [String.prototype.toLowerCase], on the ASCII letters (strings are
    sequences of 8-bit characters here). *)
Definition lower_ascii (c : ascii) : ascii :=
  let n := nat_of_ascii c in
  if ((65 <=? n)%nat && (n <=? 90)%nat)%bool then ascii_of_nat (n + 32) else c.

Fixpoint toLowerCase (s : string) : string :=
  match s with
  | EmptyString => EmptyString
  | String c r => String (lower_ascii c) (toLowerCase r)
  end.

(** [s.startsWith(p)] *)
Fixpoint startsWith (p s : string) : bool :=
  match p, s with
  | EmptyString, _ => true
  | String _ _, EmptyString => false
  | String a p', String b s' => if Ascii.eqb a b then startsWith p' s' else false
  end.

(** [s.includes(p)]; also what [/p/.test(s)] computes for a pattern [p]
    without metacharacters. *)
Fixpoint includes (p s : string) : bool :=
  if startsWith p s then true
  else match s with
       | EmptyString => false
       | String _ r => includes p r
       end.

(** [/a|b|c/.test(s)] for literal alternatives. *)
Definition test_any (alts : list string) (s : string) : bool :=
  existsb (fun p => includes p s) alts.

(** [/a|b|c/i.test(s)] for literal alternatives: both sides lowered. *)
Definition test_any_i (alts : list string) (s : string) : bool :=
  existsb (fun p => includes (toLowerCase p) (toLowerCase s)) alts.

(** [s.trimStart()], [s.trimEnd()] and [s.trim()] on the six ASCII white
    space characters (space, tab, line feed, vertical tab, form feed,
    carriage return).  The methods of the source strip the other Unicode
    white space as well (U+00A0, U+FEFF, U+2028, ...): on a string with such
    a character at an end the source strips more than these functions. *)
Fixpoint trimStart (s : string) : string :=
  match s with
  | String c r => if Ascii.is_space c then trimStart r else s
  | EmptyString => EmptyString
  end.

(** Drops the white space at the end: a character is kept when it is not a
    space or when something is kept after it. *)
Fixpoint trimEnd (s : string) : string :=
  match s with
  | EmptyString => EmptyString
  | String c r =>
      match trimEnd r with
      | EmptyString => if Ascii.is_space c then EmptyString else String c EmptyString
      | r' => String c r'
      end
  end.

(** [s.trim()], for the ASCII white space. *)
Definition trim (s : string) : string := trimEnd (trimStart s).

(** [s.endsWith(p)] *)
Definition endsWith (p s : string) : bool :=
  startsWith (String.rev p) (String.rev s).

(** [s.split(c)] for a one-character separator: never the empty array. *)
Fixpoint split (sep : ascii) (s : string) : list string :=
  match s with
  | EmptyString => [EmptyString]
  | String c r =>
      if Ascii.eqb c sep then EmptyString :: split sep r
      else match split sep r with
           | [] => [String c EmptyString]
           | x :: xs => String c x :: xs
           end
  end.

(** [xs.join(sep)] *)
Fixpoint join (sep : string) (xs : list string) : string :=
  match xs with
  | [] => EmptyString
  | [x] => x
  | x :: rest => x +:+ sep +:+ join sep rest
  end.

(** A value that was thrown.  [ErrorObj] is an [instanceof Error] with its
    [message]; [NonError] is anything else, kept as what [String(v)] gives.
    [code] is [Some (String(v.code))] when the value is an object with a
    [code] property. *)
Inductive Thrown :=
| ErrorObj (message : string) (code : option string)
| NonError (str : string) (code : option string).

(** [new Error(msg)] *)
Definition newError (msg : string) : Thrown := ErrorObj msg None.

(** [error instanceof Error ? error.message : String(error)] *)
Definition messageOrString (e : Thrown) : string :=
  match e with ErrorObj m _ => m | NonError s _ => s end.

(** ["code" in error ? String(error.code) : ""] *)
Definition codeString (e : Thrown) : string :=
  match e with ErrorObj _ c | NonError _ c => default EmptyString c end.

End Js.

(* ===================================================================== *)
(** ** The UTC calendar date of a clock reading *)
(* ===================================================================== *)

Module JsDate.

(** A [Date] is its time value: milliseconds since 1970-01-01T00:00:00Z. *)
Definition msPerDay : Z := 86400000.

(** Day number since the epoch and millisecond within the day. *)
Definition Day (t : Z) : Z := t / msPerDay.
Definition TimeWithinDay (t : Z) : Z := t mod msPerDay.

(** Proleptic Gregorian (year, month, day) of a day number; years start in
    March inside the computation, so that the leap day is the last day. *)
Definition civil_from_days (days : Z) : Z * Z * Z :=
  let z := days + 719468 in
  let era := z / 146097 in
  let doe := z mod 146097 in
  let yoe := (doe - doe / 1460 + doe / 36524 - doe / 146096) / 365 in
  let doy := doe - (365 * yoe + yoe / 4 - yoe / 100) in
  let mp := (5 * doy + 2) / 153 in
  let d := doy - (153 * mp + 2) / 5 + 1 in
  let m := if mp <? 10 then mp + 3 else mp - 9 in
  let y := yoe + era * 400 in
  (if m <=? 2 then y + 1 else y, m, d).

Definition digit (z : Z) : ascii := ascii_of_nat (48 + Z.to_nat z).

(** The last [k] decimal digits of [z], zero padded. *)
Fixpoint pad (k : nat) (z : Z) : string :=
  match k with
  | O => EmptyString
  | S k' => pad k' (z / 10) +:+ String (digit (z mod 10)) EmptyString
  end.

(** Four digits for the years 0 to 9999, a sign and six digits otherwise. *)
Definition year_string (y : Z) : string :=
  if ((0 <=? y) && (y <=? 9999))%bool then pad 4 y
  else if y <? 0 then "-" +:+ pad 6 (- y) else "+" +:+ pad 6 y.

Definition date_string (ymd : Z * Z * Z) : string :=
  let '(y, m, d) := ymd in
  year_string y +:+ "-" +:+ pad 2 m +:+ "-" +:+ pad 2 d.

Definition time_string (ms : Z) : string :=
  pad 2 (ms / 3600000) +:+ ":" +:+ pad 2 (ms / 60000 mod 60) +:+ ":" +:+
  pad 2 (ms / 1000 mod 60) +:+ "." +:+ pad 3 (ms mod 1000).

(** [Date.prototype.toISOString]: [YYYY-MM-DDTHH:mm:ss.sssZ]. *)
Definition toISOString (t : Z) : string :=
  date_string (civil_from_days (Day t)) +:+ "T" +:+
  time_string (TimeWithinDay t) +:+ "Z".

(** A time value is valid between -8.64e15 and 8.64e15 (ECMAScript
    TimeClip); [new Date()] always is. *)
Definition validTime (t : Z) : Prop :=
  -8640000000000000 <= t <= 8640000000000000.

(** The inverse of [civil_from_days], used to show that different days have
    different dates. *)
Definition days_from_civil (ymd : Z * Z * Z) : Z :=
  let '(y, m, d) := ymd in
  let y' := if m <=? 2 then y - 1 else y in
  let era := y' / 400 in
  let yoe := y' mod 400 in
  let doy := (153 * (if 2 <? m then m - 3 else m + 9) + 2) / 5 + d - 1 in
  let doe := yoe * 365 + yoe / 4 - yoe / 100 + doy in
  era * 146097 + doe - 719468.

(** The part of [civil_from_days] that depends on the day of the 400-year
    era only, and a check of one such day: year of era, month and day are in
    range and lead back to the day. *)
Definition of_doe (doe : Z) : Z * Z * Z :=
  let yoe := (doe - doe / 1460 + doe / 36524 - doe / 146096) / 365 in
  let doy := doe - (365 * yoe + yoe / 4 - yoe / 100) in
  let mp := (5 * doy + 2) / 153 in
  let d := doy - (153 * mp + 2) / 5 + 1 in
  let m := if mp <? 10 then mp + 3 else mp - 9 in
  (yoe, m, d).

Definition doe_ok (doe : Z) : bool :=
  let '(yoe, m, d) := of_doe doe in
  (0 <=? yoe) && (yoe <? 400) && (1 <=? m) && (m <=? 12)
  && (1 <=? d) && (d <=? 31)
  && (days_from_civil (if m <=? 2 then yoe + 1 else yoe, m, d)
      =? doe - 719468).

(** [p] holds of the [n] integers from [i] on. *)
Fixpoint all_from (n : nat) (i : Z) (p : Z -> bool) : bool :=
  match n with
  | O => true
  | S n' => p i && all_from n' (i + 1) p
  end.

(** No character of [s] is [c]. *)
Fixpoint lacks (c : ascii) (s : string) : bool :=
  match s with
  | EmptyString => true
  | String a r => negb (Ascii.eqb a c) && lacks c r
  end.

End JsDate.

(* ===================================================================== *)
(** ** The quota ledger: [src/lib/serverRateLimit.ts] *)
(* ===================================================================== *)

Module Ledger.
Import Js.

(** A document of the collection [users], with the fields and types of the
    schema in [src/lib/adminUtils.md]; every field may be missing.  The two
    timestamps are time values in milliseconds. *)
Record UserDoc := mkUserDoc {
  isSpecial : option bool;
  lastConversionDate : option string;
  conversionsToday : option Z;
  lastConversion : option Z;
  updatedAt : option Z
}.

Definition emptyDoc : UserDoc := mkUserDoc None None None None None.

(** The collection [users], keyed by user id. *)
Abbreviation Firestore := (gmap string UserDoc).

(** The strings that are the id of a document of the collection.  Every
    exported function begins with [firestore.collection("users").doc(userId)]
    (lines 90, 154 and 193), and Firestore accepts as a document id a string
    that is not empty, has no slash, is neither "." nor "..", is not of the
    form [__.*__] and has at most 1500 bytes; for another string the call or
    the request that follows it throws.  The functions below are the calls
    for an id of this kind: they have no path for that throw. *)
Definition validDocId (userId : string) : bool :=
  negb (String.eqb userId EmptyString)
  && negb (includes "/" userId)
  && negb (String.eqb userId ".")
  && negb (String.eqb userId "..")
  && negb (startsWith "__" userId && endsWith "__" userId
           && (4 <=? String.length userId)%nat)
  && (String.length userId <=? 1500)%nat.

(** The clock readings of one call, one for each [new Date()] of the
    source, in the order they are evaluated. *)
Record Clock := mkClock {
  now_today : Z;           (* in getTodayUTC *)
  now_lastConversion : Z;  (* lastConversion: new Date() *)
  now_updatedAt : Z        (* updatedAt: new Date() *)
}.

(** [new Date().toISOString().split("T")[0]] *)
Definition getTodayUTC (now : Z) : string :=
  hd EmptyString (split "T" (JsDate.toISOString now)).

(** The fields of [data] that are present overwrite those of [old]: what
    both [update(ref, data)] and [set(ref, data, {merge: true})] do to a
    document that exists. *)
Definition mergeDoc (data old : UserDoc) : UserDoc :=
  {| isSpecial := from_option Some (isSpecial old) (isSpecial data);
     lastConversionDate := from_option Some (lastConversionDate old) (lastConversionDate data);
     conversionsToday := from_option Some (conversionsToday old) (conversionsToday data);
     lastConversion := from_option Some (lastConversion old) (lastConversion data);
     updatedAt := from_option Some (updatedAt old) (updatedAt data) |}.

(** The writes a transaction buffers. *)
Inductive TxWrite :=
| TxUpdate (ref : string) (data : UserDoc)
| TxSetMerge (ref : string) (data : UserDoc).

(** [update] fails on a document that does not exist; [set] with
    [merge: true] creates it. *)
Definition applyWrite (w : TxWrite) (fs : Firestore) : Thrown + Firestore :=
  match w with
  | TxUpdate ref data =>
      match fs !! ref with
      | Some old => inr (<[ref := mergeDoc data old]> fs)
      | None => inl (ErrorObj "5 NOT_FOUND: No document to update" (Some "5"))
      end
  | TxSetMerge ref data =>
      inr (<[ref := mergeDoc data (default emptyDoc (fs !! ref))]> fs)
  end.

Fixpoint applyWrites (ws : list TxWrite) (fs : Firestore) : Thrown + Firestore :=
  match ws with
  | [] => inr fs
  | w :: rest =>
      match applyWrite w fs with
      | inl e => inl e
      | inr fs' => applyWrites rest fs'
      end
  end.

(** [firestore.runTransaction(async (transaction) => ...)] for a callback
    that reads the one document [ref]: the read, the callback and the commit
    of its writes are one atomic step; a failed commit writes nothing. *)
Definition runTransaction {A} (ref : string)
    (callback : option UserDoc -> A * list TxWrite) (fs : Firestore)
  : Thrown + (A * Firestore) :=
  let '(a, writes) := callback (fs !! ref) in
  match applyWrites writes fs with
  | inl e => inl e
  | inr fs' => inr (a, fs')
  end.

(** What the transaction callback returns. *)
Record TxResult := mkTxResult {
  tx_allowed : bool;
  tx_reason : option string;
  tx_remaining : option Z;
  tx_shouldRecord : bool
}.

(** What the two exported functions return:
    [{ allowed: boolean; reason?: string; remaining?: number }]. *)
Record LimitResult := mkLimitResult {
  allowed : bool;
  reason : option string;
  remaining : option Z
}.

Definition DAILY_LIMIT_REASON : string :=
  "You have reached your daily limit of 1 conversion. Please try again tomorrow.".

(** The callback of [checkAndReserveConversion] (lines 93-137), applied to
    the snapshot [userDoc] ([None] when [userDoc.exists] is false). *)
Definition reserveCallback (userId today : string) (clk : Clock)
    (userDoc : option UserDoc) : TxResult * list TxWrite :=
  if bool_decide ((userDoc ≫= isSpecial) = Some true) then
    (mkTxResult true None (Some (-1)) false, [])
  else
    let userData := userDoc in
    let lastConversionDate := userData ≫= lastConversionDate in
    let conversionsToday := default 0 (userData ≫= conversionsToday) in
    if bool_decide (lastConversionDate = Some today) then
      if 1 <=? conversionsToday then
        (mkTxResult false (Some DAILY_LIMIT_REASON) (Some 0) false, [])
      else
        (mkTxResult true None (Some 0) false,
         [TxUpdate userId
            {| isSpecial := None;
               lastConversionDate := None;
               conversionsToday := Some (conversionsToday + 1);
               lastConversion := Some (now_lastConversion clk);
               updatedAt := None |}])
    else
      (mkTxResult true None (Some 0) false,
       [TxSetMerge userId
          {| isSpecial := None;
             lastConversionDate := Some today;
             conversionsToday := Some 1;
             lastConversion := Some (now_lastConversion clk);
             updatedAt := Some (now_updatedAt clk) |}]).

(** [checkAndReserveConversion(userId)], with the store passed through. *)
Definition checkAndReserveConversion (clk : Clock) (userId : string)
    (fs : Firestore) : Thrown + (LimitResult * Firestore) :=
  let today := getTodayUTC (now_today clk) in
  match runTransaction userId (reserveCallback userId today clk) fs with
  | inl e => inl e
  | inr (result, fs') =>
      inr ({| allowed := tx_allowed result;
              reason := tx_reason result;
              remaining := tx_remaining result |}, fs')
  end.

(** [checkServerConversionLimit(userId)]: the read-only status query. *)
Definition checkServerConversionLimit (now : Z) (userId : string)
    (fs : Firestore) : LimitResult :=
  match fs !! userId with
  | None => mkLimitResult true None (Some 1)
  | Some userData =>
      if bool_decide (isSpecial userData = Some true) then
        mkLimitResult true None (Some (-1))
      else
        let today := getTodayUTC now in
        let conversionsToday := default 0 (conversionsToday userData) in
        if bool_decide (lastConversionDate userData = Some today) then
          if 1 <=? conversionsToday then
            mkLimitResult false (Some DAILY_LIMIT_REASON) (Some 0)
          else mkLimitResult true None (Some (1 - conversionsToday))
        else mkLimitResult true None (Some 1)
  end.

(** The user is not special and today's slot is still free: what makes the
    callback allow the call and write. *)
Definition slotAvailable (today : string) (userDoc : option UserDoc) : Prop :=
  userDoc ≫= isSpecial <> Some true
  /\ (userDoc ≫= lastConversionDate <> Some today
      \/ default 0 (userDoc ≫= conversionsToday) < 1).

(** The count of a document is not negative (the code only ever writes 1
    or a successor). *)
Definition countNonNegative (userDoc : option UserDoc) : Prop :=
  0 <= default 0 (userDoc ≫= conversionsToday).

(** A sequence of calls for one user, one after the other. *)
Fixpoint reserveEach (clks : list Clock) (userId : string) (fs : Firestore)
  : Thrown + (list LimitResult * Firestore) :=
  match clks with
  | [] => inr ([], fs)
  | clk :: rest =>
      match checkAndReserveConversion clk userId fs with
      | inl e => inl e
      | inr (r, fs') =>
          match reserveEach rest userId fs' with
          | inl e => inl e
          | inr (rs, fs'') => inr (r :: rs, fs'')
          end
      end
  end.



End Ledger.


(* ===================================================================== *)
(** ** Concurrent reservations for one user *)
(* ===================================================================== *)

Module Concurrent.
Import Js Ledger.

(** A request inside [checkAndReserveConversion]: it has not read the clock
    yet, it has computed [today] and waits for its transaction, or it has
    returned. *)
Inductive Thread :=
| Started
| GotToday (today : string)
| Returned (r : LimitResult)
| Failed (e : Thrown).

(** One scheduling decision: thread [i] reads the clock for [getTodayUTC],
    or thread [i] runs its transaction (Firestore serialises transactions on
    one document, so a transaction is one step) with the clock readings of
    its two timestamps. *)
Inductive Action :=
| ReadToday (i : nat) (now : Z)
| Transact (i : nat) (now_lc now_upd : Z).

Record Config := mkConfig {
  store : gmap string UserDoc;
  pool : list Thread
}.

Definition exec (userId : string) (a : Action) (c : Config) : option Config :=
  match a with
  | ReadToday i now =>
      match pool c !! i with
      | Some Started =>
          Some (mkConfig (store c) (<[i := GotToday (getTodayUTC now)]> (pool c)))
      | _ => None
      end
  | Transact i now_lc now_upd =>
      match pool c !! i with
      | Some (GotToday today) =>
          match runTransaction userId
                  (reserveCallback userId today (mkClock 0 now_lc now_upd))
                  (store c) with
          | inl e => Some (mkConfig (store c) (<[i := Failed e]> (pool c)))
          | inr (result, fs') =>
              Some (mkConfig fs'
                      (<[i := Returned (mkLimitResult (tx_allowed result)
                                          (tx_reason result)
                                          (tx_remaining result))]> (pool c)))
          end
      | _ => None
      end
  end.

(** A schedule is run from left to right; [None] when it asks a thread
    for a step the thread cannot take. *)
Fixpoint run (userId : string) (sched : list Action) (c : Config) : option Config :=
  match sched with
  | [] => Some c
  | a :: rest =>
      match exec userId a c with
      | Some c' => run userId rest c'
      | None => None
      end
  end.

Definition isReturned (t : Thread) : bool :=
  match t with Returned _ => true | _ => false end.

Definition isGranted (t : Thread) : bool :=
  match t with Returned r => allowed r | _ => false end.

Definition isDenied (t : Thread) : bool :=
  match t with Returned r => negb (allowed r) | _ => false end.

Definition granted (c : Config) : nat := length (filter (fun t => isGranted t = true) (pool c)).
Definition denied (c : Config) : nat := length (filter (fun t => isDenied t = true) (pool c)).

(** All threads have returned. *)
Definition finished (c : Config) : bool := forallb isReturned (pool c).

(** The dates the schedule makes the threads read. *)
Fixpoint datesRead (sched : list Action) : list string :=
  match sched with
  | [] => []
  | ReadToday _ now :: rest => getTodayUTC now :: datesRead rest
  | Transact _ _ _ :: rest => datesRead rest
  end.

(** What every reachable configuration satisfies when all threads read the
    date [today]: waiting threads hold [today], no transaction failed, and
    either nobody has returned and the user has no conversion on record, or
    the document carries today's single conversion and exactly one thread
    was granted. *)
Definition inv (userId today : string) (c : Config) : Prop :=
  (forall i d, pool c !! i = Some (GotToday d) -> d = today)
  /\ (forall i e, pool c !! i <> Some (Failed e))
  /\ (((store c !! userId) ≫= isSpecial <> Some true
       /\ (store c !! userId) ≫= lastConversionDate = None
       /\ granted c = 0%nat /\ denied c = 0%nat)
      \/ (exists doc, store c !! userId = Some doc
          /\ isSpecial doc <> Some true
          /\ lastConversionDate doc = Some today
          /\ conversionsToday doc = Some 1
          /\ granted c = 1%nat)).

(** The same for a user who may already have a document: the user is not
    special, the count is not negative, and either today's slot is free and
    nobody was granted, or it is taken and at most one thread was granted. *)
Definition invAny (userId today : string) (c : Config) : Prop :=
  (forall i d, pool c !! i = Some (GotToday d) -> d = today)
  /\ (forall i e, pool c !! i <> Some (Failed e))
  /\ (store c !! userId) ≫= isSpecial <> Some true
  /\ (((store c !! userId) ≫= lastConversionDate <> Some today
        \/ default 0 ((store c !! userId) ≫= conversionsToday) = 0)
       /\ granted c = 0%nat
      \/ (store c !! userId) ≫= lastConversionDate = Some today
         /\ 1 <= default 0 ((store c !! userId) ≫= conversionsToday)
         /\ (granted c <= 1)%nat).

End Concurrent.

(* ===================================================================== *)
(** ** The tailoring endpoint: [src/app/api/tailor/route.ts] *)
(* ===================================================================== *)

Module Tailor.
Import Js Ledger.

(** A [Buffer] is its bytes. *)
Abbreviation Buffer := string.

(** The prompt of [getTailoredResume] without the fixed instructions of the
    template: the three parts that are interpolated.  [p_shorten] is the
    hint of the SHORTEN paragraph, absent when [shortenHint] is falsy. *)
Record Prompt := mkPrompt {
  p_shorten : option string;
  p_resumeText : string;
  p_jobDescription : string
}.

(** [response.content] of the model: a string, an array of chunks, or
    something else (kept as what [String(content)] gives). *)
Inductive Chunk :=
| ChunkStr (s : string)
| ChunkObj (text : option string)   (* an object; [text] when it is a string *)
| ChunkOther.

Inductive Content :=
| ContentStr (s : string)
| ContentArr (chunks : list Chunk)
| ContentOther (str : string).

(** What [pdfParse] resolves to, as far as the handler reads it. *)
Record PdfData := mkPdfData {
  numpages : option Z;
  text : option string
}.

Record File := mkFile {
  file_name : string;
  file_type : string;
  file_bytes : Buffer
}.

(** An entry of the multipart form. *)
Inductive FormValue :=
| FormString (s : string)
| FormFile (f : File).

Record NextRequest := mkRequest {
  formData : Thrown + gmap string FormValue
}.

(** The response of the handler: [NextResponse.json(body, { status })]. *)
Inductive Body :=
| BodyError (error : string)
| BodyTailored (tailoredResumePdf tailoredResumeText filename : string).

Record NextResponse := json {
  body : Body;
  status : Z
}.

(** The process environment and the services the handler calls.  The
    model, the LaTeX-to-PDF pipeline and the PDF parser are given the number
    of earlier calls, so that they may answer differently each time.
    [latexToPdf_try] is the whole [try] block of [latexToPdf] ([latexToHtml]
    and the headless browser).  The last three are the pure helpers that
    build the response from the final attempt. *)
Record Env := mkEnv {
  GEMINI_API_KEY : option string;
  GOOGLE_API_KEY : option string;
  NODE_ENV : option string;
  model_invoke : nat -> Prompt -> Thrown + Content;
  latexToPdf_try : nat -> string -> Thrown + Buffer;
  pdfParse : nat -> Buffer -> Thrown + PdfData;
  mammoth_extractRawText : Buffer -> Thrown + option string;
  toBase64 : Buffer -> string;
  extractNameFromLatex : string -> string;
  generateFilename : string -> string
}.

(** What an observer of one request can see happen, in order. *)
Inductive Event :=
| EvReserve (userId : string)
| EvGenerate (shortenHint : option string)
| EvInvoke (prompt : Prompt)
| EvSleep (ms : Z)
| EvRender (latexCode : string)
| EvPageCount (pdfBuffer : Buffer).

(** The state a request runs in: the collection [users], the number of
    calls each service has received, and the events so far. *)
Record World := mkWorld {
  users : gmap string UserDoc;
  n_invoke : nat;
  n_render : nat;
  n_parse : nat;
  trace : list Event
}.

(** Computations that read and change the world and may throw; the world
    at the moment of the throw is kept. *)
Definition M (A : Type) : Type := World -> (Thrown + A) * World.

Definition ret {A} (a : A) : M A := fun w => (inr a, w).

Definition throw {A} (e : Thrown) : M A := fun w => (inl e, w).

Definition bind {A B} (m : M A) (k : A -> M B) : M B :=
  fun w => match m w with
           | (inl e, w') => (inl e, w')
           | (inr a, w') => k a w'
           end.

(** [try { m } catch (e) { ... }] as a value. *)
Definition attempt {A} (m : M A) : M (Thrown + A) :=
  fun w => let '(r, w') := m w in (inr r, w').

Notation "'let!' x ':=' m 'in' k" := (bind m (fun x => k))
  (at level 10, x name, m at level 100, k at level 200).
Notation "'do!' m 'in' k" := (bind m (fun _ => k))
  (at level 10, m at level 100, k at level 200).

Definition log (e : Event) : M unit :=
  fun w => (inr tt, mkWorld (users w) (n_invoke w) (n_render w) (n_parse w)
                            (trace w ++ [e])).

Definition lift {A} (r : Thrown + A) : M A :=
  match r with inl e => throw e | inr a => ret a end.

(** One call of each service: the answer of the oracle at the current
    count, and the count goes up. *)
Definition invoke (env : Env) (prompt : Prompt) : M Content :=
  fun w =>
    (model_invoke env (n_invoke w) prompt,
     mkWorld (users w) (S (n_invoke w)) (n_render w) (n_parse w)
             (trace w ++ [EvInvoke prompt])).

Definition callLatexToPdf_try (env : Env) (latexCode : string) : M Buffer :=
  fun w =>
    (latexToPdf_try env (n_render w) latexCode,
     mkWorld (users w) (n_invoke w) (S (n_render w)) (n_parse w)
             (trace w ++ [EvRender latexCode])).

Definition callPdfParse (env : Env) (buffer : Buffer) : M PdfData :=
  fun w =>
    (pdfParse env (n_parse w) buffer,
     mkWorld (users w) (n_invoke w) (n_render w) (S (n_parse w)) (trace w)).

(** The world after one more call of the model, and after one more event. *)
Definition invoked (p : Prompt) (w : World) : World :=
  mkWorld (users w) (S (n_invoke w)) (n_render w) (n_parse w)
          (trace w ++ [EvInvoke p]).

Definition logged (e : Event) (w : World) : World :=
  mkWorld (users w) (n_invoke w) (n_render w) (n_parse w) (trace w ++ [e]).

Definition rendered (latexCode : string) (w : World) : World :=
  mkWorld (users w) (n_invoke w) (S (n_render w)) (n_parse w)
          (trace w ++ [EvRender latexCode]).

Definition counted (pdfBuffer : string) (w : World) : World :=
  mkWorld (users w) (n_invoke w) (n_render w) (S (n_parse w))
          (trace w ++ [EvPageCount pdfBuffer]).

(** [sleep(ms)] *)
Definition sleep (ms : Z) : M unit := log (EvSleep ms).

Definition MAX_FILE_SIZE_BYTES : Z := 10 * 1024 * 1024.

(** [isRateLimitError(error)] (lines 20-29). *)
Definition isRateLimitError (error : Thrown) : bool :=
  let message := messageOrString error in
  let lower := toLowerCase message in
  let code := codeString error in
  String.eqb code "429"
  || test_any_i ["rate limit"; "rate_limit"; "ratelimit"; "quota";
                 "resource exhausted"; "resource_exhausted";
                 "too many requests"; "429"] lower
  || test_any_i ["quota exceeded"; "billing"; "limit exceeded"] lower.

(** [x || ""] for a string that may be undefined. *)
Definition orEmpty (x : option string) : string := default EmptyString x.

(** [extractTextFromFile(file)] (lines 35-61). *)
Definition extractTextFromFile (env : Env) (file : File) : M string :=
  let buffer := file_bytes file in
  if MAX_FILE_SIZE_BYTES <? Z.of_nat (String.length buffer) then
    throw (newError "File is too large. Please upload a file under 10MB.")
  else
    let mimeType := file_type file in
    let lowerName := toLowerCase (file_name file) in
    if String.eqb mimeType "application/pdf" || endsWith ".pdf" lowerName then
      let! parsed := callPdfParse env buffer in
      ret (orEmpty (text parsed))
    else if String.eqb mimeType
              "application/vnd.openxmlformats-officedocument.wordprocessingml.document"
            || endsWith ".docx" lowerName then
      let! result := lift (mammoth_extractRawText env buffer) in
      ret (orEmpty result)
    else
      throw (newError "Unsupported file type. Please upload a PDF or DOCX file.").

(** [getPdfPageCount(pdfBuffer)] (lines 64-67): [numpages ?? 0]. *)
Definition getPdfPageCount (env : Env) (pdfBuffer : Buffer) : M Z :=
  do! log (EvPageCount pdfBuffer) in
  let! parsed := callPdfParse env pdfBuffer in
  ret (default 0 (numpages parsed)).

Definition LATEX_TO_PDF_FAILED : string :=
  "Failed to convert LaTeX to PDF. Please ensure LaTeX code is valid.".

(** [latexToPdf(latexCode)] (lines 213-340): whatever the [try] block
    throws is replaced by one fixed error. *)
Definition latexToPdf (env : Env) (latexCode : string) : M Buffer :=
  let! r := attempt (callLatexToPdf_try env latexCode) in
  match r with
  | inr pdfBuffer => ret pdfBuffer
  | inl _ => throw (newError LATEX_TO_PDF_FAILED)
  end.

Definition MAX_LLM_RETRIES : Z := 3.
Definition BACKOFF_MS : list Z := [2000; 4000].

(** The [for] loop of lines 511-525 with [n] iterations left, at index
    [attempt]; [None] when the loop ends without a response. *)
Fixpoint invokeLoop (env : Env) (prompt : Prompt) (n : nat) (attempt_ix : Z)
  : M (option Content) :=
  match n with
  | O => ret None
  | S n' =>
      let! r := attempt (invoke env prompt) in
      match r with
      | inr response => ret (Some response)
      | inl invokeError =>
          let isLastAttempt := attempt_ix =? MAX_LLM_RETRIES - 1 in
          if isRateLimitError invokeError && negb isLastAttempt then
            let delay :=
              default (default 0 (last BACKOFF_MS))
                      (BACKOFF_MS !! Z.to_nat attempt_ix) in
            do! sleep delay in
            invokeLoop env prompt n' (attempt_ix + 1)
          else throw invokeError
      end
  end.

(** The text of a response (lines 529-553). *)
Definition chunkText (chunk : Chunk) : string :=
  match chunk with
  | ChunkStr s => s
  | ChunkObj (Some maybeText) => maybeText
  | ChunkObj None | ChunkOther => EmptyString
  end.

Definition contentText (content : Content) : string :=
  match content with
  | ContentStr s => trim s
  | ContentArr chunks => trim (join (String "010" EmptyString) (map chunkText chunks))
  | ContentOther str => trim str
  end.

(** The hint as the template sees it: an empty hint is no hint. *)
Definition truthy (shortenHint : option string) : option string :=
  match shortenHint with
  | Some EmptyString | None => None
  | Some h => Some h
  end.

(** [process.env.GEMINI_API_KEY || process.env.GOOGLE_API_KEY || ""] *)
Definition apiKey (env : Env) : string :=
  match truthy (GEMINI_API_KEY env), truthy (GOOGLE_API_KEY env) with
  | Some k, _ => k
  | None, Some k => k
  | None, None => EmptyString
  end.

(** [getTailoredResume({ resumeText, jobDescription, shortenHint })]
    (lines 342-554). *)
Definition getTailoredResume (env : Env) (resumeText jobDescription : string)
    (shortenHint : option string) : M string :=
  do! log (EvGenerate shortenHint) in
  if String.eqb (apiKey env) EmptyString then
    throw (newError
      "Missing Gemini API key. Set GEMINI_API_KEY or GOOGLE_API_KEY in your environment.")
  else
    let prompt := mkPrompt (truthy shortenHint) resumeText jobDescription in
    let! response := invokeLoop env prompt (Z.to_nat MAX_LLM_RETRIES) 0 in
    match response with
    | None => throw (newError "LLM did not return a response.")
    | Some response => ret (contentText (response : Content))
    end.

Definition MAX_PAGE_ITERATIONS : Z := 3.

Definition SHORTEN_HINT_FIRST : string :=
  "Your previous output was more than one page. You MUST shorten it: reduce to 2-3 bullet points per role, use more concise phrasing, omit less relevant roles or sections. The resume MUST fit on a single A4 page. Preserve the most important achievements and maintain skills categorization.".

Definition SHORTEN_HINT_AGAIN : string :=
  "Your output is STILL more than one page. Be more aggressive: at most 2 bullets per role, more concise wording, but still maintain skills categorization. Fit on ONE page only.".

(** The variables the page loop assigns. *)
Record Fit := mkFit {
  latexCode : string;
  pdfBuffer : Buffer;
  pageCount : Z
}.

(** The [for] loop of lines 632-646 with [n] iterations left, at index
    [iteration]. *)
Fixpoint shortenLoop (env : Env) (resumeText jobDescription : string)
    (n : nat) (iteration : Z) (cur : Fit) : M Fit :=
  match n with
  | O => ret cur
  | S n' =>
      let shortenHint :=
        if iteration =? 1 then SHORTEN_HINT_FIRST else SHORTEN_HINT_AGAIN in
      let! latexCode := getTailoredResume env resumeText jobDescription (Some shortenHint) in
      let! pdfBuffer := latexToPdf env latexCode in
      let! pageCount := getPdfPageCount env pdfBuffer in
      let next := mkFit latexCode pdfBuffer pageCount in
      if pageCount <=? 1 then ret next
      else shortenLoop env resumeText jobDescription n' (iteration + 1) next
  end.

(** Lines 616-647 of [POST]: the first attempt without a hint, then the
    shortening loop while the PDF has more than one page. *)
Definition fitToOnePage (env : Env) (resumeText jobDescription : string) : M Fit :=
  let! latexCode := getTailoredResume env resumeText jobDescription None in
  let! pdfBuffer := latexToPdf env latexCode in
  let! pageCount := getPdfPageCount env pdfBuffer in
  let first := mkFit latexCode pdfBuffer pageCount in
  if 1 <? pageCount then
    shortenLoop env resumeText jobDescription
                (Z.to_nat (MAX_PAGE_ITERATIONS - 1)) 1 first
  else ret first.

(** [String(formData.get(name) || "").trim()] *)
Definition field (fd : gmap string FormValue) (name : string) : string :=
  trim match fd !! name with
       | Some (FormString s) => s
       | Some (FormFile _) => "[object File]"
       | None => EmptyString
       end.

(** [checkAndReserveConversion(userId)] on the collection of the world. *)
Definition reserve (clk : Clock) (userId : string) : M LimitResult :=
  do! log (EvReserve userId) in
  fun w =>
    match checkAndReserveConversion clk userId (users w) with
    | inl e => (inl e, w)
    | inr (r, fs') =>
        (inr r, mkWorld fs' (n_invoke w) (n_render w) (n_parse w) (trace w))
    end.

(** Lines 584-663 of [POST]: what follows a granted reservation, the
    validation of the input, the page loop and the response. *)
Definition POST_tailor (env : Env) (formData : gmap string FormValue)
  : M NextResponse :=
  let file := formData !! "resume" in
  let resumeTextInput := field formData "resumeText" in
  let jobDescription := field formData "jobDescription" in
  if String.eqb jobDescription EmptyString then
    ret (json (BodyError "Job description is required.") 400)
  else
    let continue (resumeText : string) : M NextResponse :=
      if String.eqb resumeText EmptyString then
        ret (json (BodyError
          "Resume text is empty. Please provide a valid resume file or paste resume content.")
          400)
      else
        let! fit := fitToOnePage env resumeText jobDescription in
        let extractedName := extractNameFromLatex env (latexCode fit) in
        let filename := generateFilename env extractedName in
        let pdfBase64 := toBase64 env (pdfBuffer fit) in
        ret (json (BodyTailored pdfBase64 (latexCode fit) filename) 200) in
    if negb (String.eqb resumeTextInput EmptyString) then
      continue resumeTextInput
    else
      match file with
      | Some (FormFile file) =>
          let! extracted := extractTextFromFile env file in
          continue (trim extracted)
      | _ =>
          ret (json (BodyError
            "Please provide either a resume file or paste resume text.") 400)
      end.

(** The [try] block of [POST] (lines 558-663): the form, the identity
    check, the reservation, then [POST_tailor]. *)
Definition POST_try (env : Env) (clk : Clock) (req : NextRequest) : M NextResponse :=
  let! formData := lift (formData req) in
  let userId := field formData "userId" in
  if String.eqb userId EmptyString then
    ret (json (BodyError "User authentication required.") 401)
  else
    let! limitCheck := reserve clk userId in
    if negb (allowed limitCheck) then
      ret (json (BodyError
                   match truthy (reason limitCheck) with
                   | Some r => r
                   | None => "Conversion limit reached."
                   end) 429)
    else POST_tailor env formData.

(** The world after a reservation that left the collection [fs']. *)
Definition reserved (userId : string) (fs' : gmap string UserDoc) (w : World) : World :=
  mkWorld fs' (n_invoke w) (n_render w) (n_parse w) (trace w ++ [EvReserve userId]).

(** Input that [POST_tailor] rejects before any generation: no job
    description, or neither pasted text nor a file. *)
Definition missingInput (fd : gmap string FormValue) : Prop :=
  field fd "jobDescription" = EmptyString
  \/ (field fd "resumeText" = EmptyString
      /\ forall f, fd !! "resume" <> Some (FormFile f)).

(** The [catch] block of [POST] (lines 664-686). *)
Definition POST_catch (env : Env) (error : Thrown) : NextResponse :=
  let message :=
    match error with
    | ErrorObj m _ => m
    | NonError _ _ => "Unknown error occurred."
    end in
  let isCredentialsError :=
    test_any_i ["default credentials"; "credentials"; "FIREBASE_SERVICE_ACCOUNT";
                "GOOGLE_APPLICATION_CREDENTIALS"] message in
  let isRateLimited := isRateLimitError error in
  let userMessage :=
    if isRateLimited then
      "The resume service is temporarily busy due to high demand. Please try again in a few minutes."
    else if isCredentialsError then
      "Server configuration: set FIREBASE_SERVICE_ACCOUNT (Firebase service account JSON) for tailoring and rate limiting to work. See Firebase Admin setup docs."
    else if bool_decide (NODE_ENV env = Some "development") then message
    else "Please try again later." in
  let status := if isRateLimited then 503 else 500 in
  json (BodyError (if isRateLimited then userMessage
                   else "Failed to tailor resume. " +:+ userMessage))
       status.

(** [POST(req)] (lines 556-687). *)
Definition POST (env : Env) (clk : Clock) (req : NextRequest) (w : World)
  : NextResponse * World :=
  match POST_try env clk req w with
  | (inr response, w') => (response, w')
  | (inl error, w') => (POST_catch env error, w')
  end.

(** How often an event of a kind occurs in a trace. *)
Definition isGenerate (e : Event) : bool :=
  match e with EvGenerate _ => true | _ => false end.
Definition isInvoke (e : Event) : bool :=
  match e with EvInvoke _ => true | _ => false end.
Definition isSleep (e : Event) : bool :=
  match e with EvSleep _ => true | _ => false end.
Definition isRender (e : Event) : bool :=
  match e with EvRender _ => true | _ => false end.
Definition isPageCount (e : Event) : bool :=
  match e with EvPageCount _ => true | _ => false end.

Definition count (p : Event -> bool) (tr : list Event) : nat :=
  length (List.filter p tr).

(** The events a run added to the trace. *)
Definition newEvents (w w' : World) : list Event :=
  drop (length (trace w)) (trace w').

(** One attempt that succeeds: from the world [w], [getTailoredResume]
    with the hint [h] returns the markup of [fit], the renderer turns it
    into the PDF of [fit], the parser reports the page count of [fit], and
    the world is [w'] afterwards. *)
Definition attemptAt (env : Env) (resumeText jobDescription : string)
    (h : option string) (w : World) (fit : Fit) (w' : World) : Prop :=
  exists w1 pd,
    getTailoredResume env resumeText jobDescription h w = (inr (latexCode fit), w1)
    /\ latexToPdf_try env (n_render w1) (latexCode fit) = inr (pdfBuffer fit)
    /\ pdfParse env (n_parse w1) (pdfBuffer fit) = inr pd
    /\ pageCount fit = default 0 (numpages pd)
    /\ w' = counted (pdfBuffer fit) (rendered (latexCode fit) w1).

(** The model, the renderer and the parser of a run in which no attempt
    fits: generation and rendering always succeed and the parser always
    reports two pages or more. *)
Definition generateSucceeds (env : Env) (resumeText jobDescription : string) : Prop :=
  forall h w, exists l w',
    getTailoredResume env resumeText jobDescription h w = (inr l, w').

Definition renderSucceeds (env : Env) : Prop :=
  forall k l, exists b, latexToPdf_try env k l = inr b.

Definition neverFits (env : Env) : Prop :=
  forall k b, exists pd n,
    pdfParse env k b = inr pd /\ numpages pd = Some n /\ 2 <= n.

(** The markups handed to the renderer in a trace, in order. *)
Definition renders (tr : list Event) : list string :=
  omap (fun e => match e with EvRender l => Some l | _ => None end) tr.

(** The run from [w] to [w'] handed the markup [l] to the renderer as the
    call number [i] of the renderer. *)
Definition renderedAt (w w' : World) (i : nat) (l : string) : Prop :=
  (n_render w <= i)%nat
  /\ renders (newEvents w w') !! (i - n_render w)%nat = Some l.

(** From [w] to [w0] the renderer was called once for each rendering event
    and produced a PDF for every markup it was handed. *)
Definition rendersOk (env : Env) (w w0 : World) : Prop :=
  exists evs,
    trace w0 = trace w ++ evs
    /\ n_render w0 = (n_render w + length (renders evs))%nat
    /\ forall k l, renders evs !! k = Some l ->
         exists b, latexToPdf_try env (n_render w + k) l = inr b.

(** How a run from [w] ends in which a rendering faulted: every rendering
    before succeeded, and the world [w'] is the one right after the faulting
    call. *)
Definition stoppedAtFault (env : Env) (w w' : World) : Prop :=
  exists w1 l e,
    rendersOk env w w1
    /\ latexToPdf_try env (n_render w1) l = inl e
    /\ w' = rendered l w1.

(** The events of [m] rate-limited attempts on the prompt [p]: each call
    is followed by its delay. *)
Definition retryEvents (p : Prompt) (m : nat) : list Event :=
  flat_map (fun d => [EvInvoke p; EvSleep d]) (take m BACKOFF_MS).

(** The delays of a trace, in order. *)
Definition delays (tr : list Event) : list Z :=
  omap (fun e => match e with EvSleep ms => Some ms | _ => None end) tr.

(** The hints of the generations of a trace, in order, and the sum of its
    delays. *)
Definition hints (tr : list Event) : list (option string) :=
  omap (fun e => match e with EvGenerate h => Some h | _ => None end) tr.

Definition totalDelay (tr : list Event) : Z :=
  foldr Z.add 0 (delays tr).

(** The hints of a whole run of the page loop, in the order of use. *)
Definition HINT_SCHEDULE : list (option string) :=
  [None; Some SHORTEN_HINT_FIRST; Some SHORTEN_HINT_AGAIN].

(** From [w] to [w']: the collection is the same and what was added are
    generations with the hints [hs] and, for each of them, at most three
    calls of the model, one rendering, one page count and 6000 ms of
    delay. *)
Definition grew (hs : list (option string)) (w w' : World) : Prop :=
  users w' = users w
  /\ (n_invoke w' <= n_invoke w + 3 * length hs)%nat
  /\ (n_render w' <= n_render w + length hs)%nat
  /\ (n_parse w' <= n_parse w + length hs)%nat
  /\ exists evs,
       trace w' = trace w ++ evs
       /\ hints evs = hs
       /\ totalDelay evs <= 6000 * Z.of_nat (length hs).

(** The words [isRateLimitError] looks for, those of its two patterns. *)
Definition RATE_LIMIT_WORDS : list string :=
  ["rate limit"; "rate_limit"; "ratelimit"; "quota"; "resource exhausted";
   "resource_exhausted"; "too many requests"; "429";
   "quota exceeded"; "billing"; "limit exceeded"].

(** [s] contains [p]. *)
Definition contains (p s : string) : Prop :=
  exists pre post, s = pre +:+ p +:+ post.

(** From [w] to [w0] nothing was generated, rendered or delayed: at most
    one document was parsed and events without hint or delay were added. *)
Definition quiet (w w0 : World) : Prop :=
  n_invoke w0 = n_invoke w
  /\ n_render w0 = n_render w
  /\ (n_parse w0 <= n_parse w + 1)%nat
  /\ exists pre, trace w0 = trace w ++ pre /\ hints pre = [] /\ totalDelay pre = 0.

End Tailor.

(* ===================================================================== *)
(** ** The file name of the download: [generateFilename] *)
(* ===================================================================== *)

Module Filename.
Import Js.

(** [\w]: a letter, a digit or the underscore. *)
Definition isWord (c : ascii) : bool :=
  let n := nat_of_ascii c in
  ((48 <=? n) && (n <=? 57) || (65 <=? n) && (n <=? 90)
   || (97 <=? n) && (n <=? 122) || (n =? 95))%nat.

Definition isHyphen (c : ascii) : bool := Ascii.eqb c "-".
Definition isUnderscore (c : ascii) : bool := Ascii.eqb c "_".

(** [s.replace(/[^\w\s-]/g, '')]: only word characters, white space and
    hyphens stay.  White space is the ASCII white space of [trim]: the
    bytes of another Unicode space are dropped here, where the source keeps
    the space and then turns it into an underscore. *)
Fixpoint keepNameChars (s : string) : string :=
  match s with
  | EmptyString => EmptyString
  | String c r =>
      if isWord c || Ascii.is_space c || isHyphen c
      then String c (keepNameChars r) else keepNameChars r
  end.

(** [s.replace(/\s+/g, '_')]: every maximal run of white space becomes one
    underscore. *)
Fixpoint spacesToUnderscore (s : string) : string :=
  match s with
  | EmptyString => EmptyString
  | String c r =>
      if Ascii.is_space c then
        match r with
        | String c' _ =>
            if Ascii.is_space c' then spacesToUnderscore r
            else String "_" (spacesToUnderscore r)
        | EmptyString => String "_" EmptyString
        end
      else String c (spacesToUnderscore r)
  end.

(** [s.replace(/_+/g, '_')]: every run of underscores becomes one. *)
Fixpoint squeezeUnderscores (s : string) : string :=
  match s with
  | EmptyString => EmptyString
  | String c r =>
      if isUnderscore c then
        match r with
        | String c' _ =>
            if isUnderscore c' then squeezeUnderscores r
            else String "_" (squeezeUnderscores r)
        | EmptyString => String "_" EmptyString
        end
      else String c (squeezeUnderscores r)
  end.

(** The last character is dropped when it is an underscore. *)
Fixpoint dropLastUnderscore (s : string) : string :=
  match s with
  | EmptyString => EmptyString
  | String c EmptyString => if isUnderscore c then EmptyString else s
  | String c r => String c (dropLastUnderscore r)
  end.

(** [s.replace(/^_|_$/g, '')]: an underscore at the start and one at the end
    are removed. *)
Definition stripUnderscores (s : string) : string :=
  match s with
  | String c r => if isUnderscore c then dropLastUnderscore r else dropLastUnderscore s
  | EmptyString => EmptyString
  end.

(** [s.substring(0, n)] *)
Fixpoint substring0 (n : nat) (s : string) : string :=
  match n, s with
  | S n', String c r => String c (substring0 n' r)
  | _, _ => EmptyString
  end.

Definition SUFFIX : string := "_Tailored_Resume.pdf".

(** The cleaned name (lines 198-208). *)
Definition cleanName (name : string) : string :=
  let cleanName :=
    stripUnderscores
      (squeezeUnderscores (spacesToUnderscore (keepNameChars (trim name)))) in
  if (50 <? String.length cleanName)%nat then substring0 50 cleanName
  else cleanName.

(** [generateFilename(name, fallback)] (lines 192-211). *)
Definition generateFilename (name fallback : string) : string :=
  if String.eqb name EmptyString || (String.length (trim name) =? 0)%nat then
    fallback +:+ SUFFIX
  else cleanName name +:+ SUFFIX.

(** Every character of [s] satisfies [p]. *)
Fixpoint allChars (p : ascii -> bool) (s : string) : bool :=
  match s with
  | EmptyString => true
  | String c r => p c && allChars p r
  end.

End Filename.

(* ===================================================================== *)
(** ** The status endpoint: [src/unnamed/part_003], lines 1-62 *)
(* ===================================================================== *)

Module LimitRoute.
Import Js Ledger.

(** The JSON body, as far as the handler reads it: [userId] and [action]
    when they are strings. *)
Record LimitBody := mkLimitBody {
  userId : option string;
  action : option string
}.

Inductive RouteBody :=
| RouteError (error : string)
| RouteStatus (remaining : Z) (isSpecial : bool)
| RouteMessage (message : string).

Record RouteResponse := routeJson {
  body : RouteBody;
  status : Z
}.

Definition CREDENTIALS_WORDS : list string :=
  ["default credentials"; "credentials"; "FIREBASE_SERVICE_ACCOUNT";
   "GOOGLE_APPLICATION_CREDENTIALS"].

(** [POST(req)] (lines 10-62).  [req] is what [req.json()] gives or
    throws; [admin] is the collection, or what [getAdminFirestore] or the
    read throws. *)
Definition POST (admin : Thrown + gmap string UserDoc) (now : Z)
    (req : Thrown + LimitBody) : RouteResponse :=
  let try : Thrown + RouteResponse :=
    match req with
    | inl e => inl e
    | inr body =>
        match userId body with
        | None | Some EmptyString =>
            inr (routeJson (RouteError "User ID is required.") 400)
        | Some userId =>
            if bool_decide (action body = Some "check") then
              match admin with
              | inl e => inl e
              | inr fs =>
                  let limitCheck := checkServerConversionLimit now userId fs in
                  let remaining := default 0 (Ledger.remaining limitCheck) in
                  inr (routeJson (RouteStatus remaining (remaining =? -1)) 200)
              end
            else if bool_decide (action body = Some "record") then
              inr (routeJson
                     (RouteMessage "Conversions are recorded by the tailor API.") 200)
            else inr (routeJson (RouteError "Invalid action.") 400)
        end
    end in
  match try with
  | inr response => response
  | inl error =>
      let message := messageOrString error in
      let isCredentialsError := test_any_i CREDENTIALS_WORDS message in
      if isCredentialsError then routeJson (RouteStatus 1 false) 200
      else routeJson (RouteError "Internal server error.") 500
  end.

End LimitRoute.

(* ===================================================================== *)
(** ** The browser-side checks: [src/lib/rateLimit.ts] *)
(* ===================================================================== *)

Module ClientLimit.
Import Js Ledger.

(** [x || null] for a string field. *)
Definition orNull (x : option string) : option string :=
  match x with
  | Some EmptyString | None => None
  | Some s => Some s
  end.

(** [checkConversionLimit(userId)] (lines 19-66).  [read] is the
    collection, or what [getDoc] throws. *)
Definition checkConversionLimit (read : Thrown + gmap string UserDoc)
    (now : Z) (userId : string) : LimitResult :=
  match read with
  | inl _ => mkLimitResult true None (Some 1)
  | inr fs =>
      let userDoc := fs !! userId in
      if bool_decide ((userDoc ≫= isSpecial) = Some true) then
        mkLimitResult true None (Some (-1))
      else
        let today := getTodayUTC now in
        let lastConversionDate := orNull (userDoc ≫= lastConversionDate) in
        let conversionsToday := default 0 (userDoc ≫= conversionsToday) in
        if bool_decide (lastConversionDate = Some today) then
          if 1 <=? conversionsToday then
            mkLimitResult false (Some DAILY_LIMIT_REASON) (Some 0)
          else mkLimitResult true None (Some (1 - conversionsToday))
        else mkLimitResult true None (Some 1)
  end.

(** [UserLimits & { remaining: number }] *)
Record UserLimits := mkUserLimits {
  ul_isSpecial : bool;
  ul_lastConversionDate : option string;
  ul_conversionsToday : Z;
  ul_remaining : Z
}.

(** [getUserLimitStatus(userId)] (lines 107-164). *)
Definition getUserLimitStatus (read : Thrown + gmap string UserDoc)
    (now : Z) (userId : string) : UserLimits :=
  match read with
  | inl _ => mkUserLimits false None 0 1
  | inr fs =>
      match fs !! userId with
      | None => mkUserLimits false None 0 1
      | Some userData =>
          let today := getTodayUTC now in
          let lastConversionDate := orNull (lastConversionDate userData) in
          let conversionsToday := default 0 (conversionsToday userData) in
          if bool_decide (isSpecial userData = Some true) then
            mkUserLimits true lastConversionDate conversionsToday (-1)
          else if bool_decide (lastConversionDate = Some today) then
            mkUserLimits false lastConversionDate conversionsToday
                         (Z.max 0 (1 - conversionsToday))
          else mkUserLimits false None 0 1
      end
  end.

End ClientLimit.

(* ===================================================================== *)
(** ** Statements about the ledger: the three possible answers *)
(* ===================================================================== *)

Import Js Ledger.

Definition GRANTED : LimitResult := mkLimitResult true None (Some 0).
Definition DENIED : LimitResult := mkLimitResult false (Some DAILY_LIMIT_REASON) (Some 0).
Definition UNLIMITED : LimitResult := mkLimitResult true None (Some (-1)).

(** The document a grant on a new day leaves behind: [isSpecial] is kept,
    the four other fields are written. *)
Definition reservedDoc (today : string) (clk : Clock) (old : option UserDoc) : UserDoc :=
  {| isSpecial := old ≫= isSpecial;
     lastConversionDate := Some today;
     conversionsToday := Some 1;
     lastConversion := Some (now_lastConversion clk);
     updatedAt := Some (now_updatedAt clk) |}.

(** Sample documents, a sample schedule and stub services, for the
    instances below.  [stubEnv] has an API key; its parser reports
    [pages k] pages on call [k]. *)
Definition stubEnv (model : nat -> Tailor.Prompt -> Thrown + Tailor.Content)
    (render : nat -> string -> Thrown + string) (pages : nat -> Z) : Tailor.Env :=
  {| Tailor.GEMINI_API_KEY := Some "test-key";
     Tailor.GOOGLE_API_KEY := None;
     Tailor.NODE_ENV := Some "production";
     Tailor.model_invoke := model;
     Tailor.latexToPdf_try := render;
     Tailor.pdfParse := fun k _ => inr (Tailor.mkPdfData (Some (pages k)) None);
     Tailor.mammoth_extractRawText := fun _ => inr None;
     Tailor.toBase64 := fun b => b;
     Tailor.extractNameFromLatex := fun _ => EmptyString;
     Tailor.generateFilename := fun _ => "Resume_Tailored_Resume.pdf" |}.

(** The model answers every call with the same markup and the renderer
    always produces a PDF. *)
Definition answering : nat -> Tailor.Prompt -> Thrown + Tailor.Content :=
  fun _ _ => inr (Tailor.ContentStr " \\section{Education} ").

Definition rendering : nat -> string -> Thrown + string :=
  fun _ latexCode => inr ("%PDF " +:+ latexCode).

Definition world0 : Tailor.World := Tailor.mkWorld ∅ 0 0 0 [].

(** A model that is rate limited on its first two calls, answers the
    third and fails for good on the fourth. *)
Definition throttledTwice : nat -> Tailor.Prompt -> Thrown + Tailor.Content :=
  fun k _ =>
    match k with
    | 0%nat => inl (ErrorObj "[429 Too Many Requests] Resource has been exhausted" None)
    | 1%nat => inl (ErrorObj "fetch failed" (Some "429"))
    | 2%nat => inr (Tailor.ContentStr " \\section{Education} ")
    | _ => inl (newError "API key not valid. Please pass a valid API key.")
    end.

(** A model that is rate limited on every call. *)
Definition alwaysThrottled : nat -> Tailor.Prompt -> Thrown + Tailor.Content :=
  fun k _ => inl (ErrorObj "Quota exceeded for quota metric" (Some "8")).

(** A renderer whose call number [i] faults. *)
Definition faultingAt (i : nat) : nat -> string -> Thrown + string :=
  fun k latexCode =>
    if Nat.eqb k i then inl (newError "Protocol error: Target closed")
    else inr ("%PDF " +:+ latexCode).

(** A model whose answer to a prompt that asks to shorten is cut off, and
    a renderer that faults on one markup, at whichever call it receives
    it. *)
Definition answeringCutOff : nat -> Tailor.Prompt -> Thrown + Tailor.Content :=
  fun _ p =>
    match Tailor.p_shorten p with
    | Some _ => inr (Tailor.ContentStr "\\section{Educ")
    | None => inr (Tailor.ContentStr " \\section{Education} ")
    end.

Definition rejecting (bad : string) : nat -> string -> Thrown + string :=
  fun _ latexCode =>
    if String.eqb latexCode bad then inl (newError "Protocol error: Target closed")
    else inr ("%PDF " +:+ latexCode).

(** A request without job description and a complete one, both of the
    user "alice". *)
Definition incompleteRequest : Tailor.NextRequest :=
  Tailor.mkRequest
    (inr {[ "userId" := Tailor.FormString " alice ";
            "resumeText" := Tailor.FormString "Ten years of plumbing." ]}).

Definition completeRequest : Tailor.NextRequest :=
  Tailor.mkRequest
    (inr {[ "userId" := Tailor.FormString "alice";
            "resumeText" := Tailor.FormString "Ten years of plumbing.";
            "jobDescription" := Tailor.FormString "Plumber wanted." ]}).

Definition usedToday : UserDoc :=
  mkUserDoc (Some false) (Some "2026-11-02") (Some 1) (Some 1793577600200) (Some 1793577600201).

Definition vip : UserDoc := mkUserDoc (Some true) None (Some 7) None None.

Definition sameDaySchedule : list Concurrent.Action :=
  [Concurrent.ReadToday 1 1793577600123; Concurrent.ReadToday 0 1793577600124;
   Concurrent.ReadToday 2 1793577600125;
   Concurrent.Transact 2 1793577600130 1793577600131;
   Concurrent.Transact 0 1793577600140 1793577600141;
   Concurrent.Transact 1 1793577600150 1793577600151].

(* ===================================================================== *)
(** ** The calendar date of a clock reading *)
(* ===================================================================== *)

Module DateFacts.
Import JsDate.

Lemma all_from_spec (p : Z -> bool) (n : nat) (i j : Z) :
  all_from n i p = true -> i <= j < i + Z.of_nat n -> p j = true.
Proof.
  revert i. induction n as [|n IH]; intros i Hall Hj; [lia|].
  simpl in Hall. apply andb_true_iff in Hall as [Hi Hrest].
  destruct (Z.eq_dec i j) as [->|Hne]; [exact Hi|].
  apply (IH (i + 1)); [exact Hrest | lia].
Qed.

Lemma every_doe_ok : all_from (Z.to_nat 146097) 0 doe_ok = true.
Proof. vm_compute. reflexivity. Qed.

Lemma doe_ok_range (doe : Z) : 0 <= doe < 146097 -> doe_ok doe = true.
Proof.
  intros H. apply (all_from_spec doe_ok (Z.to_nat 146097) 0); [exact every_doe_ok | lia].
Qed.

Lemma civil_from_days_of_doe (days : Z) :
  civil_from_days days =
  let z := days + 719468 in
  let '(yoe, m, d) := of_doe (z mod 146097) in
  (if m <=? 2 then yoe + z / 146097 * 400 + 1 else yoe + z / 146097 * 400, m, d).
Proof. reflexivity. Qed.

Lemma days_from_civil_shift (era yoe m d : Z) :
  0 <= yoe < 400 ->
  days_from_civil (if m <=? 2 then yoe + era * 400 + 1 else yoe + era * 400, m, d)
  = era * 146097
    + days_from_civil (if m <=? 2 then yoe + 1 else yoe, m, d).
Proof.
  intros Hyoe. unfold days_from_civil.
  assert (Hy : (if m <=? 2 then (if m <=? 2 then yoe + era * 400 + 1 else yoe + era * 400) - 1
                else (if m <=? 2 then yoe + era * 400 + 1 else yoe + era * 400))
               = yoe + era * 400) by (destruct (m <=? 2); lia).
  assert (Hy0 : (if m <=? 2 then (if m <=? 2 then yoe + 1 else yoe) - 1
                 else (if m <=? 2 then yoe + 1 else yoe)) = yoe)
    by (destruct (m <=? 2); lia).
  rewrite Hy, Hy0.
  rewrite Z.div_add, Z.mod_add by lia.
  rewrite (Z.div_small yoe 400), (Z.mod_small yoe 400) by lia.
  lia.
Qed.

(** The day number is recovered from the calendar date. *)
Lemma days_from_civil_from_days (days : Z) :
  days_from_civil (civil_from_days days) = days.
Proof.
  rewrite civil_from_days_of_doe. cbv zeta.
  pose proof (Z.mod_pos_bound (days + 719468) 146097 ltac:(lia)) as Hdoe.
  pose proof (doe_ok_range _ Hdoe) as Hok.
  unfold doe_ok in Hok.
  destruct (of_doe ((days + 719468) mod 146097)) as [[yoe m] d].
  repeat (apply andb_true_iff in Hok as [Hok ?]).
  rewrite days_from_civil_shift by lia.
  pose proof (Z.div_mod (days + 719468) 146097 ltac:(lia)).
  lia.
Qed.

Lemma civil_from_days_range (days : Z) :
  let '(y, m, d) := civil_from_days days in
  1 <= m <= 12 /\ 1 <= d <= 31
  /\ (days + 719468) / 146097 * 400 <= y <= (days + 719468) / 146097 * 400 + 400.
Proof.
  rewrite civil_from_days_of_doe. cbv zeta.
  pose proof (Z.mod_pos_bound (days + 719468) 146097 ltac:(lia)) as Hdoe.
  pose proof (doe_ok_range _ Hdoe) as Hok.
  unfold doe_ok in Hok.
  destruct (of_doe ((days + 719468) mod 146097)) as [[yoe m] d].
  repeat (apply andb_true_iff in Hok as [Hok ?]).
  destruct (m <=? 2); lia.
Qed.

Lemma length_append (a b : string) :
  String.length (a +:+ b) = (String.length a + String.length b)%nat.
Proof. induction a as [|c a IH]; simpl; [reflexivity | now rewrite IH]. Qed.

Lemma append_inj_length (a a' b b' : string) :
  String.length a = String.length a' ->
  a +:+ b = a' +:+ b' -> a = a' /\ b = b'.
Proof.
  revert a'. induction a as [|c a IH]; intros [|c' a'] Hlen Heq;
    simpl in *; try discriminate.
  - split; [reflexivity | exact Heq].
  - injection Heq as -> Heq. injection Hlen as Hlen.
    destruct (IH a' Hlen Heq) as [-> ->]. split; reflexivity.
Qed.

Lemma lacks_append (c : ascii) (a b : string) :
  lacks c (a +:+ b) = lacks c a && lacks c b.
Proof.
  induction a as [|x a IH]; simpl; [reflexivity|].
  rewrite IH. now rewrite andb_assoc.
Qed.

(** The first piece of a split is what precedes the first separator. *)
Lemma split_hd_append (sep : ascii) (s rest : string) :
  lacks sep s = true ->
  hd EmptyString (split sep (s +:+ String sep rest)) = s.
Proof.
  induction s as [|c s IH]; simpl; intros Hl.
  - now rewrite Ascii.eqb_refl.
  - apply andb_true_iff in Hl as [Hc Hs].
    apply negb_true_iff in Hc. rewrite Hc.
    specialize (IH Hs).
    destruct (split sep (s +:+ String sep rest)) as [|x xs]; simpl in *;
      now rewrite IH.
Qed.

Lemma digit_code (z : Z) :
  0 <= z < 10 -> nat_of_ascii (digit z) = (48 + Z.to_nat z)%nat.
Proof. intros H. unfold digit. apply nat_ascii_embedding. lia. Qed.

Lemma digit_inj (a b : Z) :
  0 <= a < 10 -> 0 <= b < 10 -> digit a = digit b -> a = b.
Proof.
  intros Ha Hb Heq. apply (f_equal nat_of_ascii) in Heq.
  rewrite !digit_code in Heq by assumption. lia.
Qed.

Lemma digit_not_T (z : Z) : 0 <= z < 10 -> Ascii.eqb (digit z) "T" = false.
Proof.
  intros H. apply Ascii.eqb_neq. intros Heq.
  apply (f_equal nat_of_ascii) in Heq. rewrite digit_code in Heq by assumption.
  change (nat_of_ascii "T") with 84%nat in Heq. lia.
Qed.

Lemma pad_length (k : nat) (z : Z) : String.length (pad k z) = k.
Proof.
  revert z. induction k as [|k IH]; intros z; cbn [pad]; [reflexivity|].
  rewrite length_append, IH. cbn [String.length]. lia.
Qed.

Lemma pad_lacks_T (k : nat) (z : Z) : lacks "T" (pad k z) = true.
Proof.
  revert z. induction k as [|k IH]; intros z; cbn [pad lacks]; [reflexivity|].
  rewrite lacks_append, IH. cbn [lacks].
  rewrite digit_not_T by (apply Z.mod_pos_bound; lia). reflexivity.
Qed.

Lemma pad_inj (k : nat) (a b : Z) :
  pad k a = pad k b -> a mod 10 ^ Z.of_nat k = b mod 10 ^ Z.of_nat k.
Proof.
  revert a b. induction k as [|k IH]; intros a b Heq.
  - change (10 ^ Z.of_nat 0) with 1. now rewrite !Z.mod_1_r.
  - cbn [pad] in Heq.
    apply append_inj_length in Heq as [Hhi Hlo]; [|now rewrite !pad_length].
    injection Hlo as Hlo.
    apply digit_inj in Hlo; try (apply Z.mod_pos_bound; lia).
    apply IH in Hhi.
    rewrite Nat2Z.inj_succ, Z.pow_succ_r by lia.
    rewrite !(Z.rem_mul_r _ 10 (10 ^ Z.of_nat k)) by lia.
    lia.
Qed.

Lemma pad_inj_small (k : nat) (a b : Z) :
  0 <= a < 10 ^ Z.of_nat k -> 0 <= b < 10 ^ Z.of_nat k ->
  pad k a = pad k b -> a = b.
Proof.
  intros Ha Hb Heq. apply pad_inj in Heq.
  now rewrite !Z.mod_small in Heq by assumption.
Qed.

Lemma year_string_length (y : Z) :
  String.length (year_string y)
  = if ((0 <=? y) && (y <=? 9999))%bool then 4%nat else 7%nat.
Proof.
  unfold year_string. destruct ((0 <=? y) && (y <=? 9999))%bool.
  - apply pad_length.
  - destruct (y <? 0); now rewrite length_append, pad_length.
Qed.

Lemma year_string_lacks_T (y : Z) : lacks "T" (year_string y) = true.
Proof.
  unfold year_string. destruct ((0 <=? y) && (y <=? 9999))%bool.
  - apply pad_lacks_T.
  - destruct (y <? 0); now rewrite lacks_append, pad_lacks_T.
Qed.

Lemma year_string_inj (y y' : Z) :
  -1000000 < y < 1000000 -> -1000000 < y' < 1000000 ->
  year_string y = year_string y' -> y = y'.
Proof.
  intros Hy Hy' Heq.
  pose proof (f_equal String.length Heq) as Hlen.
  rewrite !year_string_length in Hlen.
  unfold year_string in Heq.
  destruct ((0 <=? y) && (y <=? 9999))%bool eqn:Ey,
           ((0 <=? y') && (y' <=? 9999))%bool eqn:Ey'; try discriminate.
  - apply andb_true_iff in Ey as [?%Z.leb_le ?%Z.leb_le].
    apply andb_true_iff in Ey' as [?%Z.leb_le ?%Z.leb_le].
    apply (pad_inj_small 4) in Heq;
      [lia | change (10 ^ Z.of_nat 4) with 10000; lia ..].
  - destruct (Z.ltb_spec y 0), (Z.ltb_spec y' 0);
      (apply append_inj_length in Heq as [Hsign Heq]; [|reflexivity]);
      try discriminate;
      (apply (pad_inj_small 6) in Heq;
       [lia | change (10 ^ Z.of_nat 6) with 1000000; lia ..]).
Qed.

Lemma date_string_lacks_T (ymd : Z * Z * Z) : lacks "T" (date_string ymd) = true.
Proof.
  destruct ymd as [[y m] d]. unfold date_string.
  rewrite !lacks_append, year_string_lacks_T, !pad_lacks_T. reflexivity.
Qed.

Lemma date_string_inj (y m d y' m' d' : Z) :
  -1000000 < y < 1000000 -> -1000000 < y' < 1000000 ->
  0 <= m < 100 -> 0 <= m' < 100 -> 0 <= d < 100 -> 0 <= d' < 100 ->
  date_string (y, m, d) = date_string (y', m', d') ->
  (y, m, d) = (y', m', d').
Proof.
  intros Hy Hy' Hm Hm' Hd Hd' Heq. unfold date_string in Heq.
  pose proof (f_equal String.length Heq) as Hlen.
  rewrite !length_append, !pad_length in Hlen. cbn [String.length] in Hlen.
  apply append_inj_length in Heq as [HY Heq]; [|lia].
  apply append_inj_length in Heq as [_ Heq]; [|reflexivity].
  apply append_inj_length in Heq as [HM Heq]; [|now rewrite !pad_length].
  apply append_inj_length in Heq as [_ HD]; [|reflexivity].
  apply year_string_inj in HY; [|assumption..].
  apply (pad_inj_small 2) in HM; [|change (10 ^ Z.of_nat 2) with 100; lia..].
  apply (pad_inj_small 2) in HD; [|change (10 ^ Z.of_nat 2) with 100; lia..].
  now subst.
Qed.

(** [getTodayUTC] is the calendar date of the day of the reading. *)
Lemma getTodayUTC_date (now : Z) :
  getTodayUTC now = date_string (civil_from_days (Day now)).
Proof.
  unfold getTodayUTC, toISOString.
  apply split_hd_append, date_string_lacks_T.
Qed.

Lemma getTodayUTC_same_day (t1 t2 : Z) :
  Day t1 = Day t2 -> getTodayUTC t1 = getTodayUTC t2.
Proof. intros H. now rewrite !getTodayUTC_date, H. Qed.

Lemma validTime_year (t : Z) :
  validTime t ->
  let '(y, m, d) := civil_from_days (Day t) in
  -1000000 < y < 1000000 /\ 0 <= m < 100 /\ 0 <= d < 100.
Proof.
  intros [Hlo Hhi].
  pose proof (civil_from_days_range (Day t)) as Hr.
  destruct (civil_from_days (Day t)) as [[y m] d].
  destruct Hr as (Hm & Hd & Hyr).
  assert (-100000000 <= Day t <= 100000000).
  { unfold Day, msPerDay. split.
    - apply Z.div_le_lower_bound; lia.
    - apply Z.div_le_upper_bound; lia. }
  assert (-1000 <= (Day t + 719468) / 146097 <= 1000).
  { split.
    - apply Z.div_le_lower_bound; lia.
    - apply Z.div_le_upper_bound; lia. }
  lia.
Qed.

(** Valid clock readings have the same date only on the same day. *)
Lemma getTodayUTC_inj (t1 t2 : Z) :
  validTime t1 -> validTime t2 ->
  getTodayUTC t1 = getTodayUTC t2 -> Day t1 = Day t2.
Proof.
  intros H1 H2 Heq. rewrite !getTodayUTC_date in Heq.
  pose proof (validTime_year t1 H1) as Hy1.
  pose proof (validTime_year t2 H2) as Hy2.
  rewrite <- (days_from_civil_from_days (Day t1)).
  rewrite <- (days_from_civil_from_days (Day t2)).
  destruct (civil_from_days (Day t1)) as [[y1 m1] d1].
  destruct (civil_from_days (Day t2)) as [[y2 m2] d2].
  f_equal. apply date_string_inj; tauto.
Qed.

End DateFacts.

(* ===================================================================== *)
(** ** Properties of the quota ledger *)
(* ===================================================================== *)

Section LedgerFacts.
Context (fs : gmap string UserDoc) (userId : string) (clk : Clock).

Let today := getTodayUTC (now_today clk).

Lemma reserve_special doc :
  fs !! userId = Some doc ->
  isSpecial doc = Some true ->
  reserveCallback userId today clk (fs !! userId) = (mkTxResult true None (Some (-1)) false, [])
  /\ checkAndReserveConversion clk userId fs = inr (UNLIMITED, fs).
Proof.
  intros Hdoc Hsp.
  assert (Hcb : reserveCallback userId today clk (fs !! userId)
                = (mkTxResult true None (Some (-1)) false, [])).
  { unfold reserveCallback. rewrite Hdoc. simpl. rewrite Hsp.
    rewrite bool_decide_eq_true_2 by reflexivity. reflexivity. }
  split; [exact Hcb|].
  unfold checkAndReserveConversion, runTransaction. fold today.
  rewrite Hcb. reflexivity.
Qed.

Lemma reserve_denied doc n :
  fs !! userId = Some doc ->
  isSpecial doc <> Some true ->
  lastConversionDate doc = Some today ->
  conversionsToday doc = Some n ->
  1 <= n ->
  reserveCallback userId today clk (fs !! userId)
    = (mkTxResult false (Some DAILY_LIMIT_REASON) (Some 0) false, [])
  /\ checkAndReserveConversion clk userId fs = inr (DENIED, fs).
Proof.
  intros Hdoc Hsp Hdate Hcount Hn.
  assert (Hcb : reserveCallback userId today clk (fs !! userId)
                = (mkTxResult false (Some DAILY_LIMIT_REASON) (Some 0) false, [])).
  { unfold reserveCallback. rewrite Hdoc. simpl.
    rewrite bool_decide_eq_false_2 by exact Hsp.
    rewrite Hdate, Hcount. simpl.
    rewrite bool_decide_eq_true_2 by reflexivity.
    destruct (Z.leb_spec 1 n); [reflexivity | lia]. }
  split; [exact Hcb|].
  unfold checkAndReserveConversion, runTransaction. fold today.
  rewrite Hcb. reflexivity.
Qed.

Lemma reserve_other_day :
  (fs !! userId) ≫= isSpecial <> Some true ->
  (fs !! userId) ≫= lastConversionDate <> Some today ->
  checkAndReserveConversion clk userId fs
    = inr (GRANTED, <[userId := reservedDoc today clk (fs !! userId)]> fs).
Proof.
  intros Hsp Hdate.
  unfold checkAndReserveConversion, runTransaction, reserveCallback. fold today.
  rewrite bool_decide_eq_false_2 by exact Hsp.
  rewrite bool_decide_eq_false_2 by exact Hdate.
  simpl. destruct (fs !! userId) as [doc|]; reflexivity.
Qed.

End LedgerFacts.

(** C1. A user who is not special and has no conversion on record (no
    document, or a document without [lastConversionDate]) reserves twice on
    one UTC calendar day: the first call returns
    [{allowed: true, remaining: 0}], the second
    [{allowed: false, remaining: 0}] with the daily-limit reason. *)
Theorem reserve_twice_same_day
    (fs : gmap string UserDoc) (userId : string) (clk1 clk2 : Clock) :
  (fs !! userId) ≫= isSpecial <> Some true ->
  (fs !! userId) ≫= lastConversionDate = None ->
  JsDate.Day (now_today clk1) = JsDate.Day (now_today clk2) ->
  exists fs1,
    checkAndReserveConversion clk1 userId fs
      = inr ({| allowed := true; reason := None; remaining := Some 0 |}, fs1)
    /\ checkAndReserveConversion clk2 userId fs1
      = inr ({| allowed := false;
                reason := Some "You have reached your daily limit of 1 conversion. Please try again tomorrow.";
                remaining := Some 0 |}, fs1).
Proof.
  intros Hsp Hdate Hday.
  apply DateFacts.getTodayUTC_same_day in Hday.
  eexists. split.
  - apply reserve_other_day; [exact Hsp | rewrite Hdate; discriminate].
  - eapply (reserve_denied _ _ _ _ 1).
    + apply lookup_insert_eq.
    + exact Hsp.
    + simpl. now rewrite Hday.
    + reflexivity.
    + lia.
Qed.

Lemma reserve_twice_same_day_witness :
  exists fs1,
    checkAndReserveConversion (mkClock 1793577600123 1793577600200 1793577600201) "alice" ∅
      = inr (GRANTED, fs1)
    /\ checkAndReserveConversion (mkClock 1793663999999 1793664000005 1793664000006) "alice" fs1
      = inr (DENIED, fs1).
Proof.
  apply (reserve_twice_same_day ∅ "alice"); [discriminate | reflexivity | reflexivity].
Defined.

(** C3. When the callback denies (the user is not special, the last
    conversion is dated today and the count is at least 1) it buffers no
    write, and [checkAndReserveConversion] returns [allowed = false] with the
    collection exactly as it was. *)
Theorem deny_writes_nothing
    (fs : gmap string UserDoc) (userId : string) (clk : Clock)
    (doc : UserDoc) (n : Z) :
  fs !! userId = Some doc ->
  isSpecial doc <> Some true ->
  lastConversionDate doc = Some (getTodayUTC (now_today clk)) ->
  conversionsToday doc = Some n ->
  1 <= n ->
  snd (reserveCallback userId (getTodayUTC (now_today clk)) clk (fs !! userId)) = []
  /\ checkAndReserveConversion clk userId fs
     = inr ({| allowed := false; reason := Some DAILY_LIMIT_REASON;
               remaining := Some 0 |}, fs).
Proof.
  intros Hdoc Hsp Hdate Hcount Hn.
  destruct (reserve_denied fs userId clk doc n Hdoc Hsp Hdate Hcount Hn) as [Hcb Hres].
  rewrite Hcb. split; [reflexivity | exact Hres].
Qed.

Lemma deny_writes_nothing_witness :
  let clk := mkClock 1793577600123 1793577600300 1793577600301 in
  let fs : gmap string UserDoc := {[ "alice" := usedToday ]} in
  snd (reserveCallback "alice" (getTodayUTC (now_today clk)) clk (fs !! "alice")) = []
  /\ checkAndReserveConversion clk "alice" fs = inr (DENIED, fs).
Proof.
  apply (deny_writes_nothing _ "alice" _ usedToday 1);
    [reflexivity | discriminate | reflexivity | reflexivity | lia].
Defined.

(** C4. For a user whose document has [isSpecial = true], any number of
    calls in a row all return [{allowed: true, remaining: -1}] and leave the
    collection, hence every field of the document, as it was. *)
Theorem special_user_unlimited
    (fs : gmap string UserDoc) (userId : string) (doc : UserDoc)
    (clks : list Clock) :
  fs !! userId = Some doc ->
  isSpecial doc = Some true ->
  reserveEach clks userId fs
  = inr (replicate (length clks)
           {| allowed := true; reason := None; remaining := Some (-1) |}, fs).
Proof.
  intros Hdoc Hsp. induction clks as [|clk clks IH]; simpl; [reflexivity|].
  destruct (reserve_special fs userId clk doc Hdoc Hsp) as [_ ->].
  now rewrite IH.
Qed.

Lemma special_user_unlimited_witness :
  reserveEach [mkClock 1793577600123 1 2; mkClock 1793577600124 3 4;
               mkClock 1793664000000 5 6] "vip" {[ "vip" := vip ]}
  = inr ([UNLIMITED; UNLIMITED; UNLIMITED], {[ "vip" := vip ]}).
Proof.
  apply (special_user_unlimited {[ "vip" := vip ]} "vip" vip); reflexivity.
Defined.

(** C5. A user who is not special and whose document is dated day D (the
    date of the reading [t0]) calls on a later day, in particular on D+1:
    the call is allowed and the document gets the date of the new day and
    the count 1, whatever the count of day D was. *)
Theorem reserve_next_day
    (fs : gmap string UserDoc) (userId : string) (clk : Clock)
    (doc : UserDoc) (t0 : Z) :
  fs !! userId = Some doc ->
  isSpecial doc <> Some true ->
  JsDate.validTime t0 ->
  JsDate.validTime (now_today clk) ->
  lastConversionDate doc = Some (getTodayUTC t0) ->
  conversionsToday doc = Some 1 ->
  JsDate.Day t0 < JsDate.Day (now_today clk) ->
  checkAndReserveConversion clk userId fs
  = inr ({| allowed := true; reason := None; remaining := Some 0 |},
         <[userId := {| isSpecial := isSpecial doc;
                        lastConversionDate := Some (getTodayUTC (now_today clk));
                        conversionsToday := Some 1;
                        lastConversion := Some (now_lastConversion clk);
                        updatedAt := Some (now_updatedAt clk) |}]> fs).
Proof.
  intros Hdoc Hsp Hv0 Hv Hdate _ Hlater.
  rewrite (reserve_other_day fs userId clk).
  - rewrite Hdoc. reflexivity.
  - rewrite Hdoc. exact Hsp.
  - rewrite Hdoc. simpl. rewrite Hdate. intros [= Heq].
    apply DateFacts.getTodayUTC_inj in Heq; [lia | assumption..].
Qed.

Lemma reserve_next_day_witness :
  checkAndReserveConversion (mkClock 1793664000000 1793664000005 1793664000006)
    "alice" {[ "alice" := usedToday ]}
  = inr (GRANTED,
         <["alice" := mkUserDoc (Some false) (Some "2026-11-03") (Some 1)
                        (Some 1793664000005) (Some 1793664000006)]>
           {[ "alice" := usedToday ]}).
Proof.
  apply (reserve_next_day {[ "alice" := usedToday ]} "alice"
           (mkClock 1793664000000 1793664000005 1793664000006) usedToday 1793577600123);
    try reflexivity; try discriminate; unfold JsDate.validTime; simpl; lia.
Defined.

(* ===================================================================== *)
(** ** Concurrent reservations *)
(* ===================================================================== *)

Section ConcurrentFacts.
Import Concurrent.

Lemma tally_insert (P : Thread -> Prop) `{!forall t, Decision (P t)}
    (l : list Thread) (i : nat) (t t' : Thread) :
  l !! i = Some t ->
  (length (filter P (<[i := t']> l)) + (if decide (P t) then 1 else 0)
   = length (filter P l) + (if decide (P t') then 1 else 0))%nat.
Proof.
  revert i. induction l as [|x l IH]; intros [|i] Hi; simpl in Hi; try discriminate.
  - injection Hi as ->. simpl. rewrite !filter_cons.
    destruct (decide (P t)), (decide (P t')); simpl; lia.
  - simpl. rewrite !filter_cons. specialize (IH i Hi).
    destruct (decide (P x)); simpl; lia.
Qed.

Lemma granted_insert (c : Config) (fs : gmap string UserDoc) i t t' :
  pool c !! i = Some t ->
  (granted (mkConfig fs (<[i := t']> (pool c))) + (if isGranted t then 1 else 0)
   = granted c + (if isGranted t' then 1 else 0))%nat.
Proof.
  intros Hi. unfold granted. simpl.
  pose proof (tally_insert (fun t => isGranted t = true) (pool c) i t t' Hi) as H.
  destruct (isGranted t) eqn:E, (isGranted t') eqn:E';
    repeat case_decide; try congruence; lia.
Qed.

Lemma denied_insert (c : Config) (fs : gmap string UserDoc) i t t' :
  pool c !! i = Some t ->
  (denied (mkConfig fs (<[i := t']> (pool c))) + (if isDenied t then 1 else 0)
   = denied c + (if isDenied t' then 1 else 0))%nat.
Proof.
  intros Hi. unfold denied. simpl.
  pose proof (tally_insert (fun t => isDenied t = true) (pool c) i t t' Hi) as H.
  destruct (isDenied t) eqn:E, (isDenied t') eqn:E';
    repeat case_decide; try congruence; lia.
Qed.

Lemma finished_tally (l : list Thread) :
  forallb isReturned l = true ->
  (length (filter (fun t => isGranted t = true) l)
   + length (filter (fun t => isDenied t = true) l) = length l)%nat.
Proof.
  induction l as [|t l IH]; simpl; [reflexivity|].
  intros [Ht Hl]%andb_true_iff. specialize (IH Hl).
  rewrite !filter_cons.
  destruct t as [| |r|]; try discriminate. simpl.
  destruct (allowed r); simpl; repeat case_decide; try congruence; simpl; lia.
Qed.

Lemma replicate_Started_tally (n : nat) :
  length (filter (fun t => isGranted t = true) (replicate n Started)) = 0%nat
  /\ length (filter (fun t => isDenied t = true) (replicate n Started)) = 0%nat.
Proof.
  induction n as [|n [IH1 IH2]]; simpl; [split; reflexivity|].
  rewrite !filter_cons. simpl.
  repeat case_decide; try discriminate. split; assumption.
Qed.

Lemma lookup_insert_thread (l : list Thread) (i j : nat) (t x : Thread) :
  <[i := t]> l !! j = Some x -> x = t \/ l !! j = Some x.
Proof.
  intros H. destruct (decide (i = j)) as [->|Hne].
  - destruct (decide (j < length l)%nat) as [Hlt|Hge].
    + rewrite list_lookup_insert_eq in H by exact Hlt. left. congruence.
    + rewrite list_insert_ge in H by lia. right. exact H.
  - rewrite list_lookup_insert_ne in H by exact Hne. right. exact H.
Qed.

Lemma inv_exec (userId today : string) (a : Action) (c c' : Config) :
  inv userId today c ->
  Forall (eq today) (datesRead [a]) ->
  exec userId a c = Some c' ->
  inv userId today c'.
Proof.
  intros (Hgot & Hfail & Hst) Hdates Hexec.
  destruct a as [i now | i now_lc now_upd]; simpl in Hexec.
  - (* the thread reads today's date *)
    destruct (pool c !! i) as [[| | |]|] eqn:Hi; try discriminate.
    injection Hexec as <-.
    simpl in Hdates. apply Forall_cons in Hdates as [Hd _].
    pose proof (granted_insert c (store c) i _ (GotToday (getTodayUTC now)) Hi) as Hg.
    pose proof (denied_insert c (store c) i _ (GotToday (getTodayUTC now)) Hi) as Hdn.
    simpl in Hg, Hdn.
    split; [|split].
    + intros j d Hj. simpl in Hj.
      apply lookup_insert_thread in Hj as [Hj|Hj]; [congruence | eauto].
    + intros j e Hj. simpl in Hj.
      apply lookup_insert_thread in Hj as [Hj|Hj]; [discriminate | exact (Hfail _ _ Hj)].
    + simpl. destruct Hst as [(H1 & H2 & H3 & H4) | (doc & H1 & H2 & H3 & H4 & H5)].
      * left. repeat split; try assumption; lia.
      * right. exists doc. repeat split; try assumption; lia.
  - (* the thread runs its transaction *)
    destruct (pool c !! i) as [[|d| |]|] eqn:Hi; try discriminate.
    pose proof (Hgot _ _ Hi) as ->.
    destruct Hst as [(H1 & H2 & H3 & H4) | (doc & H1 & H2 & H3 & H4 & H5)].
    + (* first transaction: the set path *)
      unfold runTransaction, reserveCallback in Hexec.
      rewrite bool_decide_eq_false_2 in Hexec by exact H1.
      rewrite bool_decide_eq_false_2 in Hexec by (rewrite H2; discriminate).
      simpl in Hexec. injection Hexec as <-.
      pose proof (granted_insert c (<[userId := mergeDoc
        {| isSpecial := None; lastConversionDate := Some today;
           conversionsToday := Some 1; lastConversion := Some now_lc;
           updatedAt := Some now_upd |}
        (default emptyDoc (store c !! userId))]> (store c)) i _
        (Returned (mkLimitResult true None (Some 0))) Hi) as Hg.
      simpl in Hg.
      split; [|split].
      * intros j d Hj. simpl in Hj.
        apply lookup_insert_thread in Hj as [Hj|Hj]; [discriminate | eauto].
      * intros j e Hj. simpl in Hj.
        apply lookup_insert_thread in Hj as [Hj|Hj]; [discriminate | exact (Hfail _ _ Hj)].
      * right. eexists. simpl. rewrite lookup_insert_eq.
        split; [reflexivity|]. simpl.
        repeat split; try reflexivity; [|lia].
        destruct (store c !! userId) as [old|]; simpl in *; [exact H1 | discriminate].
    + (* a later transaction: denied *)
      unfold runTransaction, reserveCallback in Hexec.
      rewrite H1 in Hexec. simpl in Hexec.
      rewrite bool_decide_eq_false_2 in Hexec by exact H2.
      rewrite H3, H4 in Hexec. simpl in Hexec.
      rewrite bool_decide_eq_true_2 in Hexec by reflexivity.
      simpl in Hexec. injection Hexec as <-.
      pose proof (granted_insert c (store c) i _
        (Returned (mkLimitResult false (Some DAILY_LIMIT_REASON) (Some 0))) Hi) as Hg.
      simpl in Hg.
      split; [|split].
      * intros j d Hj. simpl in Hj.
        apply lookup_insert_thread in Hj as [Hj|Hj]; [discriminate | eauto].
      * intros j e Hj. simpl in Hj.
        apply lookup_insert_thread in Hj as [Hj|Hj]; [discriminate | exact (Hfail _ _ Hj)].
      * right. exists doc. simpl. repeat split; try assumption. lia.
Qed.

Lemma inv_run (userId today : string) (sched : list Action) (c c' : Config) :
  inv userId today c ->
  Forall (eq today) (datesRead sched) ->
  run userId sched c = Some c' ->
  inv userId today c' /\ length (pool c') = length (pool c).
Proof.
  revert c. induction sched as [|a sched IH]; intros c Hinv Hdates Hrun; simpl in Hrun.
  - injection Hrun as <-. split; [exact Hinv | reflexivity].
  - destruct (exec userId a c) as [c1|] eqn:Hexec; [|discriminate].
    assert (Hlen : length (pool c1) = length (pool c)).
    { destruct a as [i now | i now_lc now_upd]; simpl in Hexec.
      - destruct (pool c !! i) as [[| | |]|]; try discriminate.
        injection Hexec as <-. simpl. apply length_insert.
      - destruct (pool c !! i) as [[| | |]|]; try discriminate.
        destruct (runTransaction _ _ _) as [e|[r fs']];
          injection Hexec as <-; simpl; apply length_insert. }
    assert (Ha : Forall (eq today) (datesRead [a]) /\ Forall (eq today) (datesRead sched)).
    { destruct a; simpl in *.
      - apply Forall_cons in Hdates as [? ?]. split; [constructor; [assumption|constructor] | assumption].
      - split; [constructor | assumption]. }
    destruct Ha as [Ha Hrest].
    destruct (IH c1 (inv_exec _ _ _ _ _ Hinv Ha Hexec) Hrest Hrun) as [Hinv' Hlen'].
    split; [exact Hinv' | congruence].
Qed.

End ConcurrentFacts.

(** C2. [n + 1] requests of one user run concurrently: each reads the
    clock and then runs its transaction, in any interleaving.  If the user
    is not special and has no conversion on record, and all requests read
    the same UTC date, then once all have returned exactly one was granted
    and the [n] others were denied. *)
Theorem one_grant_among_concurrent
    (fs : gmap string UserDoc) (userId today : string) (n : nat)
    (sched : list Concurrent.Action) (c : Concurrent.Config) :
  (fs !! userId) ≫= isSpecial <> Some true ->
  (fs !! userId) ≫= lastConversionDate = None ->
  Forall (eq today) (Concurrent.datesRead sched) ->
  Concurrent.run userId sched (Concurrent.mkConfig fs (replicate (S n) Concurrent.Started))
    = Some c ->
  Concurrent.finished c = true ->
  Concurrent.granted c = 1%nat /\ Concurrent.denied c = n.
Proof.
  intros Hsp Hdate Hdates Hrun Hfin.
  destruct (replicate_Started_tally (S n)) as [Hg0 Hd0].
  assert (Hinit : Concurrent.inv userId today
                    (Concurrent.mkConfig fs (replicate (S n) Concurrent.Started))).
  { split; [|split].
    - intros i d Hi. apply (lookup_replicate (S n)) in Hi as [? _]. discriminate.
    - intros i e Hi. apply (lookup_replicate (S n)) in Hi as [? _]. discriminate.
    - left. repeat split; assumption. }
  destruct (inv_run _ _ _ _ _ Hinit Hdates Hrun) as [(_ & _ & Hst) Hlen].
  simpl in Hlen. rewrite length_replicate in Hlen.
  pose proof (finished_tally (Concurrent.pool c) Hfin) as Htot.
  fold (Concurrent.granted c) in Htot. fold (Concurrent.denied c) in Htot.
  destruct Hst as [(_ & _ & H3 & H4) | (doc & _ & _ & _ & _ & H5)]; lia.
Qed.

Lemma one_grant_among_concurrent_witness :
  exists c,
    Concurrent.run "alice" sameDaySchedule
      (Concurrent.mkConfig ∅ (replicate 3 Concurrent.Started)) = Some c
    /\ Concurrent.granted c = 1%nat /\ Concurrent.denied c = 2%nat.
Proof.
  eexists. split; [vm_compute; reflexivity|].
  apply (one_grant_among_concurrent ∅ "alice" "2026-11-02" 2 sameDaySchedule);
    [discriminate | reflexivity | | vm_compute; reflexivity | reflexivity].
  repeat constructor.
Defined.

(** C2, as stated without the date: two concurrent requests of a fresh
    user, one reading the clock in the last millisecond of 2026-11-02 and the
    other in the first of 2026-11-03, are both granted. *)
Lemma two_grants_across_midnight :
  exists c,
    Concurrent.run "alice"
      [Concurrent.ReadToday 0 1793663999999; Concurrent.ReadToday 1 1793664000000;
       Concurrent.Transact 0 1793664000010 1793664000011;
       Concurrent.Transact 1 1793664000020 1793664000021]
      (Concurrent.mkConfig ∅ (replicate 2 Concurrent.Started)) = Some c
    /\ Concurrent.finished c = true
    /\ Concurrent.granted c = 2%nat /\ Concurrent.denied c = 0%nat.
Proof. eexists. split; [vm_compute; reflexivity|]. vm_compute. repeat split. Qed.

(* ===================================================================== *)
(** ** Properties of the tailoring endpoint *)
(* ===================================================================== *)

Section TailorFacts.
Import Tailor.
Context (env : Env).

Lemma invokeLoop_answer p n ix w c :
  model_invoke env (n_invoke w) p = inr c ->
  invokeLoop env p (S n) ix w = (inr (Some c), invoked p w).
Proof.
  intros H. simpl. unfold bind, attempt, invoke. rewrite H. reflexivity.
Qed.

Lemma invokeLoop_retry p n ix w e :
  model_invoke env (n_invoke w) p = inl e ->
  isRateLimitError e = true ->
  ix <> MAX_LLM_RETRIES - 1 ->
  invokeLoop env p (S n) ix w
  = invokeLoop env p n (ix + 1)
      (logged (EvSleep (default (default 0 (last BACKOFF_MS))
                                (BACKOFF_MS !! Z.to_nat ix)))
              (invoked p w)).
Proof.
  intros H Hrl Hix. cbn [invokeLoop]. unfold bind at 1. unfold attempt, invoke.
  rewrite H. cbv beta iota. rewrite Hrl.
  apply Z.eqb_neq in Hix. rewrite Hix. reflexivity.
Qed.

Lemma invokeLoop_throw p n ix w e :
  model_invoke env (n_invoke w) p = inl e ->
  isRateLimitError e = false \/ ix = MAX_LLM_RETRIES - 1 ->
  invokeLoop env p (S n) ix w = (inl e, invoked p w).
Proof.
  intros H Hc. cbn [invokeLoop]. unfold bind at 1. unfold attempt, invoke.
  rewrite H. cbv beta iota.
  destruct Hc as [-> | ->]; [reflexivity|].
  rewrite Z.eqb_refl, andb_false_r. reflexivity.
Qed.

Lemma getTailoredResume_unfold r j h w :
  apiKey env <> EmptyString ->
  getTailoredResume env r j h w
  = match invokeLoop env (mkPrompt (truthy h) r j) 3 0 (logged (EvGenerate h) w) with
    | (inl e, w') => (inl e, w')
    | (inr None, w') => (inl (newError "LLM did not return a response."), w')
    | (inr (Some c), w') => (inr (contentText c), w')
    end.
Proof.
  intros Hkey. unfold getTailoredResume. unfold bind at 1. unfold log at 1.
  cbv beta iota. apply String.eqb_neq in Hkey. rewrite Hkey.
  unfold bind at 1. change (Z.to_nat MAX_LLM_RETRIES) with 3%nat.
  fold (logged (EvGenerate h) w).
  destruct (invokeLoop _ _ _ _ _) as [[e|[c|]] w']; reflexivity.
Qed.

Lemma getTailoredResume_no_key r j h w :
  apiKey env = EmptyString ->
  getTailoredResume env r j h w
  = (inl (newError
       "Missing Gemini API key. Set GEMINI_API_KEY or GOOGLE_API_KEY in your environment."),
     logged (EvGenerate h) w).
Proof.
  intros Hkey. unfold getTailoredResume. unfold bind at 1. unfold log at 1.
  cbv beta iota. rewrite Hkey. reflexivity.
Qed.

Lemma latexToPdf_eq l w :
  latexToPdf env l w
  = (match latexToPdf_try env (n_render w) l with
     | inr b => inr b
     | inl _ => inl (newError LATEX_TO_PDF_FAILED)
     end, rendered l w).
Proof.
  unfold latexToPdf, bind, attempt, callLatexToPdf_try.
  destruct (latexToPdf_try env (n_render w) l); reflexivity.
Qed.

Lemma getPdfPageCount_eq b w :
  getPdfPageCount env b w
  = (match pdfParse env (n_parse w) b with
     | inr pd => inr (default 0 (numpages pd))
     | inl e => inl e
     end, counted b w).
Proof.
  unfold getPdfPageCount, bind, log, callPdfParse. cbv beta iota.
  unfold counted. simpl.
  destruct (pdfParse env (n_parse w) b); reflexivity.
Qed.

(** The model loop touches the model counter and the trace only, and adds
    calls and delays only. *)
Lemma invokeLoop_frame p n ix w res w' :
  invokeLoop env p n ix w = (res, w') ->
  users w' = users w /\ n_render w' = n_render w /\ n_parse w' = n_parse w
  /\ exists evs, trace w' = trace w ++ evs
                 /\ Forall (fun e => isInvoke e || isSleep e = true) evs.
Proof.
  revert ix w. induction n as [|n IH]; intros ix w H.
  - injection H as <- <-. repeat split; try reflexivity.
    exists []. split; [now rewrite app_nil_r | constructor].
  - cbn [invokeLoop] in H. unfold bind at 1 in H. unfold attempt, invoke in H.
    cbv beta iota in H.
    destruct (model_invoke env (n_invoke w) p) as [e|c].
    + destruct (isRateLimitError e && negb (ix =? MAX_LLM_RETRIES - 1)).
      * unfold bind, sleep, log in H. cbv beta iota in H.
        apply IH in H as (Hu & Hr & Hp & evs & Ht & Hf). simpl in *.
        repeat split; try assumption.
        exists (EvInvoke p :: EvSleep (default (default 0 (last BACKOFF_MS))
                                              (BACKOFF_MS !! Z.to_nat ix)) :: evs).
        split; [now rewrite Ht, <- !app_assoc | repeat constructor; assumption].
      * injection H as <- <-. simpl. repeat split; try reflexivity.
        exists [EvInvoke p]. split; [reflexivity | repeat constructor].
    + injection H as <- <-. simpl. repeat split; try reflexivity.
      exists [EvInvoke p]. split; [reflexivity | repeat constructor].
Qed.

Lemma getTailoredResume_frame r j h w res w' :
  getTailoredResume env r j h w = (res, w') ->
  users w' = users w /\ n_render w' = n_render w /\ n_parse w' = n_parse w
  /\ exists evs, trace w' = trace w ++ EvGenerate h :: evs
                 /\ Forall (fun e => isInvoke e || isSleep e = true) evs.
Proof.
  intros H. destruct (String.eqb_spec (apiKey env) EmptyString) as [Hk|Hk].
  - rewrite getTailoredResume_no_key in H by exact Hk. injection H as <- <-.
    simpl. repeat split; try reflexivity. exists []. split; [reflexivity | constructor].
  - rewrite getTailoredResume_unfold in H by exact Hk.
    destruct (invokeLoop _ _ _ _ _) as [r0 w0] eqn:Hloop.
    apply invokeLoop_frame in Hloop as (Hu & Hr & Hp & evs & Ht & Hf). simpl in *.
    assert (w' = w0) as -> by (destruct r0 as [?|[?|]]; congruence).
    repeat split; try assumption.
    exists evs. split; [now rewrite Ht, <- app_assoc | assumption].
Qed.

End TailorFacts.

(** C8. One call of [getTailoredResume].  If the model raises rate-limit
    errors on the first two attempts and answers on the third, the answer is
    returned after exactly two delays, 2000 ms and then 4000 ms.  If an
    attempt raises an error that is not a rate-limit error (after [m] < 3
    rate-limited attempts), that error is thrown at once: nothing follows the
    failing call, neither a delay nor another attempt. *)
Theorem llm_retry_policy (env : Tailor.Env) (r j : string) (h : option string)
    (w : Tailor.World) :
  Tailor.apiKey env <> EmptyString ->
  let p := Tailor.mkPrompt (Tailor.truthy h) r j in
  let k := Tailor.n_invoke w in
  (forall e1 e2 c,
      Tailor.model_invoke env k p = inl e1 -> Tailor.isRateLimitError e1 = true ->
      Tailor.model_invoke env (k + 1) p = inl e2 -> Tailor.isRateLimitError e2 = true ->
      Tailor.model_invoke env (k + 2) p = inr c ->
      exists w',
        Tailor.getTailoredResume env r j h w = (inr (Tailor.contentText c), w')
        /\ Tailor.trace w'
           = Tailor.trace w
             ++ [Tailor.EvGenerate h; Tailor.EvInvoke p; Tailor.EvSleep 2000;
                 Tailor.EvInvoke p; Tailor.EvSleep 4000; Tailor.EvInvoke p]
        /\ Tailor.delays (Tailor.trace w') = Tailor.delays (Tailor.trace w) ++ [2000; 4000]
        /\ Tailor.n_invoke w' = (k + 3)%nat)
  /\ (forall (m : nat) e,
        (m < 3)%nat ->
        (forall i, (i < m)%nat ->
           exists ei, Tailor.model_invoke env (k + i) p = inl ei
                      /\ Tailor.isRateLimitError ei = true) ->
        Tailor.model_invoke env (k + m) p = inl e ->
        Tailor.isRateLimitError e = false ->
        exists w',
          Tailor.getTailoredResume env r j h w = (inl e, w')
          /\ Tailor.trace w'
             = Tailor.trace w
               ++ Tailor.EvGenerate h :: Tailor.retryEvents p m ++ [Tailor.EvInvoke p]
          /\ Tailor.n_invoke w' = (k + m + 1)%nat).
Proof.
  intros Hkey p k. split.
  - intros e1 e2 c H1 Hr1 H2 Hr2 H3.
    rewrite getTailoredResume_unfold by exact Hkey. fold p.
    rewrite (invokeLoop_retry env p _ _ _ e1) by (try exact H1; try exact Hr1; discriminate).
    rewrite (invokeLoop_retry env p _ _ _ e2);
      [ | simpl; rewrite <- H2; f_equal; unfold k; lia | exact Hr2 | discriminate ].
    rewrite (invokeLoop_answer env p _ _ _ c);
      [ | simpl; rewrite <- H3; f_equal; unfold k; lia ].
    eexists. split; [reflexivity|]. simpl.
    repeat split.
    + now rewrite <- !app_assoc.
    + unfold Tailor.delays. rewrite <- !app_assoc, omap_app. reflexivity.
    + unfold k. lia.
  - intros m e Hm Hpre He Hnr.
    rewrite getTailoredResume_unfold by exact Hkey. fold p.
    destruct m as [|[|[|m]]]; [| | |lia].
    + rewrite (invokeLoop_throw env p _ _ _ e);
        [ | simpl; rewrite <- He; f_equal; unfold k; lia | left; exact Hnr ].
      eexists. split; [reflexivity|]. simpl. split.
      * now rewrite <- !app_assoc.
      * unfold k. lia.
    + destruct (Hpre 0%nat ltac:(lia)) as (e0 & H0 & Hr0).
      rewrite (invokeLoop_retry env p _ _ _ e0);
        [ | simpl; rewrite <- H0; f_equal; unfold k; lia | exact Hr0 | discriminate ].
      rewrite (invokeLoop_throw env p _ _ _ e);
        [ | simpl; rewrite <- He; f_equal; unfold k; lia | left; exact Hnr ].
      eexists. split; [reflexivity|]. simpl. split.
      * now rewrite <- !app_assoc.
      * unfold k. lia.
    + destruct (Hpre 0%nat ltac:(lia)) as (e0 & H0 & Hr0).
      destruct (Hpre 1%nat ltac:(lia)) as (e1 & H1 & Hr1).
      rewrite (invokeLoop_retry env p _ _ _ e0);
        [ | simpl; rewrite <- H0; f_equal; unfold k; lia | exact Hr0 | discriminate ].
      rewrite (invokeLoop_retry env p _ _ _ e1);
        [ | simpl; rewrite <- H1; f_equal; unfold k; lia | exact Hr1 | discriminate ].
      rewrite (invokeLoop_throw env p _ _ _ e);
        [ | simpl; rewrite <- He; f_equal; unfold k; lia | left; exact Hnr ].
      eexists. split; [reflexivity|]. simpl. split.
      * now rewrite <- !app_assoc.
      * unfold k. lia.
Qed.

Lemma llm_retry_policy_witness :
  exists w1 w2,
    Tailor.getTailoredResume (stubEnv throttledTwice rendering (fun _ => 1))
      "resume" "job" None world0 = (inr "\\section{Education}", w1)
    /\ Tailor.delays (Tailor.trace w1) = [2000; 4000]
    /\ Tailor.getTailoredResume (stubEnv throttledTwice rendering (fun _ => 1))
         "resume" "job" None w1
       = (inl (newError "API key not valid. Please pass a valid API key."), w2)
    /\ Tailor.delays (Tailor.trace w2) = [2000; 4000]
    /\ Tailor.n_invoke w2 = 4%nat.
Proof.
  pose (env := stubEnv throttledTwice rendering (fun _ => 1)).
  assert (Hkey : Tailor.apiKey env <> EmptyString) by discriminate.
  destruct (llm_retry_policy env "resume" "job" None world0 Hkey) as [Hretry _].
  destruct (Hretry _ _ _ eq_refl eq_refl eq_refl eq_refl eq_refl)
    as (w1 & Hrun1 & Ht1 & Hd1 & Hn1).
  destruct (llm_retry_policy env "resume" "job" None w1 Hkey) as [_ Hfatal].
  destruct (Hfatal 0%nat (newError "API key not valid. Please pass a valid API key.")
              ltac:(lia)) as (w2 & Hrun2 & Ht2 & Hn2).
  - intros i Hi. lia.
  - rewrite Hn1. reflexivity.
  - reflexivity.
  - exists w1, w2. split; [exact Hrun1|]. split; [exact Hd1|].
    split; [exact Hrun2|]. split.
    + rewrite Ht2. unfold Tailor.delays in *. rewrite omap_app, Hd1. reflexivity.
    + rewrite Hn2, Hn1. reflexivity.
Defined.

(* ===================================================================== *)
(** ** The page loop *)
(* ===================================================================== *)

Section FitFacts.
Import Tailor.
Context (env : Env) (r j : string).

(** The hint of the iteration with index [it]. *)
Lemma shortenLoop_unfold n it cur w :
  shortenLoop env r j (S n) it cur w
  = match getTailoredResume env r j
            (Some (if it =? 1 then SHORTEN_HINT_FIRST else SHORTEN_HINT_AGAIN)) w with
    | (inl e, w1) => (inl e, w1)
    | (inr l, w1) =>
        match latexToPdf_try env (n_render w1) l with
        | inl _ => (inl (newError LATEX_TO_PDF_FAILED), rendered l w1)
        | inr b =>
            match pdfParse env (n_parse w1) b with
            | inl e => (inl e, counted b (rendered l w1))
            | inr pd =>
                let next := mkFit l b (default 0 (numpages pd)) in
                if default 0 (numpages pd) <=? 1
                then (inr next, counted b (rendered l w1))
                else shortenLoop env r j n (it + 1) next (counted b (rendered l w1))
            end
        end
    end.
Proof.
  cbn [shortenLoop]. unfold bind at 1.
  destruct (getTailoredResume _ _ _ _ _) as [[e|l] w1]; [reflexivity|].
  unfold bind at 1. rewrite latexToPdf_eq.
  destruct (latexToPdf_try env (n_render w1) l) as [e|b]; [reflexivity|].
  unfold bind at 1. rewrite getPdfPageCount_eq.
  change (n_parse (rendered l w1)) with (n_parse w1).
  destruct (pdfParse env (n_parse w1) b) as [e|pd]; [reflexivity|].
  destruct (default 0 (numpages pd) <=? 1); reflexivity.
Qed.

Lemma fitToOnePage_unfold w :
  fitToOnePage env r j w
  = match getTailoredResume env r j None w with
    | (inl e, w1) => (inl e, w1)
    | (inr l, w1) =>
        match latexToPdf_try env (n_render w1) l with
        | inl _ => (inl (newError LATEX_TO_PDF_FAILED), rendered l w1)
        | inr b =>
            match pdfParse env (n_parse w1) b with
            | inl e => (inl e, counted b (rendered l w1))
            | inr pd =>
                let first := mkFit l b (default 0 (numpages pd)) in
                if 1 <? default 0 (numpages pd)
                then shortenLoop env r j 2 1 first (counted b (rendered l w1))
                else (inr first, counted b (rendered l w1))
            end
        end
    end.
Proof.
  unfold fitToOnePage. unfold bind at 1.
  destruct (getTailoredResume _ _ _ _ _) as [[e|l] w1]; [reflexivity|].
  unfold bind at 1. rewrite latexToPdf_eq.
  destruct (latexToPdf_try env (n_render w1) l) as [e|b]; [reflexivity|].
  unfold bind at 1. rewrite getPdfPageCount_eq.
  change (n_parse (rendered l w1)) with (n_parse w1).
  destruct (pdfParse env (n_parse w1) b) as [e|pd]; [reflexivity|].
  destruct (1 <? default 0 (numpages pd)); reflexivity.
Qed.

Lemma fitToOnePage_attempt w fit w1 :
  attemptAt env r j None w fit w1 ->
  fitToOnePage env r j w
  = if 1 <? pageCount fit then shortenLoop env r j 2 1 fit w1 else (inr fit, w1).
Proof.
  intros (w0 & pd & Hg & Hr & Hp & Hn & ->).
  rewrite fitToOnePage_unfold, Hg, Hr, Hp. cbv zeta. rewrite <- Hn.
  destruct fit; reflexivity.
Qed.

Lemma shortenLoop_attempt n it cur w fit w1 :
  attemptAt env r j (Some (if it =? 1 then SHORTEN_HINT_FIRST else SHORTEN_HINT_AGAIN))
            w fit w1 ->
  shortenLoop env r j (S n) it cur w
  = if pageCount fit <=? 1 then (inr fit, w1)
    else shortenLoop env r j n (it + 1) fit w1.
Proof.
  intros (w0 & pd & Hg & Hr & Hp & Hn & ->).
  rewrite shortenLoop_unfold, Hg, Hr, Hp. cbv zeta. rewrite <- Hn.
  destruct fit; reflexivity.
Qed.

(** An attempt adds one generation, one rendering and one page count. *)
Lemma attemptAt_events h w fit w1 :
  attemptAt env r j h w fit w1 ->
  exists evs,
    trace w1 = trace w ++ EvGenerate h :: evs
                 ++ [EvRender (latexCode fit); EvPageCount (pdfBuffer fit)]
    /\ Forall (fun e => isInvoke e || isSleep e = true) evs.
Proof.
  intros (w0 & pd & Hg & Hr & Hp & Hn & ->).
  apply getTailoredResume_frame in Hg as (_ & _ & _ & evs & Ht & Hf).
  exists evs. split; [|exact Hf]. simpl. rewrite Ht.
  rewrite <- !app_assoc. reflexivity.
Qed.

Lemma count_app p (a b : list Event) : count p (a ++ b) = (count p a + count p b)%nat.
Proof. unfold count. now rewrite List.filter_app, length_app. Qed.

Lemma count_calls_only p (evs : list Event) :
  (forall e, isInvoke e || isSleep e = true -> p e = false) ->
  Forall (fun e => isInvoke e || isSleep e = true) evs ->
  count p evs = 0%nat.
Proof.
  intros Hp Hf. unfold count. induction Hf as [|e evs He _ IH]; [reflexivity|].
  simpl. now rewrite (Hp e He).
Qed.

Lemma newEvents_app w w' evs :
  trace w' = trace w ++ evs -> newEvents w w' = evs.
Proof. intros H. unfold newEvents. rewrite H. apply drop_app_length. Qed.

Lemma attemptAt_counts h w fit w1 pre :
  attemptAt env r j h w fit w1 ->
  exists evs,
    trace w1 = trace w ++ evs
    /\ count isGenerate evs = 1%nat
    /\ count isRender evs = 1%nat
    /\ count isPageCount evs = 1%nat
    /\ (count isGenerate (pre ++ evs) = S (count isGenerate pre)
        /\ count isRender (pre ++ evs) = S (count isRender pre)
        /\ count isPageCount (pre ++ evs) = S (count isPageCount pre)).
Proof.
  intros H. apply attemptAt_events in H as (evs & Ht & Hf).
  eexists. split; [exact Ht|].
  assert (Hg : count isGenerate evs = 0%nat)
    by (apply count_calls_only; [intros [] ?; simpl in *; congruence | exact Hf]).
  assert (Hr : count isRender evs = 0%nat)
    by (apply count_calls_only; [intros [] ?; simpl in *; congruence | exact Hf]).
  assert (Hc : count isPageCount evs = 0%nat)
    by (apply count_calls_only; [intros [] ?; simpl in *; congruence | exact Hf]).
  rewrite !count_app.
  change (EvGenerate h :: evs ++ [EvRender (latexCode fit); EvPageCount (pdfBuffer fit)])
    with ([EvGenerate h] ++ evs ++ [EvRender (latexCode fit); EvPageCount (pdfBuffer fit)]).
  rewrite !count_app, Hg, Hr, Hc. unfold count. simpl. repeat split; lia.
Qed.

End FitFacts.

(** C7. If the first attempt (generation without a hint, rendering, page
    count) succeeds and its page count is at most 1, the loop returns that
    attempt at once: the run consists of that attempt alone, with one
    generation, one rendering and one page count, and the generation had no
    shorten hint. *)
Theorem first_attempt_fits (env : Tailor.Env) (r j : string)
    (w w1 : Tailor.World) (fit : Tailor.Fit) :
  Tailor.attemptAt env r j None w fit w1 ->
  Tailor.pageCount fit <= 1 ->
  Tailor.fitToOnePage env r j w = (inr fit, w1)
  /\ Tailor.count Tailor.isGenerate (Tailor.newEvents w w1) = 1%nat
  /\ Tailor.count Tailor.isRender (Tailor.newEvents w w1) = 1%nat
  /\ Tailor.count Tailor.isPageCount (Tailor.newEvents w w1) = 1%nat
  /\ head (Tailor.newEvents w w1) = Some (Tailor.EvGenerate None).
Proof.
  intros Hat Hfit.
  rewrite (fitToOnePage_attempt env r j w fit w1 Hat).
  destruct (Z.ltb_spec 1 (Tailor.pageCount fit)); [lia|].
  split; [reflexivity|].
  destruct (attemptAt_counts env r j None w fit w1 [] Hat) as (evs & Ht & Hg & Hr & Hc & _).
  pose proof (attemptAt_events env r j None w fit w1 Hat) as (evs' & Ht' & _).
  rewrite (newEvents_app w w1 evs Ht). repeat split; try assumption.
  rewrite Ht' in Ht. apply app_inv_head in Ht. now subst evs.
Qed.

Lemma first_attempt_fits_witness :
  exists fit w1,
    Tailor.fitToOnePage (stubEnv answering rendering (fun _ => 1)) "resume" "job" world0
      = (inr fit, w1)
    /\ Tailor.count Tailor.isGenerate (Tailor.newEvents world0 w1) = 1%nat
    /\ Tailor.latexCode fit = "\\section{Education}"
    /\ Tailor.pageCount fit = 1.
Proof.
  eexists (Tailor.mkFit _ _ _), _.
  assert (H : Tailor.attemptAt (stubEnv answering rendering (fun _ => 1)) "resume" "job"
                None world0
                (Tailor.mkFit "\\section{Education}" "%PDF \\section{Education}" 1)
                (Tailor.counted "%PDF \\section{Education}"
                   (Tailor.rendered "\\section{Education}"
                      (Tailor.invoked (Tailor.mkPrompt None "resume" "job")
                         (Tailor.logged (Tailor.EvGenerate None) world0))))).
  { eexists _, _. repeat split; reflexivity. }
  destruct (first_attempt_fits _ _ _ _ _ _ H ltac:(simpl; lia)) as (Hrun & Hg & _).
  split; [exact Hrun|]. split; [exact Hg|]. split; reflexivity.
Defined.

Section NeverFits.
Import Tailor.
Context (env : Env) (r j : string).
Hypothesis Hgen : generateSucceeds env r j.
Hypothesis Hrender : renderSucceeds env.
Hypothesis Hpages : neverFits env.

Lemma attempt_overflows h w :
  exists fit w', attemptAt env r j h w fit w' /\ 2 <= pageCount fit.
Proof.
  destruct (Hgen h w) as (l & w1 & Hg).
  destruct (Hrender (n_render w1) l) as (b & Hr).
  destruct (Hpages (n_parse w1) b) as (pd & n & Hp & Hn & Hge).
  exists (mkFit l b n), (counted b (rendered l w1)).
  split; [|exact Hge].
  exists w1, pd. simpl. rewrite Hn. repeat split; assumption.
Qed.

End NeverFits.

(** C6. If generation and rendering always succeed and the parser always
    reports two pages or more, the loop makes exactly three attempts (without
    hint, with the first hint, with the second hint), that is three
    generations, three renderings and three page counts, and returns the
    markup, the PDF and the page count of the third. *)
Theorem never_fits_three_attempts (env : Tailor.Env) (r j : string)
    (w : Tailor.World) :
  Tailor.generateSucceeds env r j ->
  Tailor.renderSucceeds env ->
  Tailor.neverFits env ->
  exists f1 f2 f3 w1 w2 w3,
    Tailor.attemptAt env r j None w f1 w1
    /\ Tailor.attemptAt env r j (Some Tailor.SHORTEN_HINT_FIRST) w1 f2 w2
    /\ Tailor.attemptAt env r j (Some Tailor.SHORTEN_HINT_AGAIN) w2 f3 w3
    /\ Tailor.fitToOnePage env r j w = (inr f3, w3)
    /\ 2 <= Tailor.pageCount f3
    /\ Tailor.count Tailor.isGenerate (Tailor.newEvents w w3) = 3%nat
    /\ Tailor.count Tailor.isRender (Tailor.newEvents w w3) = 3%nat
    /\ Tailor.count Tailor.isPageCount (Tailor.newEvents w w3) = 3%nat.
Proof.
  intros Hgen Hrender Hpages.
  destruct (attempt_overflows env r j Hgen Hrender Hpages None w)
    as (f1 & w1 & H1 & Hp1).
  destruct (attempt_overflows env r j Hgen Hrender Hpages
              (Some Tailor.SHORTEN_HINT_FIRST) w1) as (f2 & w2 & H2 & Hp2).
  destruct (attempt_overflows env r j Hgen Hrender Hpages
              (Some Tailor.SHORTEN_HINT_AGAIN) w2) as (f3 & w3 & H3 & Hp3).
  exists f1, f2, f3, w1, w2, w3.
  split; [exact H1|]. split; [exact H2|]. split; [exact H3|].
  split.
  - rewrite (fitToOnePage_attempt env r j w f1 w1 H1).
    destruct (Z.ltb_spec 1 (Tailor.pageCount f1)); [|lia].
    rewrite (shortenLoop_attempt env r j 1 1 f1 w1 f2 w2 H2).
    destruct (Z.leb_spec (Tailor.pageCount f2) 1); [lia|].
    rewrite (shortenLoop_attempt env r j 0 (1 + 1) f2 w2 f3 w3 H3).
    destruct (Z.leb_spec (Tailor.pageCount f3) 1); [lia|]. reflexivity.
  - split; [exact Hp3|].
    destruct (attemptAt_counts env r j _ _ _ _ [] H1) as (e1 & T1 & G1 & R1 & C1 & _).
    destruct (attemptAt_counts env r j _ _ _ _ e1 H2) as (e2 & T2 & _ & _ & _ & G2 & R2 & C2).
    destruct (attemptAt_counts env r j _ _ _ _ (e1 ++ e2) H3)
      as (e3 & T3 & _ & _ & _ & G3 & R3 & C3).
    rewrite (newEvents_app w w3 ((e1 ++ e2) ++ e3))
      by (rewrite T3, T2, T1, <- !app_assoc; reflexivity).
    rewrite G3, R3, C3, G2, R2, C2, G1, R1, C1. repeat split; reflexivity.
Qed.

Lemma never_fits_three_attempts_witness :
  exists f3 w3,
    Tailor.fitToOnePage (stubEnv answering rendering (fun _ => 2)) "resume" "job" world0
      = (inr f3, w3)
    /\ Tailor.pageCount f3 = 2
    /\ Tailor.count Tailor.isGenerate (Tailor.newEvents world0 w3) = 3%nat
    /\ Tailor.count Tailor.isRender (Tailor.newEvents world0 w3) = 3%nat
    /\ Tailor.n_invoke w3 = 3%nat.
Proof.
  destruct (never_fits_three_attempts (stubEnv answering rendering (fun _ => 2))
              "resume" "job" world0) as (f1 & f2 & f3 & w1 & w2 & w3 & _ & _ & _ & Hrun & _ & Hg & Hr & _).
  - intros h w. eexists _, _. vm_compute. reflexivity.
  - intros k l. eexists. reflexivity.
  - intros k b. eexists _, 2. split; [reflexivity|]. split; [reflexivity | lia].
  - exists f3, w3. rewrite Hrun.
    assert (Heq : (inr f3, w3) = Tailor.fitToOnePage (stubEnv answering rendering (fun _ => 2))
                           "resume" "job" world0) by (symmetry; exact Hrun).
    vm_compute in Heq. injection Heq as -> ->.
    repeat split; try reflexivity; assumption.
Defined.

(* ===================================================================== *)
(** ** The handler *)
(* ===================================================================== *)

Section MoreLedgerFacts.
Context (fs : gmap string UserDoc) (userId : string) (clk : Clock).

Let today := getTodayUTC (now_today clk).

(** Same day, count below the limit: the [update] path. *)
Lemma reserve_same_day_under_limit doc :
  fs !! userId = Some doc ->
  isSpecial doc <> Some true ->
  lastConversionDate doc = Some today ->
  default 0 (conversionsToday doc) < 1 ->
  checkAndReserveConversion clk userId fs
  = inr (GRANTED,
         <[userId := {| isSpecial := isSpecial doc;
                        lastConversionDate := Some today;
                        conversionsToday := Some (default 0 (conversionsToday doc) + 1);
                        lastConversion := Some (now_lastConversion clk);
                        updatedAt := updatedAt doc |}]> fs).
Proof.
  intros Hdoc Hsp Hdate Hcount.
  unfold checkAndReserveConversion, runTransaction, reserveCallback. fold today.
  rewrite Hdoc. simpl.
  rewrite bool_decide_eq_false_2 by exact Hsp.
  rewrite Hdate. rewrite bool_decide_eq_true_2 by reflexivity.
  destruct (Z.leb_spec 1 (default 0 (conversionsToday doc))); [lia|].
  simpl. rewrite Hdoc. unfold mergeDoc. simpl. rewrite Hdate. reflexivity.
Qed.

(** A free slot is granted, and the document then carries today's date and
    a count of at least 1. *)
Lemma reserve_available :
  slotAvailable today (fs !! userId) ->
  countNonNegative (fs !! userId) ->
  exists doc',
    checkAndReserveConversion clk userId fs = inr (GRANTED, <[userId := doc']> fs)
    /\ isSpecial doc' <> Some true
    /\ lastConversionDate doc' = Some today
    /\ exists n, conversionsToday doc' = Some n /\ 1 <= n.
Proof.
  intros [Hsp Hfree] Hnn.
  destruct (decide ((fs !! userId) ≫= lastConversionDate = Some today)) as [Hd|Hd].
  - destruct (fs !! userId) as [doc|] eqn:Hdoc; [|discriminate].
    simpl in *. destruct Hfree as [Hfree|Hfree]; [contradiction|].
    eexists. split; [apply (reserve_same_day_under_limit doc); assumption|].
    simpl. repeat split; try assumption.
    eexists. split; [reflexivity|]. unfold countNonNegative in Hnn. simpl in Hnn. lia.
  - eexists. split; [apply reserve_other_day; assumption|].
    simpl. repeat split; try assumption.
    exists 1. split; [reflexivity | lia].
Qed.

End MoreLedgerFacts.

Section PostFacts.
Import Tailor.
Context (env : Env).

Lemma POST_try_unfold clk req w :
  POST_try env clk req w
  = match formData req with
    | inl e => (inl e, w)
    | inr fd =>
        let userId := field fd "userId" in
        if String.eqb userId EmptyString then
          (inr (json (BodyError "User authentication required.") 401), w)
        else
          match checkAndReserveConversion clk userId (users w) with
          | inl e => (inl e, logged (EvReserve userId) w)
          | inr (limitCheck, fs') =>
              if negb (allowed limitCheck) then
                (inr (json (BodyError
                              match truthy (reason limitCheck) with
                              | Some r => r
                              | None => "Conversion limit reached."
                              end) 429), reserved userId fs' w)
              else POST_tailor env fd (reserved userId fs' w)
          end
    end.
Proof.
  unfold POST_try. unfold bind at 1. unfold lift.
  destruct (formData req) as [e|fd]; [reflexivity|].
  unfold ret at 1. cbv beta iota zeta.
  destruct (String.eqb (field fd "userId") EmptyString); [reflexivity|].
  unfold bind at 1. unfold reserve. unfold bind at 1. unfold log at 1.
  cbv beta iota. simpl users.
  destruct (checkAndReserveConversion clk (field fd "userId") (users w))
    as [e|[limitCheck fs']]; [reflexivity|].
  simpl. unfold reserved.
  destruct (negb (allowed limitCheck)); reflexivity.
Qed.

Lemma POST_tailor_missing fd w :
  missingInput fd ->
  exists msg, POST_tailor env fd w = (inr (json (BodyError msg) 400), w).
Proof.
  intros Hm. unfold POST_tailor.
  destruct (String.eqb_spec (field fd "jobDescription") EmptyString) as [Hj|Hj].
  - eexists. reflexivity.
  - destruct Hm as [Hm|[Hr Hf]]; [contradiction|].
    rewrite Hr. simpl.
    destruct (fd !! "resume") as [[s|f]|] eqn:Hfile.
    + eexists. reflexivity.
    + exfalso. exact (Hf f eq_refl).
    + eexists. reflexivity.
Qed.

End PostFacts.

(** C10. A request with a user id but without job description (or without
    any resume text) of a user who is not special and still has today's slot:
    the handler reserves before it validates, so the answer is 400 and the
    only thing that happened is the reservation; the next request of that
    user on the same UTC day is answered 429 with the daily-limit reason. *)
Theorem rejected_request_spends_slot (env : Tailor.Env) (clk1 clk2 : Clock)
    (req1 req2 : Tailor.NextRequest) (fd1 fd2 : gmap string Tailor.FormValue)
    (w : Tailor.World) :
  Tailor.formData req1 = inr fd1 ->
  Tailor.formData req2 = inr fd2 ->
  Tailor.field fd1 "userId" <> EmptyString ->
  Tailor.field fd2 "userId" = Tailor.field fd1 "userId" ->
  Tailor.missingInput fd1 ->
  slotAvailable (getTodayUTC (now_today clk1))
                (Tailor.users w !! Tailor.field fd1 "userId") ->
  countNonNegative (Tailor.users w !! Tailor.field fd1 "userId") ->
  JsDate.Day (now_today clk1) = JsDate.Day (now_today clk2) ->
  exists msg w1 w2,
    Tailor.POST env clk1 req1 w = (Tailor.json (Tailor.BodyError msg) 400, w1)
    /\ Tailor.newEvents w w1 = [Tailor.EvReserve (Tailor.field fd1 "userId")]
    /\ Tailor.POST env clk2 req2 w1
       = (Tailor.json (Tailor.BodyError DAILY_LIMIT_REASON) 429, w2)
    /\ Tailor.users w2 = Tailor.users w1.
Proof.
  intros Hfd1 Hfd2 Huid Hsame Hmiss Hslot Hnn Hday.
  apply DateFacts.getTodayUTC_same_day in Hday.
  destruct (reserve_available _ _ clk1 Hslot Hnn)
    as (doc' & Hres & Hsp' & Hdate' & n & Hn & Hge).
  destruct (POST_tailor_missing env fd1
              (Tailor.reserved (Tailor.field fd1 "userId")
                 (<[Tailor.field fd1 "userId" := doc']> (Tailor.users w)) w) Hmiss)
    as (msg & Hmsg).
  apply String.eqb_neq in Huid.
  exists msg,
    (Tailor.reserved (Tailor.field fd1 "userId")
       (<[Tailor.field fd1 "userId" := doc']> (Tailor.users w)) w).
  eexists. split; [|split; [|split]].
  - unfold Tailor.POST. rewrite POST_try_unfold, Hfd1. cbv zeta.
    rewrite Huid, Hres. simpl negb. cbv iota. rewrite Hmsg. reflexivity.
  - simpl. apply newEvents_app. reflexivity.
  - unfold Tailor.POST. rewrite POST_try_unfold, Hfd2. cbv zeta.
    rewrite Hsame, Huid. unfold Tailor.reserved at 1. simpl Tailor.users.
    rewrite Hday in Hdate'.
    destruct (reserve_denied (<[Tailor.field fd1 "userId" := doc']> (Tailor.users w))
                (Tailor.field fd1 "userId") clk2 doc' n
                (lookup_insert_eq _ _ _) Hsp' Hdate' Hn Hge) as [_ ->].
    reflexivity.
  - reflexivity.
Qed.

Lemma rejected_request_spends_slot_witness :
  exists msg w1 w2,
    Tailor.POST (stubEnv answering rendering (fun _ => 1))
      (mkClock 1793577600123 1793577600200 1793577600201) incompleteRequest world0
      = (Tailor.json (Tailor.BodyError msg) 400, w1)
    /\ Tailor.POST (stubEnv answering rendering (fun _ => 1))
         (mkClock 1793577700000 1793577700001 1793577700002) completeRequest w1
       = (Tailor.json (Tailor.BodyError DAILY_LIMIT_REASON) 429, w2).
Proof.
  destruct (rejected_request_spends_slot (stubEnv answering rendering (fun _ => 1))
              (mkClock 1793577600123 1793577600200 1793577600201)
              (mkClock 1793577700000 1793577700001 1793577700002)
              incompleteRequest completeRequest _ _ world0 eq_refl eq_refl)
    as (msg & w1 & w2 & H1 & _ & H2 & _).
  - discriminate.
  - reflexivity.
  - left. reflexivity.
  - split; [discriminate | left; discriminate].
  - vm_compute. discriminate.
  - reflexivity.
  - exists msg, w1, w2. split; assumption.
Defined.

(* ===================================================================== *)
(** ** Render faults *)
(* ===================================================================== *)

Section RenderFault.
Import Tailor.
Context (env : Env).

Lemma renders_app (a b : list Event) : renders (a ++ b) = renders a ++ renders b.
Proof. apply omap_app. Qed.

Lemma renders_calls_only (evs : list Event) :
  Forall (fun e => isInvoke e || isSleep e = true) evs -> renders evs = [].
Proof.
  induction 1 as [|e evs He _ IH]; [reflexivity|].
  destruct e; try discriminate He; exact IH.
Qed.

Lemma rendersOk_refl w : rendersOk env w w.
Proof.
  exists []. split; [now rewrite app_nil_r|]. split; [simpl; lia|].
  intros k l H. discriminate H.
Qed.

(** Events other than renderings, with the counter of the renderer
    unchanged, keep [rendersOk]. *)
Lemma rendersOk_quiet w w0 w1 evs :
  rendersOk env w w0 ->
  n_render w1 = n_render w0 ->
  trace w1 = trace w0 ++ evs ->
  renders evs = [] ->
  rendersOk env w w1.
Proof.
  intros (evs0 & Ht & Hn & Hok) Hn1 Ht1 Hq.
  exists (evs0 ++ evs). rewrite renders_app, Hq, app_nil_r.
  split; [now rewrite Ht1, Ht, <- app_assoc|].
  split; [lia | exact Hok].
Qed.

Lemma rendersOk_rendered w w1 l b :
  rendersOk env w w1 ->
  latexToPdf_try env (n_render w1) l = inr b ->
  rendersOk env w (rendered l w1).
Proof.
  intros (evs0 & Ht & Hn & Hok) Hb.
  exists (evs0 ++ [EvRender l]). rewrite renders_app.
  change (renders [EvRender l]) with [l].
  split; [simpl; now rewrite Ht, <- app_assoc|].
  split; [simpl; rewrite length_app; simpl; lia|].
  intros k l' Hk. apply lookup_app_Some in Hk as [Hk|[Hge Hk]].
  - exact (Hok k l' Hk).
  - apply list_lookup_singleton_Some in Hk as [Hz <-].
    exists b. replace (n_render w + k)%nat with (n_render w1) by lia. exact Hb.
Qed.

Lemma rendersOk_counted w w1 b :
  rendersOk env w w1 -> rendersOk env w (counted b w1).
Proof.
  intros H. apply (rendersOk_quiet w w1 _ [EvPageCount b] H); reflexivity.
Qed.

Lemma rendersOk_generated r j h w w0 res w1 :
  rendersOk env w w0 ->
  getTailoredResume env r j h w0 = (res, w1) ->
  rendersOk env w w1.
Proof.
  intros H Hg.
  apply getTailoredResume_frame in Hg as (_ & Hr & _ & evs & Ht & Hev).
  apply (rendersOk_quiet w w0 w1 (EvGenerate h :: evs) H Hr Ht).
  exact (renders_calls_only evs Hev).
Qed.

(** The page loop either renders everything it generates or stops at the
    first rendering that faults, with the fixed error of [latexToPdf]. *)
Lemma shortenLoop_renders r j n it cur w w0 res w' :
  rendersOk env w w0 ->
  shortenLoop env r j n it cur w0 = (res, w') ->
  rendersOk env w w'
  \/ (res = inl (newError LATEX_TO_PDF_FAILED) /\ stoppedAtFault env w w').
Proof.
  revert it cur w0. induction n as [|n IH]; intros it cur w0 Hok Hrun.
  - injection Hrun as <- <-. now left.
  - rewrite shortenLoop_unfold in Hrun.
    destruct (getTailoredResume _ _ _ _ _) as [[e|l] w1] eqn:Hg;
      apply (rendersOk_generated _ _ _ w w0 _ _ Hok) in Hg.
    + injection Hrun as <- <-. now left.
    + destruct (latexToPdf_try env (n_render w1) l) as [e|b] eqn:Hr.
      * injection Hrun as <- <-. right. split; [reflexivity|].
        now exists w1, l, e.
      * pose proof (rendersOk_counted w _ b (rendersOk_rendered w w1 l b Hg Hr)) as Hc.
        destruct (pdfParse env (n_parse w1) b) as [e|pd].
        -- injection Hrun as <- <-. now left.
        -- cbv zeta in Hrun.
           destruct (default 0 (numpages pd) <=? 1).
           ++ injection Hrun as <- <-. now left.
           ++ exact (IH _ _ _ Hc Hrun).
Qed.

Lemma fitToOnePage_renders r j w w0 res w' :
  rendersOk env w w0 ->
  fitToOnePage env r j w0 = (res, w') ->
  rendersOk env w w'
  \/ (res = inl (newError LATEX_TO_PDF_FAILED) /\ stoppedAtFault env w w').
Proof.
  intros Hok Hrun. rewrite fitToOnePage_unfold in Hrun.
  destruct (getTailoredResume _ _ _ _ _) as [[e|l] w1] eqn:Hg;
    apply (rendersOk_generated _ _ _ w w0 _ _ Hok) in Hg.
  - injection Hrun as <- <-. now left.
  - destruct (latexToPdf_try env (n_render w1) l) as [e|b] eqn:Hr.
    + injection Hrun as <- <-. right. split; [reflexivity|].
      now exists w1, l, e.
    + pose proof (rendersOk_counted w _ b (rendersOk_rendered w w1 l b Hg Hr)) as Hc.
      destruct (pdfParse env (n_parse w1) b) as [e|pd].
      * injection Hrun as <- <-. now left.
      * cbv zeta in Hrun.
        destruct (1 <? default 0 (numpages pd)).
        -- exact (shortenLoop_renders _ _ _ _ _ w _ _ _ Hc Hrun).
        -- injection Hrun as <- <-. now left.
Qed.

Lemma extractTextFromFile_frame file w res w' :
  extractTextFromFile env file w = (res, w') ->
  users w' = users w /\ n_invoke w' = n_invoke w /\ n_render w' = n_render w
  /\ trace w' = trace w.
Proof.
  unfold extractTextFromFile. intros H.
  destruct (MAX_FILE_SIZE_BYTES <? _).
  { injection H as <- <-. repeat split. }
  destruct (_ || _).
  { unfold bind, callPdfParse in H.
    destruct (pdfParse env (n_parse w) (file_bytes file));
      injection H as <- <-; repeat split. }
  destruct (_ || _).
  { unfold bind, lift in H.
    destruct (mammoth_extractRawText env (file_bytes file));
      injection H as <- <-; repeat split. }
  injection H as <- <-. repeat split.
Qed.

Lemma POST_tailor_renders fd w w0 res w' :
  rendersOk env w w0 ->
  POST_tailor env fd w0 = (res, w') ->
  rendersOk env w w'
  \/ (res = inl (newError LATEX_TO_PDF_FAILED) /\ stoppedAtFault env w w').
Proof.
  intros Hok Hrun. unfold POST_tailor in Hrun.
  destruct (String.eqb (field fd "jobDescription") EmptyString).
  { injection Hrun as <- <-. now left. }
  assert (Hcont : forall resumeText w1,
    rendersOk env w w1 ->
    (if String.eqb resumeText EmptyString
     then ret (json (BodyError
       "Resume text is empty. Please provide a valid resume file or paste resume content.")
       400)
     else
       let! fit := fitToOnePage env resumeText (field fd "jobDescription") in
       ret (json (BodyTailored (toBase64 env (pdfBuffer fit)) (latexCode fit)
                    (generateFilename env (extractNameFromLatex env (latexCode fit)))) 200))
      w1 = (res, w') ->
    rendersOk env w w'
    \/ (res = inl (newError LATEX_TO_PDF_FAILED) /\ stoppedAtFault env w w')).
  { intros resumeText w1 Hw1 H.
    destruct (String.eqb resumeText EmptyString).
    { injection H as <- <-. now left. }
    unfold bind in H.
    destruct (fitToOnePage env resumeText (field fd "jobDescription") w1)
      as [rf wf] eqn:Hfit.
    apply (fitToOnePage_renders _ _ w w1 _ _ Hw1) in Hfit as [Hfit|[-> Hfit]].
    - left. destruct rf; injection H as <- <-; exact Hfit.
    - right. injection H as <- <-. split; [reflexivity | exact Hfit]. }
  cbv zeta in Hrun.
  destruct (negb (String.eqb (field fd "resumeText") EmptyString)).
  { exact (Hcont _ w0 Hok Hrun). }
  destruct (fd !! "resume") as [[s|file]|].
  - injection Hrun as <- <-. now left.
  - unfold bind at 1 in Hrun.
    destruct (extractTextFromFile env file w0) as [[e|extracted] w1] eqn:Hex;
      apply extractTextFromFile_frame in Hex as (_ & _ & Hr & Ht).
    + injection Hrun as <- <-. left.
      apply (rendersOk_quiet w w0 _ [] Hok Hr); [now rewrite app_nil_r | reflexivity].
    + refine (Hcont _ w1 _ Hrun).
      apply (rendersOk_quiet w w0 w1 [] Hok Hr); [now rewrite app_nil_r | reflexivity].
  - injection Hrun as <- <-. now left.
Qed.

(** A markup on which the renderer faults was not rendered by a run in
    which every rendering succeeded. *)
Lemma rendersOk_no_fault w w' i l e :
  rendersOk env w w' ->
  renderedAt w w' i l ->
  latexToPdf_try env i l = inl e ->
  False.
Proof.
  intros (evs & Ht & Hn & Hok) (Hle & Hlk) He.
  rewrite (newEvents_app w w' evs Ht) in Hlk.
  apply Hok in Hlk as (b & Hb).
  replace (n_render w + (i - n_render w))%nat with i in Hb by lia.
  congruence.
Qed.

(** In a run that stopped at a fault, a rendering that faulted is the last
    one, and the last event. *)
Lemma stoppedAtFault_last w w' i l e :
  stoppedAtFault env w w' ->
  renderedAt w w' i l ->
  latexToPdf_try env i l = inl e ->
  n_render w' = S i /\ last (trace w') = Some (EvRender l).
Proof.
  intros (w1 & l1 & e1 & (evs & Ht & Hn & Hok) & Hf & ->) (Hle & Hlk) He.
  assert (Hnew : newEvents w (rendered l1 w1) = evs ++ [EvRender l1]).
  { apply newEvents_app. simpl. now rewrite Ht, <- app_assoc. }
  rewrite Hnew, renders_app in Hlk.
  change (renders [EvRender l1]) with [l1] in Hlk.
  apply lookup_app_Some in Hlk as [Hlk|[Hge Hlk]].
  - apply Hok in Hlk as (b & Hb).
    replace (n_render w + (i - n_render w))%nat with i in Hb by lia.
    congruence.
  - apply list_lookup_singleton_Some in Hlk as [Hz <-].
    split; [simpl; lia | apply last_snoc].
Qed.

End RenderFault.

(** C9 as the code has it.  If rendering the markup [l] that a request
    generated fails, in whichever iteration of the page loop (the request
    handed [l] to the renderer as its call number [i], and that call
    faults on [l]), the request ends there: the response is the 500
    failure, the faulting call is the last rendering and the last event of
    the run; no generation, rendering or page count follows it. *)
Theorem render_fault_aborts (env : Tailor.Env) (clk : Clock)
    (req : Tailor.NextRequest) (w w' : Tailor.World)
    (resp : Tailor.NextResponse) (i : nat) (l : string) (e : Thrown) :
  Tailor.POST env clk req w = (resp, w') ->
  Tailor.renderedAt w w' i l ->
  Tailor.latexToPdf_try env i l = inl e ->
  Tailor.status resp = 500
  /\ Tailor.n_render w' = S i
  /\ last (Tailor.trace w') = Some (Tailor.EvRender l).
Proof.
  intros Hrun Hat Hfault.
  assert (Hend : Tailor.rendersOk env w w' -> False)
    by (intros Hok; exact (rendersOk_no_fault env w w' i l e Hok Hat Hfault)).
  unfold Tailor.POST in Hrun. rewrite POST_try_unfold in Hrun.
  destruct (Tailor.formData req) as [e0|fd].
  { injection Hrun as <- <-. destruct Hend. apply rendersOk_refl. }
  cbv zeta in Hrun.
  destruct (String.eqb (Tailor.field fd "userId") EmptyString).
  { injection Hrun as <- <-. destruct Hend. apply rendersOk_refl. }
  assert (Hres : forall fs', Tailor.rendersOk env w
            (Tailor.reserved (Tailor.field fd "userId") fs' w)).
  { intros fs'. apply (rendersOk_quiet env w w _ [Tailor.EvReserve (Tailor.field fd "userId")]
                         (rendersOk_refl env w)); reflexivity. }
  destruct (checkAndReserveConversion clk (Tailor.field fd "userId") (Tailor.users w))
    as [e0|[limitCheck fs']].
  { injection Hrun as <- <-. destruct Hend. exact (Hres (Tailor.users w)). }
  destruct (negb (allowed limitCheck)).
  { injection Hrun as <- <-. destruct Hend. exact (Hres fs'). }
  destruct (Tailor.POST_tailor env fd _) as [res w1] eqn:Htail.
  assert (w1 = w') as -> by (destruct res; congruence).
  apply (POST_tailor_renders env fd w _ res w' (Hres fs')) in Htail
    as [Hok|[-> Hstop]]; [destruct (Hend Hok)|].
  injection Hrun as <-. split; [reflexivity|].
  exact (stoppedAtFault_last env w w' i l e Hstop Hat Hfault).
Qed.

Lemma render_fault_aborts_witness :
  exists resp w',
    Tailor.POST (stubEnv answeringCutOff (rejecting "\\section{Educ") (fun _ => 2))
      (mkClock 1793577600123 1793577600200 1793577600201) completeRequest world0
      = (resp, w')
    /\ Tailor.renderedAt world0 w' 1 "\\section{Educ"
    /\ Tailor.status resp = 500
    /\ Tailor.n_render w' = 2%nat
    /\ last (Tailor.trace w') = Some (Tailor.EvRender "\\section{Educ").
Proof.
  eexists _, _. split; [vm_compute; reflexivity|].
  assert (Hat : Tailor.renderedAt world0
            (snd (Tailor.POST (stubEnv answeringCutOff (rejecting "\\section{Educ") (fun _ => 2))
                    (mkClock 1793577600123 1793577600200 1793577600201)
                    completeRequest world0))
            1 "\\section{Educ")
    by (split; [simpl; lia | vm_compute; reflexivity]).
  split; [exact Hat|].
  eapply (render_fault_aborts
            (stubEnv answeringCutOff (rejecting "\\section{Educ") (fun _ => 2))
            (mkClock 1793577600123 1793577600200 1793577600201)
            completeRequest world0 _ _ 1%nat "\\section{Educ"
            (newError "Protocol error: Target closed")).
  - vm_compute. reflexivity.
  - exact Hat.
  - vm_compute. reflexivity.
Defined.

(** C9, as stated: the renderer faults in the first of the three
    iterations.  The loop does not go on to a second attempt: the run has
    one generation and one rendering, and the response is the 500 failure. *)
Lemma render_fault_in_first_iteration_is_fatal :
  exists resp w',
    Tailor.POST (stubEnv answering (faultingAt 0) (fun _ => 2))
      (mkClock 1793577600123 1793577600200 1793577600201) completeRequest world0
      = (resp, w')
    /\ Tailor.MAX_PAGE_ITERATIONS = 3
    /\ resp = Tailor.json (Tailor.BodyError
                 "Failed to tailor resume. Please try again later.") 500
    /\ Tailor.count Tailor.isGenerate (Tailor.trace w') = 1%nat
    /\ Tailor.count Tailor.isRender (Tailor.trace w') = 1%nat
    /\ Tailor.count Tailor.isPageCount (Tailor.trace w') = 0%nat.
Proof.
  eexists _, _. split; [vm_compute; reflexivity|].
  repeat split; reflexivity.
Qed.

(* ===================================================================== *)
(** ** More about the ledger *)
(* ===================================================================== *)

(** X1. For an id that Firestore accepts as a document id,
    [checkAndReserveConversion] never throws, whatever the collection
    holds: [transaction.update] is only reached for a document that exists.
    The answer is one of three: granted with 0 remaining, denied with the
    daily-limit reason, or unlimited. *)
Theorem reserve_never_throws
    (fs : gmap string UserDoc) (userId : string) (clk : Clock) :
  validDocId userId = true ->
  exists r fs',
    checkAndReserveConversion clk userId fs = inr (r, fs')
    /\ (r = GRANTED \/ r = DENIED \/ r = UNLIMITED).
Proof.
  intros _.
  destruct (decide ((fs !! userId) ≫= isSpecial = Some true)) as [Hsp|Hsp].
  - destruct (fs !! userId) as [doc|] eqn:Hdoc; [|discriminate].
    destruct (reserve_special fs userId clk doc Hdoc Hsp) as [_ H].
    eauto 10.
  - destruct (decide ((fs !! userId) ≫= lastConversionDate
                      = Some (getTodayUTC (now_today clk)))) as [Hd|Hd].
    + destruct (fs !! userId) as [doc|] eqn:Hdoc; [|discriminate]. simpl in *.
      destruct (Z.lt_ge_cases (default 0 (conversionsToday doc)) 1) as [Hc|Hc].
      * rewrite (reserve_same_day_under_limit fs userId clk doc) by assumption.
        eauto 10.
      * destruct (conversionsToday doc) as [n|] eqn:Hn; simpl in Hc; [|lia].
        destruct (reserve_denied fs userId clk doc n Hdoc Hsp Hd Hn) as [_ H]; [lia|].
        eauto 10.
    + rewrite (reserve_other_day fs userId clk) by assumption. eauto 10.
Qed.

Lemma reserve_never_throws_witness :
  validDocId "alice" = true
  /\ exists r fs',
       checkAndReserveConversion (mkClock 1793577600123 1793577600200 1793577600201)
         "alice" {[ "alice" := usedToday ]} = inr (r, fs')
       /\ (r = GRANTED \/ r = DENIED \/ r = UNLIMITED).
Proof.
  split; [reflexivity|].
  apply (reserve_never_throws {[ "alice" := usedToday ]} "alice"
           (mkClock 1793577600123 1793577600200 1793577600201)).
  reflexivity.
Defined.

(** X2. A call touches the document of its user only, and never the
    [isSpecial] flag of that document. *)
Theorem reserve_frame
    (fs fs' : gmap string UserDoc) (userId : string) (clk : Clock) (r : LimitResult) :
  checkAndReserveConversion clk userId fs = inr (r, fs') ->
  (forall other, other <> userId -> fs' !! other = fs !! other)
  /\ (fs' !! userId) ≫= isSpecial = (fs !! userId) ≫= isSpecial.
Proof.
  intros H.
  destruct (decide ((fs !! userId) ≫= isSpecial = Some true)) as [Hsp|Hsp].
  - destruct (fs !! userId) as [doc|] eqn:Hdoc; [|discriminate].
    destruct (reserve_special fs userId clk doc Hdoc Hsp) as [_ H'].
    rewrite H' in H. injection H as <- <-. split; [reflexivity | now rewrite Hdoc].
  - destruct (decide ((fs !! userId) ≫= lastConversionDate
                      = Some (getTodayUTC (now_today clk)))) as [Hd|Hd].
    + destruct (fs !! userId) as [doc|] eqn:Hdoc; [|discriminate]. simpl in *.
      destruct (Z.lt_ge_cases (default 0 (conversionsToday doc)) 1) as [Hc|Hc].
      * rewrite (reserve_same_day_under_limit fs userId clk doc) in H by assumption.
        injection H as <- <-. split.
        -- intros other Ho. now rewrite lookup_insert_ne.
        -- now rewrite lookup_insert_eq.
      * destruct (conversionsToday doc) as [n|] eqn:Hn; simpl in Hc; [|lia].
        destruct (reserve_denied fs userId clk doc n Hdoc Hsp Hd Hn) as [_ H']; [lia|].
        rewrite H' in H. injection H as <- <-. rewrite Hdoc. split; reflexivity.
    + rewrite (reserve_other_day fs userId clk) in H by assumption.
      injection H as <- <-. split.
      * intros other Ho. now rewrite lookup_insert_ne.
      * now rewrite lookup_insert_eq.
Qed.

Lemma reserve_frame_witness :
  (<["alice" := reservedDoc "2026-11-03" (mkClock 1793664000000 1 2) (Some usedToday)]>
     ({[ "alice" := usedToday; "vip" := vip ]} : gmap string UserDoc)) !! "vip" = Some vip.
Proof.
  destruct (reserve_frame {[ "alice" := usedToday; "vip" := vip ]}
              (<["alice" := reservedDoc "2026-11-03" (mkClock 1793664000000 1 2)
                              (Some usedToday)]> {[ "alice" := usedToday; "vip" := vip ]})
              "alice" (mkClock 1793664000000 1 2) GRANTED) as [Hother _].
  - vm_compute. reflexivity.
  - rewrite Hother by discriminate. reflexivity.
Defined.

(** X3. The status query and the reservation decide alike: at the same
    clock reading, [checkServerConversionLimit] reports [allowed] exactly
    when [checkAndReserveConversion] grants. *)
Theorem status_agrees_with_reserve
    (fs fs' : gmap string UserDoc) (userId : string) (clk : Clock) (r : LimitResult) :
  checkAndReserveConversion clk userId fs = inr (r, fs') ->
  allowed (checkServerConversionLimit (now_today clk) userId fs) = allowed r.
Proof.
  intros H. unfold checkServerConversionLimit.
  destruct (decide ((fs !! userId) ≫= isSpecial = Some true)) as [Hsp|Hsp].
  - destruct (fs !! userId) as [doc|] eqn:Hdoc; [|discriminate].
    destruct (reserve_special fs userId clk doc Hdoc Hsp) as [_ H'].
    rewrite H' in H. injection H as <- <-. simpl in Hsp.
    now rewrite bool_decide_eq_true_2.
  - destruct (decide ((fs !! userId) ≫= lastConversionDate
                      = Some (getTodayUTC (now_today clk)))) as [Hd|Hd].
    + destruct (fs !! userId) as [doc|] eqn:Hdoc; [|discriminate]. simpl in *.
      rewrite bool_decide_eq_false_2 by exact Hsp.
      rewrite bool_decide_eq_true_2 by exact Hd.
      destruct (Z.lt_ge_cases (default 0 (conversionsToday doc)) 1) as [Hc|Hc].
      * rewrite (reserve_same_day_under_limit fs userId clk doc) in H by assumption.
        injection H as <- <-.
        destruct (Z.leb_spec 1 (default 0 (conversionsToday doc))); [lia | reflexivity].
      * destruct (conversionsToday doc) as [n|] eqn:Hn; simpl in Hc; [|lia].
        destruct (reserve_denied fs userId clk doc n Hdoc Hsp Hd Hn) as [_ H']; [lia|].
        rewrite H' in H. injection H as <- <-. simpl.
        destruct (Z.leb_spec 1 n); [reflexivity | lia].
    + rewrite (reserve_other_day fs userId clk) in H by assumption.
      injection H as <- <-.
      destruct (fs !! userId) as [doc|]; simpl in *; [|reflexivity].
      rewrite bool_decide_eq_false_2 by exact Hsp.
      now rewrite bool_decide_eq_false_2 by exact Hd.
Qed.

Lemma status_agrees_with_reserve_witness :
  allowed (checkServerConversionLimit 1793577600123 "alice" {[ "alice" := usedToday ]})
  = false.
Proof.
  rewrite (status_agrees_with_reserve {[ "alice" := usedToday ]} {[ "alice" := usedToday ]}
             "alice" (mkClock 1793577600123 1 2) DENIED); reflexivity.
Defined.

(** X4. What the reservation returns as [remaining] is what the status
    query shows afterwards on the same UTC day; after a denial that is 0.
    (For a document whose count is not negative.) *)
Theorem status_after_reserve
    (fs fs' : gmap string UserDoc) (userId : string) (clk : Clock)
    (r : LimitResult) (now : Z) :
  checkAndReserveConversion clk userId fs = inr (r, fs') ->
  countNonNegative (fs !! userId) ->
  JsDate.Day now = JsDate.Day (now_today clk) ->
  remaining (checkServerConversionLimit now userId fs') = remaining r
  /\ (allowed r = false ->
      checkServerConversionLimit now userId fs' = DENIED).
Proof.
  intros H Hnn Hday. apply DateFacts.getTodayUTC_same_day in Hday.
  unfold checkServerConversionLimit. rewrite Hday. unfold countNonNegative in Hnn.
  destruct (decide ((fs !! userId) ≫= isSpecial = Some true)) as [Hsp|Hsp].
  - destruct (fs !! userId) as [doc|] eqn:Hdoc; [|discriminate].
    destruct (reserve_special fs userId clk doc Hdoc Hsp) as [_ H'].
    rewrite H' in H. injection H as <- <-. rewrite Hdoc. simpl in Hsp.
    rewrite bool_decide_eq_true_2 by exact Hsp. split; [reflexivity | discriminate].
  - destruct (decide ((fs !! userId) ≫= lastConversionDate
                      = Some (getTodayUTC (now_today clk)))) as [Hd|Hd].
    + destruct (fs !! userId) as [doc|] eqn:Hdoc; [|discriminate]. simpl in *.
      destruct (Z.lt_ge_cases (default 0 (conversionsToday doc)) 1) as [Hc|Hc].
      * rewrite (reserve_same_day_under_limit fs userId clk doc) in H by assumption.
        injection H as <- <-. rewrite lookup_insert_eq. simpl.
        rewrite bool_decide_eq_false_2 by exact Hsp.
        rewrite bool_decide_eq_true_2 by reflexivity.
        destruct (Z.leb_spec 1 (default 0 (conversionsToday doc) + 1)); [|lia].
        split; [reflexivity | discriminate].
      * destruct (conversionsToday doc) as [n|] eqn:Hn; simpl in Hc; [|lia].
        destruct (reserve_denied fs userId clk doc n Hdoc Hsp Hd Hn) as [_ H']; [lia|].
        rewrite H' in H. injection H as <- <-. rewrite Hdoc.
        rewrite bool_decide_eq_false_2 by exact Hsp.
        rewrite bool_decide_eq_true_2 by exact Hd. rewrite Hn. simpl.
        destruct (Z.leb_spec 1 n); [|lia]. split; reflexivity.
    + rewrite (reserve_other_day fs userId clk) in H by assumption.
      injection H as <- <-. rewrite lookup_insert_eq. simpl.
      rewrite bool_decide_eq_false_2 by exact Hsp.
      rewrite bool_decide_eq_true_2 by reflexivity.
      split; [reflexivity | discriminate].
Qed.

Lemma status_after_reserve_witness :
  checkServerConversionLimit 1793577699999 "alice" {[ "alice" := usedToday ]} = DENIED.
Proof.
  apply (status_after_reserve {[ "alice" := usedToday ]} {[ "alice" := usedToday ]}
           "alice" (mkClock 1793577600123 1 2) DENIED 1793577699999);
    try reflexivity.
  vm_compute. discriminate.
Defined.

Section DayOfCalls.
Context (userId : string) (day : Z).

Lemma denied_all_day (clks : list Clock) (fs : gmap string UserDoc) doc n :
  Forall (fun clk => JsDate.Day (now_today clk) = day) clks ->
  fs !! userId = Some doc ->
  isSpecial doc <> Some true ->
  (forall now, JsDate.Day now = day -> lastConversionDate doc = Some (getTodayUTC now)) ->
  conversionsToday doc = Some n ->
  1 <= n ->
  reserveEach clks userId fs = inr (replicate (length clks) DENIED, fs).
Proof.
  intros Hday Hdoc Hsp Hdate Hn Hge.
  induction Hday as [|clk clks Hclk _ IH]; simpl; [reflexivity|].
  destruct (reserve_denied fs userId clk doc n Hdoc Hsp (Hdate _ Hclk) Hn Hge) as [_ ->].
  now rewrite IH.
Qed.

End DayOfCalls.

(** X5. Any number of calls in a row on one UTC day by a user who is not
    special and whose slot is free: the first is granted, all the others are
    denied. *)
Theorem one_grant_per_day_in_sequence
    (fs : gmap string UserDoc) (userId : string) (clk : Clock) (clks : list Clock) :
  slotAvailable (getTodayUTC (now_today clk)) (fs !! userId) ->
  countNonNegative (fs !! userId) ->
  Forall (fun c => JsDate.Day (now_today c) = JsDate.Day (now_today clk)) clks ->
  exists fs',
    reserveEach (clk :: clks) userId fs
    = inr (GRANTED :: replicate (length clks) DENIED, fs').
Proof.
  intros Hslot Hnn Hday.
  destruct (reserve_available fs userId clk Hslot Hnn)
    as (doc' & Hres & Hsp' & Hdate' & n & Hn & Hge).
  eexists. simpl. rewrite Hres.
  rewrite (denied_all_day userId (JsDate.Day (now_today clk)) clks _ doc' n Hday);
    try assumption; [reflexivity | apply lookup_insert_eq |].
  intros now Hnow. rewrite Hdate'. f_equal.
  now apply DateFacts.getTodayUTC_same_day.
Qed.

Lemma one_grant_per_day_in_sequence_witness :
  exists fs',
    reserveEach [mkClock 1793577600123 1 2; mkClock 1793577600999 3 4;
                 mkClock 1793663999999 5 6] "bob" {[ "alice" := usedToday ]}
    = inr ([GRANTED; DENIED; DENIED], fs').
Proof.
  apply (one_grant_per_day_in_sequence {[ "alice" := usedToday ]} "bob"
           (mkClock 1793577600123 1 2)
           [mkClock 1793577600999 3 4; mkClock 1793663999999 5 6]).
  - split; [discriminate | left; discriminate].
  - vm_compute. discriminate.
  - repeat constructor.
Defined.

(** X6. A user who has used today's slot stays denied for the rest of the
    UTC day, however often the call is repeated, and none of the calls
    writes. *)
Theorem denied_for_the_rest_of_the_day
    (fs : gmap string UserDoc) (userId : string) (doc : UserDoc) (n t0 : Z)
    (clks : list Clock) :
  fs !! userId = Some doc ->
  isSpecial doc <> Some true ->
  lastConversionDate doc = Some (getTodayUTC t0) ->
  conversionsToday doc = Some n ->
  1 <= n ->
  Forall (fun c => JsDate.Day (now_today c) = JsDate.Day t0) clks ->
  reserveEach clks userId fs = inr (replicate (length clks) DENIED, fs).
Proof.
  intros Hdoc Hsp Hdate Hn Hge Hday.
  apply (denied_all_day userId (JsDate.Day t0) clks fs doc n); try assumption.
  intros now Hnow. rewrite Hdate. f_equal.
  symmetry. now apply DateFacts.getTodayUTC_same_day.
Qed.

Lemma denied_for_the_rest_of_the_day_witness :
  reserveEach [mkClock 1793577600999 3 4; mkClock 1793663999999 5 6]
              "alice" {[ "alice" := usedToday ]}
  = inr ([DENIED; DENIED], {[ "alice" := usedToday ]}).
Proof.
  apply (denied_for_the_rest_of_the_day {[ "alice" := usedToday ]} "alice"
           usedToday 1 1793577600123
           [mkClock 1793577600999 3 4; mkClock 1793663999999 5 6]);
    try reflexivity; try discriminate; try lia; repeat constructor.
Defined.

(** X7. The limit resets at midnight UTC and only there: after a grant,
    the next call of the user is denied if and only if its clock reading
    falls on the UTC day of the grant. *)
Theorem denied_iff_same_utc_day
    (fs : gmap string UserDoc) (userId : string) (clk1 clk2 : Clock) :
  slotAvailable (getTodayUTC (now_today clk1)) (fs !! userId) ->
  countNonNegative (fs !! userId) ->
  JsDate.validTime (now_today clk1) ->
  JsDate.validTime (now_today clk2) ->
  exists fs1 r2 fs2,
    checkAndReserveConversion clk1 userId fs = inr (GRANTED, fs1)
    /\ checkAndReserveConversion clk2 userId fs1 = inr (r2, fs2)
    /\ (allowed r2 = false
        <-> JsDate.Day (now_today clk2) = JsDate.Day (now_today clk1)).
Proof.
  intros Hslot Hnn Hv1 Hv2.
  destruct (reserve_available fs userId clk1 Hslot Hnn)
    as (doc' & Hres & Hsp' & Hdate' & n & Hn & Hge).
  exists (<[userId := doc']> fs).
  destruct (Z.eq_dec (JsDate.Day (now_today clk2)) (JsDate.Day (now_today clk1)))
    as [Hday|Hday].
  - pose proof (DateFacts.getTodayUTC_same_day _ _ Hday) as Hd.
    rewrite <- Hd in Hdate'.
    destruct (reserve_denied (<[userId := doc']> fs) userId clk2 doc' n
                (lookup_insert_eq _ _ _) Hsp' Hdate' Hn Hge) as [_ H2].
    eexists _, _. split; [exact Hres|]. split; [exact H2|].
    split; [intros _; exact Hday | reflexivity].
  - eexists _, _. split; [exact Hres|]. split.
    + apply reserve_other_day; rewrite lookup_insert_eq; simpl; [exact Hsp'|].
      rewrite Hdate'. intros [= Heq].
      apply DateFacts.getTodayUTC_inj in Heq; [congruence | assumption..].
    + split; [discriminate | intros; contradiction].
Qed.

Lemma denied_iff_same_utc_day_witness :
  exists fs1 r2 fs2,
    checkAndReserveConversion (mkClock 1793663999999 1 2) "bob" ∅ = inr (GRANTED, fs1)
    /\ checkAndReserveConversion (mkClock 1793664000000 3 4) "bob" fs1 = inr (r2, fs2)
    /\ (allowed r2 = false <-> JsDate.Day 1793664000000 = JsDate.Day 1793663999999).
Proof.
  apply (denied_iff_same_utc_day ∅ "bob" (mkClock 1793663999999 1 2)
           (mkClock 1793664000000 3 4)).
  - split; [discriminate | left; discriminate].
  - vm_compute. discriminate.
  - unfold JsDate.validTime. simpl. lia.
  - unfold JsDate.validTime. simpl. lia.
Defined.



(* ===================================================================== *)
(** ** More about concurrent reservations *)
(* ===================================================================== *)

Section ConcurrentAny.
Import Concurrent.

Lemma invAny_exec (userId today : string) (a : Action) (c c' : Config) :
  invAny userId today c ->
  Forall (eq today) (datesRead [a]) ->
  exec userId a c = Some c' ->
  invAny userId today c'.
Proof.
  intros (Hgot & Hfail & Hsp & Hst) Hdates Hexec.
  destruct a as [i now | i now_lc now_upd]; simpl in Hexec.
  - destruct (pool c !! i) as [[| | |]|] eqn:Hi; try discriminate.
    injection Hexec as <-.
    simpl in Hdates. apply Forall_cons in Hdates as [Hd _].
    pose proof (granted_insert c (store c) i _ (GotToday (getTodayUTC now)) Hi) as Hg.
    simpl in Hg.
    split; [|split; [|split]].
    + intros j d Hj. simpl in Hj.
      apply lookup_insert_thread in Hj as [Hj|Hj]; [congruence | eauto].
    + intros j e Hj. simpl in Hj.
      apply lookup_insert_thread in Hj as [Hj|Hj]; [discriminate | exact (Hfail _ _ Hj)].
    + exact Hsp.
    + simpl. destruct Hst as [(H1 & H2) | (H1 & H2 & H3)].
      * left. split; [exact H1 | lia].
      * right. repeat split; try assumption; lia.
  - destruct (pool c !! i) as [[|d| |]|] eqn:Hi; try discriminate.
    pose proof (Hgot _ _ Hi) as ->.
    unfold runTransaction, reserveCallback in Hexec.
    rewrite bool_decide_eq_false_2 in Hexec by exact Hsp.
    destruct (decide ((store c !! userId) ≫= lastConversionDate = Some today))
      as [Hd|Hd].
    + rewrite bool_decide_eq_true_2 in Hexec by exact Hd.
      destruct (store c !! userId) as [doc|] eqn:Hdoc; [|discriminate].
      simpl in Hd, Hsp, Hst.
      destruct (Z.leb_spec 1 (default 0 (Some doc ≫= conversionsToday))) as [Hc|Hc].
      * (* denied *)
        simpl in Hexec. injection Hexec as <-.
        pose proof (granted_insert c (store c) i _
          (Returned (mkLimitResult false (Some DAILY_LIMIT_REASON) (Some 0))) Hi) as Hg.
        simpl in Hg, Hc.
        split; [|split; [|split]].
        -- intros j d Hj. simpl in Hj.
           apply lookup_insert_thread in Hj as [Hj|Hj]; [discriminate | eauto].
        -- intros j e Hj. simpl in Hj.
           apply lookup_insert_thread in Hj as [Hj|Hj];
             [discriminate | exact (Hfail _ _ Hj)].
        -- simpl. now rewrite Hdoc.
        -- simpl. rewrite Hdoc. simpl. right.
           destruct Hst as [([H1|H1] & H2) | (H1 & H2 & H3)];
             repeat split; try assumption; try lia; contradiction.
      * (* granted on the update path *)
        simpl in Hexec, Hc. rewrite Hdoc in Hexec. simpl in Hexec.
        injection Hexec as <-.
        pose proof (granted_insert c (<[userId := mergeDoc
          {| isSpecial := None; lastConversionDate := None;
             conversionsToday := Some (default 0 (conversionsToday doc) + 1);
             lastConversion := Some now_lc; updatedAt := None |} doc]> (store c)) i _
          (Returned (mkLimitResult true None (Some 0))) Hi) as Hg.
        simpl in Hg.
        split; [|split; [|split]].
        -- intros j d Hj. simpl in Hj.
           apply lookup_insert_thread in Hj as [Hj|Hj]; [discriminate | eauto].
        -- intros j e Hj. simpl in Hj.
           apply lookup_insert_thread in Hj as [Hj|Hj];
             [discriminate | exact (Hfail _ _ Hj)].
        -- simpl. rewrite lookup_insert_eq. simpl. exact Hsp.
        -- simpl. rewrite lookup_insert_eq. simpl. right.
           destruct Hst as [([H1|H1] & H2) | (H1 & H2 & H3)]; try contradiction; try lia.
           repeat split; [exact Hd | lia | lia].
    + (* granted on the set path *)
      rewrite bool_decide_eq_false_2 in Hexec by exact Hd.
      simpl in Hexec. injection Hexec as <-.
      pose proof (granted_insert c (<[userId := mergeDoc
        {| isSpecial := None; lastConversionDate := Some today;
           conversionsToday := Some 1; lastConversion := Some now_lc;
           updatedAt := Some now_upd |}
        (default emptyDoc (store c !! userId))]> (store c)) i _
        (Returned (mkLimitResult true None (Some 0))) Hi) as Hg.
      simpl in Hg.
      split; [|split; [|split]].
      * intros j d Hj. simpl in Hj.
        apply lookup_insert_thread in Hj as [Hj|Hj]; [discriminate | eauto].
      * intros j e Hj. simpl in Hj.
        apply lookup_insert_thread in Hj as [Hj|Hj]; [discriminate | exact (Hfail _ _ Hj)].
      * simpl. rewrite lookup_insert_eq. simpl.
        destruct (store c !! userId) as [old|]; simpl in *; [exact Hsp | discriminate].
      * simpl. rewrite lookup_insert_eq. simpl. right.
        destruct Hst as [(H1 & H2) | (H1 & H2 & H3)]; [|contradiction].
        repeat split; lia.
Qed.

Lemma invAny_run (userId today : string) (sched : list Action) (c c' : Config) :
  invAny userId today c ->
  Forall (eq today) (datesRead sched) ->
  run userId sched c = Some c' ->
  invAny userId today c'.
Proof.
  revert c. induction sched as [|a sched IH]; intros c Hinv Hdates Hrun; simpl in Hrun.
  - now injection Hrun as <-.
  - destruct (exec userId a c) as [c1|] eqn:Hexec; [|discriminate].
    assert (Ha : Forall (eq today) (datesRead [a]) /\ Forall (eq today) (datesRead sched)).
    { destruct a; simpl in *.
      - apply Forall_cons in Hdates as [? ?].
        split; [constructor; [assumption|constructor] | assumption].
      - split; [constructor | assumption]. }
    destruct Ha as [Ha Hrest].
    exact (IH c1 (invAny_exec _ _ _ _ _ Hinv Ha Hexec) Hrest Hrun).
Qed.

End ConcurrentAny.

(** X9. Concurrent requests of a user who is not special, whatever the
    document holds (with a count that is not negative): if all of them read
    the same UTC date then, at every moment of every interleaving, at most
    one has been granted and no transaction has failed. *)
Theorem at_most_one_grant_among_concurrent
    (fs : gmap string UserDoc) (userId today : string) (n : nat)
    (sched : list Concurrent.Action) (c : Concurrent.Config) :
  (fs !! userId) ≫= isSpecial <> Some true ->
  countNonNegative (fs !! userId) ->
  Forall (eq today) (Concurrent.datesRead sched) ->
  Concurrent.run userId sched (Concurrent.mkConfig fs (replicate n Concurrent.Started))
    = Some c ->
  (Concurrent.granted c <= 1)%nat
  /\ forall i e, Concurrent.pool c !! i <> Some (Concurrent.Failed e).
Proof.
  intros Hsp Hnn Hdates Hrun.
  destruct (replicate_Started_tally n) as [Hg0 _].
  assert (Hinit : Concurrent.invAny userId today
                    (Concurrent.mkConfig fs (replicate n Concurrent.Started))).
  { split; [|split; [|split]].
    - intros i d Hi. apply (lookup_replicate n) in Hi as [? _]. discriminate.
    - intros i e Hi. apply (lookup_replicate n) in Hi as [? _]. discriminate.
    - exact Hsp.
    - simpl. unfold countNonNegative in Hnn.
      destruct (decide ((fs !! userId) ≫= lastConversionDate = Some today)) as [Hd|Hd];
        [|left; split; [left; exact Hd | exact Hg0]].
      destruct (Z.eq_dec (default 0 ((fs !! userId) ≫= conversionsToday)) 0) as [Hz|Hz].
      + left. split; [right; exact Hz | exact Hg0].
      + right. repeat split; [exact Hd | lia |]. unfold Concurrent.granted. simpl.
        rewrite Hg0. lia. }
  destruct (invAny_run _ _ _ _ _ Hinit Hdates Hrun) as (_ & Hfail & _ & Hst).
  split; [|exact Hfail].
  destruct Hst as [(_ & H) | (_ & _ & H)]; lia.
Qed.

Lemma at_most_one_grant_among_concurrent_witness :
  exists c,
    Concurrent.run "alice" sameDaySchedule
      (Concurrent.mkConfig {[ "alice" := usedToday ]} (replicate 3 Concurrent.Started))
      = Some c
    /\ (Concurrent.granted c <= 1)%nat.
Proof.
  eexists. split; [vm_compute; reflexivity|].
  apply (at_most_one_grant_among_concurrent {[ "alice" := usedToday ]} "alice"
           "2026-11-02" 3 sameDaySchedule);
    [discriminate | vm_compute; discriminate | repeat constructor
    | vm_compute; reflexivity].
Defined.

(* ===================================================================== *)
(** ** More about generation and the page loop *)
(* ===================================================================== *)

Section GenerateCases.
Import Tailor.
Context (env : Env).

(** Every run of [invokeLoop] from attempt 0 with three attempts left: [m]
    rate-limited attempts with their delays, then one last call. *)
Lemma invokeLoop_cases p w res w' :
  invokeLoop env p 3 0 w = (res, w') ->
  exists m, (m <= 2)%nat
    /\ w' = mkWorld (users w) (n_invoke w + m + 1) (n_render w) (n_parse w)
                    (trace w ++ retryEvents p m ++ [EvInvoke p])
    /\ (forall i, (i < m)%nat ->
          exists e, model_invoke env (n_invoke w + i) p = inl e
                    /\ isRateLimitError e = true)
    /\ match res with
       | inl e => model_invoke env (n_invoke w + m) p = inl e
                  /\ (isRateLimitError e = true -> m = 2%nat)
       | inr (Some c) => model_invoke env (n_invoke w + m) p = inr c
       | inr None => False
       end.
Proof.
  intros H.
  destruct (model_invoke env (n_invoke w) p) as [e0|c0] eqn:H0.
  2:{ rewrite (invokeLoop_answer env p _ _ _ c0 H0) in H. injection H as <- <-.
      exists 0%nat. split; [lia|]. split.
      - unfold invoked. simpl. f_equal. lia.
      - split; [intros; lia|]. now rewrite Nat.add_0_r. }
  destruct (isRateLimitError e0) eqn:R0.
  2:{ rewrite (invokeLoop_throw env p _ _ _ e0 H0 (or_introl R0)) in H.
      injection H as <- <-. exists 0%nat. split; [lia|]. split.
      - unfold invoked. simpl. f_equal. lia.
      - split; [intros; lia|]. rewrite Nat.add_0_r. split; [exact H0 | congruence]. }
  rewrite (invokeLoop_retry env p _ _ _ e0 H0 R0) in H by discriminate.
  set (w1 := logged _ (invoked p w)) in H.
  assert (Hk1 : n_invoke w1 = (n_invoke w + 1)%nat) by (simpl; lia).
  destruct (model_invoke env (n_invoke w1) p) as [e1|c1] eqn:H1.
  2:{ rewrite (invokeLoop_answer env p _ _ _ c1 H1) in H. injection H as <- <-.
      exists 1%nat. split; [lia|]. split.
      - unfold invoked. simpl. f_equal; [lia | now rewrite <- !app_assoc].
      - split.
        + intros i Hi. assert (i = 0%nat) as -> by lia.
          exists e0. now rewrite Nat.add_0_r.
        + now rewrite <- Hk1. }
  destruct (isRateLimitError e1) eqn:R1.
  2:{ rewrite (invokeLoop_throw env p _ _ _ e1 H1 (or_introl R1)) in H.
      injection H as <- <-. exists 1%nat. split; [lia|]. split.
      - unfold invoked. simpl. f_equal; [lia | now rewrite <- !app_assoc].
      - split.
        + intros i Hi. assert (i = 0%nat) as -> by lia.
          exists e0. now rewrite Nat.add_0_r.
        + rewrite <- Hk1. split; [exact H1 | congruence]. }
  rewrite (invokeLoop_retry env p _ _ _ e1 H1 R1) in H by discriminate.
  set (w2 := logged _ (invoked p w1)) in H.
  assert (Hk2 : n_invoke w2 = (n_invoke w + 2)%nat) by (simpl; lia).
  assert (Hpre : forall i, (i < 2)%nat ->
            exists e, model_invoke env (n_invoke w + i) p = inl e
                      /\ isRateLimitError e = true).
  { intros i Hi. destruct i as [|[|i]]; [| |lia].
    - exists e0. now rewrite Nat.add_0_r.
    - exists e1. now rewrite <- Hk1. }
  destruct (model_invoke env (n_invoke w2) p) as [e2|c2] eqn:H2.
  - rewrite (invokeLoop_throw env p _ _ _ e2 H2 (or_intror eq_refl)) in H.
    injection H as <- <-. exists 2%nat. split; [lia|]. split.
    + unfold invoked. simpl. f_equal; [lia | now rewrite <- !app_assoc].
    + split; [exact Hpre|]. rewrite <- Hk2. split; [exact H2 | reflexivity].
  - rewrite (invokeLoop_answer env p _ _ _ c2 H2) in H. injection H as <- <-.
    exists 2%nat. split; [lia|]. split.
    + unfold invoked. simpl. f_equal; [lia | now rewrite <- !app_assoc].
    + split; [exact Hpre|]. now rewrite <- Hk2.
Qed.

End GenerateCases.

(** X10. When all three attempts of one [getTailoredResume] are rate
    limited, the third error is thrown after the two delays of 2000 and
    4000 ms, there is no fourth call, and the handler turns that error into
    the 503 "temporarily busy" response. *)
Theorem retries_exhausted (env : Tailor.Env) (r j : string) (h : option string)
    (w : Tailor.World) (e1 e2 e3 : Thrown) :
  Tailor.apiKey env <> EmptyString ->
  let p := Tailor.mkPrompt (Tailor.truthy h) r j in
  let k := Tailor.n_invoke w in
  Tailor.model_invoke env k p = inl e1 -> Tailor.isRateLimitError e1 = true ->
  Tailor.model_invoke env (k + 1) p = inl e2 -> Tailor.isRateLimitError e2 = true ->
  Tailor.model_invoke env (k + 2) p = inl e3 -> Tailor.isRateLimitError e3 = true ->
  exists w',
    Tailor.getTailoredResume env r j h w = (inl e3, w')
    /\ Tailor.newEvents w w'
       = [Tailor.EvGenerate h; Tailor.EvInvoke p; Tailor.EvSleep 2000;
          Tailor.EvInvoke p; Tailor.EvSleep 4000; Tailor.EvInvoke p]
    /\ Tailor.n_invoke w' = (k + 3)%nat
    /\ Tailor.POST_catch env e3
       = Tailor.json (Tailor.BodyError
           "The resume service is temporarily busy due to high demand. Please try again in a few minutes.")
           503.
Proof.
  intros Hkey p k H1 R1 H2 R2 H3 R3.
  rewrite getTailoredResume_unfold by exact Hkey. fold p.
  rewrite (invokeLoop_retry env p _ _ _ e1) by (try exact H1; try exact R1; discriminate).
  rewrite (invokeLoop_retry env p _ _ _ e2);
    [ | simpl; rewrite <- H2; f_equal; unfold k; lia | exact R2 | discriminate ].
  rewrite (invokeLoop_throw env p _ _ _ e3);
    [ | simpl; rewrite <- H3; f_equal; unfold k; lia | right; reflexivity ].
  eexists. split; [reflexivity|]. split; [|split].
  - apply newEvents_app. simpl. now rewrite <- !app_assoc.
  - simpl. unfold k. lia.
  - unfold Tailor.POST_catch. rewrite R3. reflexivity.
Qed.

Lemma retries_exhausted_witness :
  exists w',
    Tailor.getTailoredResume (stubEnv alwaysThrottled rendering (fun _ => 1))
      "resume" "job" None world0
    = (inl (ErrorObj "Quota exceeded for quota metric" (Some "8")), w')
    /\ Tailor.delays (Tailor.trace w') = [2000; 4000]
    /\ Tailor.n_invoke w' = 3%nat.
Proof.
  destruct (retries_exhausted (stubEnv alwaysThrottled rendering (fun _ => 1))
              "resume" "job" None world0 _ _ _ ltac:(discriminate)
              eq_refl eq_refl eq_refl eq_refl eq_refl eq_refl)
    as (w' & Hrun & Hev & Hn & _).
  exists w'. split; [exact Hrun|]. split; [|exact Hn].
  unfold Tailor.newEvents in Hev. simpl in Hev. rewrite drop_0 in Hev.
  now rewrite Hev.
Defined.

Lemma getTailoredResume_cases (env : Tailor.Env) (r j : string)
    (h : option string) (w w' : Tailor.World) (res : Thrown + string) :
  Tailor.getTailoredResume env r j h w = (res, w') ->
  let p := Tailor.mkPrompt (Tailor.truthy h) r j in
  (Tailor.apiKey env = EmptyString
   /\ w' = Tailor.logged (Tailor.EvGenerate h) w
   /\ exists msg, res = inl (newError msg))
  \/ (Tailor.apiKey env <> EmptyString
      /\ exists m, (m <= 2)%nat
         /\ w' = Tailor.mkWorld (Tailor.users w) (Tailor.n_invoke w + m + 1)
                   (Tailor.n_render w) (Tailor.n_parse w)
                   (Tailor.trace w
                    ++ Tailor.EvGenerate h :: Tailor.retryEvents p m ++ [Tailor.EvInvoke p])).
Proof.
  intros H p.
  destruct (String.eqb_spec (Tailor.apiKey env) EmptyString) as [Hk|Hk].
  - left. rewrite getTailoredResume_no_key in H by exact Hk.
    injection H as <- <-. split; [exact Hk|]. split; [reflexivity | eauto].
  - right. split; [exact Hk|].
    rewrite getTailoredResume_unfold in H by exact Hk. fold p in H.
    destruct (Tailor.invokeLoop env p 3 0 _) as [r0 w0] eqn:Hloop.
    apply invokeLoop_cases in Hloop as (m & Hm & -> & _ & _).
    exists m. split; [exact Hm|].
    assert (w' = Tailor.mkWorld (Tailor.users w) (Tailor.n_invoke w + m + 1)
                   (Tailor.n_render w) (Tailor.n_parse w)
                   ((Tailor.trace w ++ [Tailor.EvGenerate h])
                    ++ Tailor.retryEvents p m ++ [Tailor.EvInvoke p])) as ->
      by (destruct r0 as [?|[?|]]; simpl in H; congruence).
    now rewrite <- app_assoc.
Qed.

(** X11. The shape of every call of [getTailoredResume].  Without an API
    key it throws before any call of the model.  With one it makes [m + 1]
    calls for some [m] of 0, 1 or 2, the first [m] of them rate limited and
    each followed by its delay (2000 ms, then 4000 ms); it changes neither
    the collection nor the rendering and parsing counters. *)
Theorem getTailoredResume_shape (env : Tailor.Env) (r j : string)
    (h : option string) (w w' : Tailor.World) (res : Thrown + string) :
  Tailor.getTailoredResume env r j h w = (res, w') ->
  let p := Tailor.mkPrompt (Tailor.truthy h) r j in
  (Tailor.apiKey env = EmptyString
   /\ w' = Tailor.logged (Tailor.EvGenerate h) w
   /\ exists msg, res = inl (newError msg))
  \/ (Tailor.apiKey env <> EmptyString
      /\ exists m, (m <= 2)%nat
         /\ w' = Tailor.mkWorld (Tailor.users w) (Tailor.n_invoke w + m + 1)
                   (Tailor.n_render w) (Tailor.n_parse w)
                   (Tailor.trace w
                    ++ Tailor.EvGenerate h :: Tailor.retryEvents p m ++ [Tailor.EvInvoke p])).
Proof. exact (getTailoredResume_cases env r j h w w' res). Qed.

Lemma getTailoredResume_shape_witness :
  exists m, (m <= 2)%nat
    /\ snd (Tailor.getTailoredResume (stubEnv throttledTwice rendering (fun _ => 1))
              "resume" "job" None world0)
       = Tailor.mkWorld ∅ (0 + m + 1) 0 0
           ([] ++ Tailor.EvGenerate None
               :: Tailor.retryEvents (Tailor.mkPrompt None "resume" "job") m
               ++ [Tailor.EvInvoke (Tailor.mkPrompt None "resume" "job")]).
Proof.
  destruct (Tailor.getTailoredResume (stubEnv throttledTwice rendering (fun _ => 1))
              "resume" "job" None world0) as [res w'] eqn:Hrun.
  destruct (getTailoredResume_shape _ _ _ _ _ _ _ Hrun) as [(Hk & _) | (_ & m & Hm & Hw)].
  - discriminate.
  - exists m. split; [exact Hm | exact Hw].
Defined.

Section Growth.
Import Tailor.
Context (env : Env) (r j : string).

Lemma hints_app a b : hints (a ++ b) = hints a ++ hints b.
Proof. unfold hints. apply omap_app. Qed.

Lemma totalDelay_app a b : totalDelay (a ++ b) = totalDelay a + totalDelay b.
Proof.
  unfold totalDelay, delays. rewrite omap_app.
  induction (omap _ a) as [|x xs IH]; simpl; [reflexivity | lia].
Qed.

Lemma grew_nil w : grew [] w w.
Proof.
  unfold grew. simpl. repeat split; try lia.
  exists []. rewrite app_nil_r. repeat split. reflexivity.
Qed.

Lemma grew_trans a b w w1 w2 :
  grew a w w1 -> grew b w1 w2 -> grew (a ++ b) w w2.
Proof.
  intros (Hu & Hi & Hr & Hp & ea & Ta & Ha & Da) (Hu' & Hi' & Hr' & Hp' & eb & Tb & Hb & Db).
  unfold grew. rewrite length_app. repeat split; try lia; [congruence|].
  exists (ea ++ eb). repeat split.
  - now rewrite Tb, Ta, app_assoc.
  - now rewrite hints_app, Ha, Hb.
  - rewrite totalDelay_app. lia.
Qed.

(** One generation, and what may follow it inside one iteration. *)
Lemma generation_grew h w res w1 :
  getTailoredResume env r j h w = (res, w1) ->
  grew [h] w w1
  /\ (forall l, grew [h] w (rendered l w1))
  /\ (forall l b, grew [h] w (counted b (rendered l w1))).
Proof.
  intros H.
  assert (Hshape : users w1 = users w /\ (n_invoke w1 <= n_invoke w + 3)%nat
            /\ n_render w1 = n_render w /\ n_parse w1 = n_parse w
            /\ exists evs, trace w1 = trace w ++ evs /\ hints evs = [h]
                           /\ totalDelay evs <= 6000
                           /\ (forall tl, hints tl = [] -> totalDelay tl = 0 ->
                                 hints (evs ++ tl) = [h]
                                 /\ totalDelay (evs ++ tl) <= 6000)).
  { destruct (getTailoredResume_cases env r j h w w1 res H)
      as [(_ & -> & _) | (_ & m & Hm & ->)].
    - simpl. split; [reflexivity|]. split; [lia|]. split; [reflexivity|].
      split; [reflexivity|]. exists [EvGenerate h].
      split; [reflexivity|]. split; [reflexivity|].
      split; [unfold totalDelay; simpl; lia|].
      intros tl Ht Hz. rewrite hints_app, totalDelay_app, Ht, Hz.
      split; [reflexivity | unfold totalDelay; simpl; lia].
    - simpl. split; [reflexivity|]. split; [lia|]. split; [reflexivity|].
      split; [reflexivity|]. eexists. split; [reflexivity|].
      assert (Hh : hints (EvGenerate h :: retryEvents (mkPrompt (truthy h) r j) m
                            ++ [EvInvoke (mkPrompt (truthy h) r j)]) = [h])
        by (destruct m as [|[|[|m]]]; [reflexivity..|lia]).
      assert (Hd : totalDelay (EvGenerate h :: retryEvents (mkPrompt (truthy h) r j) m
                                 ++ [EvInvoke (mkPrompt (truthy h) r j)]) <= 6000)
        by (destruct m as [|[|[|m]]]; [unfold totalDelay; simpl; lia..|lia]).
      split; [exact Hh|]. split; [exact Hd|].
      intros tl Ht Hz. rewrite hints_app, totalDelay_app, Hh, Ht, Hz.
      split; [reflexivity | lia]. }
  destruct Hshape as (Hu & Hi & Hr & Hp & evs & Ht & Hh & Hd & Hext).
  split; [|split].
  - unfold grew. simpl. repeat split; try lia; [exact Hu|].
    exists evs. repeat split; try assumption; lia.
  - intros l. unfold grew. simpl. repeat split; try lia; [exact Hu|].
    exists (evs ++ [EvRender l]). rewrite Ht, <- app_assoc.
    destruct (Hext [EvRender l] eq_refl eq_refl) as [H1 H2].
    repeat split; try assumption; lia.
  - intros l b. unfold grew. simpl. repeat split; try lia; [exact Hu|].
    exists (evs ++ [EvRender l; EvPageCount b]). rewrite Ht, <- !app_assoc.
    destruct (Hext [EvRender l; EvPageCount b] eq_refl eq_refl) as [H1 H2].
    repeat split; try assumption; lia.
Qed.

Lemma shortenLoop_step_grew n it cur w res w' :
  shortenLoop env r j (S n) it cur w = (res, w') ->
  let h := Some (if it =? 1 then SHORTEN_HINT_FIRST else SHORTEN_HINT_AGAIN) in
  grew [h] w w'
  \/ exists next w3,
       grew [h] w w3 /\ shortenLoop env r j n (it + 1) next w3 = (res, w').
Proof.
  intros H h. rewrite shortenLoop_unfold in H. fold h in H.
  destruct (getTailoredResume env r j h w) as [[e|l] w1] eqn:Hg;
    apply generation_grew in Hg as (G1 & G2 & G3).
  - injection H as <- <-. left. exact G1.
  - destruct (latexToPdf_try env (n_render w1) l) as [e|b].
    + injection H as <- <-. left. apply G2.
    + destruct (pdfParse env (n_parse w1) b) as [e|pd].
      * injection H as <- <-. left. apply G3.
      * cbv zeta in H. destruct (default 0 (numpages pd) <=? 1).
        -- injection H as <- <-. left. apply G3.
        -- right. eexists _, _. split; [apply G3 | exact H].
Qed.

Lemma fitToOnePage_grew w res w' :
  fitToOnePage env r j w = (res, w') ->
  exists hs, hs `prefix_of` HINT_SCHEDULE /\ hs <> [] /\ grew hs w w'.
Proof.
  intros H. rewrite fitToOnePage_unfold in H.
  assert (P1 : [None] `prefix_of` HINT_SCHEDULE) by (eexists; reflexivity).
  destruct (getTailoredResume env r j None w) as [[e|l] w1] eqn:Hg;
    apply generation_grew in Hg as (G1 & G2 & G3).
  { injection H as <- <-. exists [None]. split; [exact P1 |]. split; [discriminate|]. exact G1. }
  destruct (latexToPdf_try env (n_render w1) l) as [e|b].
  { injection H as <- <-. exists [None]. split; [exact P1 |]. split; [discriminate|]. apply G2. }
  destruct (pdfParse env (n_parse w1) b) as [e|pd].
  { injection H as <- <-. exists [None]. split; [exact P1 |]. split; [discriminate|]. apply G3. }
  cbv zeta in H. destruct (1 <? default 0 (numpages pd)).
  2:{ injection H as <- <-. exists [None].
      split; [exact P1 |]. split; [discriminate|]. apply G3. }
  apply shortenLoop_step_grew in H as [H | (next & w3 & S1 & H)].
  { exists [None; Some SHORTEN_HINT_FIRST].
    split; [eexists; reflexivity |]. split; [discriminate|].
    exact (grew_trans [None] [_] _ _ _ (G3 l b) H). }
  apply shortenLoop_step_grew in H as [H | (next' & w4 & S2 & H)].
  - exists HINT_SCHEDULE. split; [reflexivity |]. split; [discriminate|].
    exact (grew_trans [None] [_; _] _ _ _ (G3 l b) (grew_trans [_] [_] _ _ _ S1 H)).
  - injection H as <- <-.
    exists HINT_SCHEDULE. split; [reflexivity |]. split; [discriminate|].
    exact (grew_trans [None] [_; _] _ _ _ (G3 l b) (grew_trans [_] [_] _ _ _ S1 S2)).
Qed.

End Growth.

Section PostShape.
Import Tailor.
Context (env : Env).

Lemma quiet_refl w : quiet w w.
Proof.
  unfold quiet. repeat split; try lia. exists []. now rewrite app_nil_r.
Qed.

Lemma extractTextFromFile_parse file w res w' :
  extractTextFromFile env file w = (res, w') ->
  (n_parse w' <= n_parse w + 1)%nat.
Proof.
  unfold extractTextFromFile. intros H.
  destruct (MAX_FILE_SIZE_BYTES <? _).
  { injection H as <- <-. lia. }
  destruct (_ || _).
  { unfold bind, callPdfParse in H.
    destruct (pdfParse env (n_parse w) (file_bytes file));
      injection H as <- <-; simpl; lia. }
  destruct (_ || _).
  { unfold bind, lift in H.
    destruct (mammoth_extractRawText env (file_bytes file));
      injection H as <- <-; lia. }
  injection H as <- <-. lia.
Qed.

Lemma POST_tailor_shape fd w res w' :
  POST_tailor env fd w = (res, w') ->
  exists w0, quiet w w0 /\ users w0 = users w
    /\ (w' = w0 \/ exists r j fit, fitToOnePage env r j w0 = (fit, w')).
Proof.
  intros H. unfold POST_tailor in H.
  destruct (String.eqb (field fd "jobDescription") EmptyString).
  { injection H as <- <-. exists w. split; [apply quiet_refl | auto]. }
  assert (Hcont : forall resumeText w0,
    (if String.eqb resumeText EmptyString
     then ret (json (BodyError
       "Resume text is empty. Please provide a valid resume file or paste resume content.")
       400)
     else
       let! fit := fitToOnePage env resumeText (field fd "jobDescription") in
       ret (json (BodyTailored (toBase64 env (pdfBuffer fit)) (latexCode fit)
                    (generateFilename env (extractNameFromLatex env (latexCode fit)))) 200))
      w0 = (res, w') ->
    w' = w0 \/ exists r j fit, fitToOnePage env r j w0 = (fit, w')).
  { intros resumeText w0 H0.
    destruct (String.eqb resumeText EmptyString).
    { injection H0 as <- <-. now left. }
    unfold bind in H0.
    destruct (fitToOnePage env resumeText (field fd "jobDescription") w0)
      as [rf wf] eqn:Hfit.
    right. exists resumeText, (field fd "jobDescription"), rf.
    destruct rf; injection H0 as <- <-; exact Hfit. }
  cbv zeta in H.
  destruct (negb (String.eqb (field fd "resumeText") EmptyString)).
  { exists w. split; [apply quiet_refl|]. split; [reflexivity | exact (Hcont _ w H)]. }
  destruct (fd !! "resume") as [[s|file]|].
  - injection H as <- <-. exists w. split; [apply quiet_refl | auto].
  - unfold bind at 1 in H.
    destruct (extractTextFromFile env file w) as [[e|extracted] w1] eqn:Hex.
    + injection H as <- <-. exists w1.
      pose proof Hex as Hn. apply extractTextFromFile_frame in Hex as (Hu & Hi & Hr & Ht).
      split; [|auto].
      apply extractTextFromFile_parse in Hn.
      unfold quiet. repeat split; try lia.
      exists []. now rewrite app_nil_r.
    + exists w1.
      pose proof Hex as Hn. apply extractTextFromFile_frame in Hex as (Hu & Hi & Hr & Ht).
      split; [|split; [exact Hu | exact (Hcont _ w1 H)]].
      apply extractTextFromFile_parse in Hn.
      unfold quiet. repeat split; try lia.
      exists []. now rewrite app_nil_r.
  - injection H as <- <-. exists w. split; [apply quiet_refl | auto].
Qed.

Lemma POST_shape clk req w resp w' :
  POST env clk req w = (resp, w') ->
  exists w0, quiet w w0
    /\ (w' = w0 \/ exists r j fit, fitToOnePage env r j w0 = (fit, w')).
Proof.
  intros H. unfold POST in H. rewrite POST_try_unfold in H.
  destruct (formData req) as [e|fd].
  { injection H as <- <-. exists w. split; [apply quiet_refl | auto]. }
  cbv zeta in H.
  destruct (String.eqb (field fd "userId") EmptyString).
  { injection H as <- <-. exists w. split; [apply quiet_refl | auto]. }
  destruct (checkAndReserveConversion clk (field fd "userId") (users w))
    as [e|[limitCheck fs']].
  { injection H as <- <-. eexists. split; [|left; reflexivity].
    unfold quiet. simpl. repeat split; try lia. now exists [EvReserve (field fd "userId")]. }
  assert (Hq : quiet w (reserved (field fd "userId") fs' w)).
  { unfold quiet. simpl. repeat split; try lia. now exists [EvReserve (field fd "userId")]. }
  destruct (negb (allowed limitCheck)).
  { injection H as <- <-. eexists. split; [exact Hq | left; reflexivity]. }
  destruct (POST_tailor env fd _) as [res w1] eqn:Htail.
  assert (w1 = w') as -> by (destruct res; congruence).
  apply POST_tailor_shape in Htail as (w0 & (Qi & Qr & Qp & pre & Qt & Qh & Qd) & _ & Hrun).
  exists w0. split; [|exact Hrun].
  clear Hq. unfold quiet. simpl in *. repeat split; try lia.
  exists ([EvReserve (field fd "userId")] ++ pre).
  rewrite Qt, <- app_assoc, hints_app, totalDelay_app, Qh, Qd.
  repeat split.
Qed.

End PostShape.

(** X12. The budget of one request, whatever the services do: at most 9
    calls of the model, 3 renderings, 4 parsed documents (the upload and one
    per attempt) and 18000 ms of delay in all. *)
Theorem request_budget (env : Tailor.Env) (clk : Clock) (req : Tailor.NextRequest)
    (w w' : Tailor.World) (resp : Tailor.NextResponse) :
  Tailor.POST env clk req w = (resp, w') ->
  (Tailor.n_invoke w' <= Tailor.n_invoke w + 9)%nat
  /\ (Tailor.n_render w' <= Tailor.n_render w + 3)%nat
  /\ (Tailor.n_parse w' <= Tailor.n_parse w + 4)%nat
  /\ Tailor.totalDelay (Tailor.newEvents w w') <= 18000.
Proof.
  intros H.
  apply POST_shape in H as (w0 & (Qi & Qr & Qp & pre & Qt & Qh & Qd) & [->|Hrun]).
  - rewrite (newEvents_app w w0 pre Qt). repeat split; lia.
  - destruct Hrun as (r & j & fit & Hrun).
    apply fitToOnePage_grew in Hrun
      as (hs & [k Hk] & _ & (_ & Gi & Gr & Gp & evs & Gt & Gh & Gd)).
    assert (Hlen : (length hs <= 3)%nat).
    { apply (f_equal length) in Hk. rewrite length_app in Hk. simpl in Hk. lia. }
    rewrite (newEvents_app w w' (pre ++ evs)) by (rewrite Gt, Qt, app_assoc; reflexivity).
    rewrite totalDelay_app. repeat split; lia.
Qed.

Lemma request_budget_witness :
  exists resp w',
    Tailor.POST (stubEnv alwaysThrottled rendering (fun _ => 2))
      (mkClock 1793577600123 1793577600200 1793577600201) completeRequest world0
    = (resp, w')
    /\ Tailor.status resp = 503
    /\ (Tailor.n_invoke w' <= 9)%nat
    /\ Tailor.totalDelay (Tailor.trace w') <= 18000.
Proof.
  eexists _, _. split; [vm_compute; reflexivity|]. split; [reflexivity|].
  destruct (request_budget (stubEnv alwaysThrottled rendering (fun _ => 2))
              (mkClock 1793577600123 1793577600200 1793577600201) completeRequest
              world0 _ _ ltac:(vm_compute; reflexivity)) as (Hi & _ & _ & Hd).
  split; [exact Hi | exact Hd].
Defined.

(** X13. The hints of one request follow the schedule: the generations of
    a run are, in order, one without hint, one with the first shorten hint
    and one with the second, stopping anywhere; there is never a fourth, and
    the two hints differ. *)
Theorem hints_follow_schedule (env : Tailor.Env) (clk : Clock)
    (req : Tailor.NextRequest) (w w' : Tailor.World) (resp : Tailor.NextResponse) :
  Tailor.POST env clk req w = (resp, w') ->
  Tailor.hints (Tailor.newEvents w w')
    `prefix_of` [None; Some Tailor.SHORTEN_HINT_FIRST; Some Tailor.SHORTEN_HINT_AGAIN]
  /\ Tailor.SHORTEN_HINT_FIRST <> Tailor.SHORTEN_HINT_AGAIN.
Proof.
  intros H. split; [|discriminate].
  apply POST_shape in H as (w0 & (Qi & Qr & Qp & pre & Qt & Qh & Qd) & [->|Hrun]).
  - rewrite (newEvents_app w w0 pre Qt), Qh. eexists. reflexivity.
  - destruct Hrun as (r & j & fit & Hrun).
    apply fitToOnePage_grew in Hrun
      as (hs & Hpre & _ & (_ & _ & _ & _ & evs & Gt & Gh & _)).
    rewrite (newEvents_app w w' (pre ++ evs)) by (rewrite Gt, Qt, app_assoc; reflexivity).
    rewrite hints_app, Qh, Gh. exact Hpre.
Qed.

Lemma hints_follow_schedule_witness :
  exists resp w',
    Tailor.POST (stubEnv answering rendering (fun k => if Nat.eqb k 0 then 2 else 1))
      (mkClock 1793577600123 1793577600200 1793577600201) completeRequest world0
    = (resp, w')
    /\ Tailor.hints (Tailor.trace w') = [None; Some Tailor.SHORTEN_HINT_FIRST].
Proof.
  eexists _, _. split; [vm_compute; reflexivity|].
  destruct (hints_follow_schedule
              (stubEnv answering rendering (fun k => if Nat.eqb k 0 then 2 else 1))
              (mkClock 1793577600123 1793577600200 1793577600201) completeRequest
              world0 _ _ ltac:(vm_compute; reflexivity)) as [_ _].
  reflexivity.
Defined.

(* ===================================================================== *)
(** ** More about the handler *)
(* ===================================================================== *)

Section HandlerFacts.
Import Tailor.
Context (env : Env).

Lemma POST_tailor_users fd w res w' :
  POST_tailor env fd w = (res, w') -> users w' = users w.
Proof.
  intros H. apply POST_tailor_shape in H as (w0 & _ & Hu & [->|Hrun]); [exact Hu|].
  destruct Hrun as (r & j & fit & Hrun).
  apply fitToOnePage_grew in Hrun as (hs & _ & _ & (Hu' & _)). congruence.
Qed.

Lemma trimStart_spaces s :
  Filename.allChars Ascii.is_space s = true -> trimStart s = EmptyString.
Proof.
  induction s as [|c s IH]; simpl; [reflexivity|].
  intros [Hc Hs]%andb_true_iff. rewrite Hc. exact (IH Hs).
Qed.

Lemma trim_spaces s :
  Filename.allChars Ascii.is_space s = true -> trim s = EmptyString.
Proof. intros H. unfold trim. now rewrite trimStart_spaces. Qed.

End HandlerFacts.

(** X14. A slot that was taken is never given back.  Whatever follows the
    reservation in the handler (a validation error, a failure of the model,
    a render fault or a success), the collection at the end of the request
    is exactly the one the reservation left. *)
Theorem reservation_is_kept (env : Tailor.Env) (clk : Clock)
    (req : Tailor.NextRequest) (fd : gmap string Tailor.FormValue)
    (w w' : Tailor.World) (resp : Tailor.NextResponse)
    (r : LimitResult) (fs' : gmap string UserDoc) :
  Tailor.formData req = inr fd ->
  Tailor.field fd "userId" <> EmptyString ->
  checkAndReserveConversion clk (Tailor.field fd "userId") (Tailor.users w)
    = inr (r, fs') ->
  Tailor.POST env clk req w = (resp, w') ->
  Tailor.users w' = fs'.
Proof.
  intros Hfd Huid Hres H. apply String.eqb_neq in Huid.
  unfold Tailor.POST in H. rewrite POST_try_unfold, Hfd in H. cbv zeta in H.
  rewrite Huid, Hres in H.
  destruct (negb (allowed r)).
  { now injection H as <- <-. }
  destruct (Tailor.POST_tailor env fd _) as [res w1] eqn:Htail.
  assert (w1 = w') as -> by (destruct res; congruence).
  now apply POST_tailor_users in Htail.
Qed.

Lemma reservation_is_kept_witness :
  exists resp w',
    Tailor.POST (stubEnv alwaysThrottled rendering (fun _ => 2))
      (mkClock 1793577600123 1793577600200 1793577600201) completeRequest world0
    = (resp, w')
    /\ Tailor.status resp = 503
    /\ Tailor.users w' !! "alice"
       = Some (mkUserDoc None (Some "2026-11-02") (Some 1)
                 (Some 1793577600200) (Some 1793577600201)).
Proof.
  destruct (Tailor.POST (stubEnv alwaysThrottled rendering (fun _ => 2))
              (mkClock 1793577600123 1793577600200 1793577600201) completeRequest world0)
    as [resp w'] eqn:Hrun.
  exists resp, w'. split; [reflexivity|].
  rewrite (reservation_is_kept (stubEnv alwaysThrottled rendering (fun _ => 2))
             (mkClock 1793577600123 1793577600200 1793577600201) completeRequest
             {[ "userId" := Tailor.FormString "alice";
                "resumeText" := Tailor.FormString "Ten years of plumbing.";
                "jobDescription" := Tailor.FormString "Plumber wanted." ]}
             world0 w' resp GRANTED
             (<["alice" := mkUserDoc None (Some "2026-11-02") (Some 1)
                             (Some 1793577600200) (Some 1793577600201)]> ∅)
             eq_refl ltac:(discriminate) ltac:(vm_compute; reflexivity) Hrun).
  vm_compute in Hrun. injection Hrun as <- _.
  split; [reflexivity | apply lookup_insert_eq].
Defined.

(** X15. A request without [userId], or with one made of white space only,
    is answered 401 before anything else happens: no reservation, no call of
    any service, the world is unchanged. *)
Theorem no_user_id_is_401 (env : Tailor.Env) (clk : Clock)
    (req : Tailor.NextRequest) (fd : gmap string Tailor.FormValue)
    (w : Tailor.World) :
  Tailor.formData req = inr fd ->
  (fd !! "userId" = None
   \/ exists s, fd !! "userId" = Some (Tailor.FormString s)
                /\ Filename.allChars Ascii.is_space s = true) ->
  Tailor.POST env clk req w
  = (Tailor.json (Tailor.BodyError "User authentication required.") 401, w).
Proof.
  intros Hfd Huid.
  assert (Hf : Tailor.field fd "userId" = EmptyString).
  { unfold Tailor.field. destruct Huid as [->|(s & -> & Hs)]; [reflexivity|].
    now apply trim_spaces. }
  unfold Tailor.POST. rewrite POST_try_unfold, Hfd. cbv zeta. now rewrite Hf.
Qed.

Lemma no_user_id_is_401_witness :
  Tailor.POST (stubEnv answering rendering (fun _ => 1))
    (mkClock 1793577600123 1 2)
    (Tailor.mkRequest (inr {[ "userId" := Tailor.FormString "   ";
                              "jobDescription" := Tailor.FormString "Plumber wanted." ]}))
    world0
  = (Tailor.json (Tailor.BodyError "User authentication required.") 401, world0).
Proof.
  apply (no_user_id_is_401 _ _
           (Tailor.mkRequest (inr {[ "userId" := Tailor.FormString "   ";
                                     "jobDescription" := Tailor.FormString "Plumber wanted." ]}))
           {[ "userId" := Tailor.FormString "   ";
              "jobDescription" := Tailor.FormString "Plumber wanted." ]} world0 eq_refl).
  right. exists "   ". split; reflexivity.
Defined.

(** X16. A user who has used today's slot gets 429 with the daily-limit
    reason; nothing is generated, rendered or parsed and the collection is
    not written. *)
Theorem used_slot_is_429 (env : Tailor.Env) (clk : Clock)
    (req : Tailor.NextRequest) (fd : gmap string Tailor.FormValue)
    (w : Tailor.World) (doc : UserDoc) (n : Z) :
  Tailor.formData req = inr fd ->
  Tailor.field fd "userId" <> EmptyString ->
  Tailor.users w !! Tailor.field fd "userId" = Some doc ->
  isSpecial doc <> Some true ->
  lastConversionDate doc = Some (getTodayUTC (now_today clk)) ->
  conversionsToday doc = Some n ->
  1 <= n ->
  Tailor.POST env clk req w
  = (Tailor.json (Tailor.BodyError DAILY_LIMIT_REASON) 429,
     Tailor.logged (Tailor.EvReserve (Tailor.field fd "userId")) w).
Proof.
  intros Hfd Huid Hdoc Hsp Hdate Hn Hge. apply String.eqb_neq in Huid.
  unfold Tailor.POST. rewrite POST_try_unfold, Hfd. cbv zeta. rewrite Huid.
  destruct (reserve_denied _ _ clk doc n Hdoc Hsp Hdate Hn Hge) as [_ ->].
  reflexivity.
Qed.

Lemma used_slot_is_429_witness :
  Tailor.POST (stubEnv answering rendering (fun _ => 1))
    (mkClock 1793577600123 1 2) completeRequest
    (Tailor.mkWorld {[ "alice" := usedToday ]} 0 0 0 [])
  = (Tailor.json (Tailor.BodyError DAILY_LIMIT_REASON) 429,
     Tailor.mkWorld {[ "alice" := usedToday ]} 0 0 0 [Tailor.EvReserve "alice"]).
Proof.
  rewrite (used_slot_is_429 (stubEnv answering rendering (fun _ => 1))
             (mkClock 1793577600123 1 2) completeRequest
           {[ "userId" := Tailor.FormString "alice";
              "resumeText" := Tailor.FormString "Ten years of plumbing.";
              "jobDescription" := Tailor.FormString "Plumber wanted." ]}
           (Tailor.mkWorld {[ "alice" := usedToday ]} 0 0 0 []) usedToday 1 eq_refl);
    try reflexivity; try discriminate; lia.
Defined.

(** X17. When the page loop returns, the answer is 200 with the markup
    and the encoded PDF of the returned attempt, whether or not that attempt
    fits on one page: the response has no field for the page count. *)
Theorem loop_result_is_the_response (env : Tailor.Env) (clk : Clock)
    (req : Tailor.NextRequest) (fd : gmap string Tailor.FormValue)
    (w w' : Tailor.World) (fs' : gmap string UserDoc) (fit : Tailor.Fit) :
  Tailor.formData req = inr fd ->
  Tailor.field fd "userId" <> EmptyString ->
  Tailor.field fd "jobDescription" <> EmptyString ->
  Tailor.field fd "resumeText" <> EmptyString ->
  checkAndReserveConversion clk (Tailor.field fd "userId") (Tailor.users w)
    = inr (GRANTED, fs') ->
  Tailor.fitToOnePage env (Tailor.field fd "resumeText") (Tailor.field fd "jobDescription")
    (Tailor.reserved (Tailor.field fd "userId") fs' w) = (inr fit, w') ->
  Tailor.POST env clk req w
  = (Tailor.json
       (Tailor.BodyTailored (Tailor.toBase64 env (Tailor.pdfBuffer fit))
          (Tailor.latexCode fit)
          (Tailor.generateFilename env
             (Tailor.extractNameFromLatex env (Tailor.latexCode fit)))) 200, w').
Proof.
  intros Hfd Huid Hjd Hrt Hres Hfit.
  apply String.eqb_neq in Huid, Hjd, Hrt.
  unfold Tailor.POST. rewrite POST_try_unfold, Hfd. cbv zeta.
  rewrite Huid, Hres. simpl negb. cbv iota.
  unfold Tailor.POST_tailor. rewrite Hjd, Hrt. simpl negb. cbv iota beta zeta.
  unfold Tailor.bind. change (negb false) with true. cbv beta iota.
  rewrite Hfit. reflexivity.
Qed.

Lemma loop_result_is_the_response_witness :
  exists w',
    Tailor.POST (stubEnv answering rendering (fun _ => 2))
      (mkClock 1793577600123 1793577600200 1793577600201) completeRequest world0
    = (Tailor.json
         (Tailor.BodyTailored "%PDF \\section{Education}" "\\section{Education}"
            "Resume_Tailored_Resume.pdf") 200, w')
    /\ Tailor.n_render w' = 3%nat.
Proof.
  eexists. split.
  - apply (loop_result_is_the_response (stubEnv answering rendering (fun _ => 2))
             (mkClock 1793577600123 1793577600200 1793577600201) completeRequest
             {[ "userId" := Tailor.FormString "alice";
                "resumeText" := Tailor.FormString "Ten years of plumbing.";
                "jobDescription" := Tailor.FormString "Plumber wanted." ]} world0 _
             (<["alice" := mkUserDoc None (Some "2026-11-02") (Some 1)
                             (Some 1793577600200) (Some 1793577600201)]> ∅)
             (Tailor.mkFit "\\section{Education}" "%PDF \\section{Education}" 2)
             eq_refl);
      try discriminate; vm_compute; reflexivity.
  - reflexivity.
Defined.

(** X18. Pasted text wins over an upload: when the form has resume text,
    whatever is in the [resume] entry is never looked at, so the response
    and the final world are the same with any file, or none. *)
Theorem pasted_text_wins (env : Tailor.Env) (clk : Clock)
    (fd : gmap string Tailor.FormValue) (v : Tailor.FormValue) (w : Tailor.World) :
  Tailor.field fd "resumeText" <> EmptyString ->
  Tailor.POST env clk (Tailor.mkRequest (inr (<["resume" := v]> fd))) w
  = Tailor.POST env clk (Tailor.mkRequest (inr (delete "resume" fd))) w.
Proof.
  intros Hrt. apply String.eqb_neq in Hrt.
  assert (Hf : forall name, name <> "resume" ->
            Tailor.field (<["resume" := v]> fd) name = Tailor.field fd name
            /\ Tailor.field (delete "resume" fd) name = Tailor.field fd name).
  { intros name Hne. unfold Tailor.field.
    rewrite lookup_insert_ne, lookup_delete_ne by congruence. split; reflexivity. }
  destruct (Hf "userId" ltac:(discriminate)) as [U1 U2].
  destruct (Hf "jobDescription" ltac:(discriminate)) as [J1 J2].
  destruct (Hf "resumeText" ltac:(discriminate)) as [R1 R2].
  unfold Tailor.POST. rewrite !POST_try_unfold. cbn [Tailor.formData]. cbv zeta.
  rewrite U1, U2.
  destruct (String.eqb (Tailor.field fd "userId") EmptyString); [reflexivity|].
  destruct (checkAndReserveConversion _ _ _) as [e|[limitCheck fs']]; [reflexivity|].
  destruct (negb (allowed limitCheck)); [reflexivity|].
  unfold Tailor.POST_tailor. rewrite J1, J2, R1, R2, Hrt. reflexivity.
Qed.

Lemma pasted_text_wins_witness :
  Tailor.POST (stubEnv answering rendering (fun _ => 1)) (mkClock 1793577600123 1 2)
    (Tailor.mkRequest
       (inr (<["resume" := Tailor.FormFile (Tailor.mkFile "cv.exe" "application/x-msdownload" "MZ")]>
               {[ "userId" := Tailor.FormString "alice";
                  "resumeText" := Tailor.FormString "Ten years of plumbing.";
                  "jobDescription" := Tailor.FormString "Plumber wanted." ]}))) world0
  = Tailor.POST (stubEnv answering rendering (fun _ => 1)) (mkClock 1793577600123 1 2)
      (Tailor.mkRequest
         (inr (delete "resume"
                 {[ "userId" := Tailor.FormString "alice";
                    "resumeText" := Tailor.FormString "Ten years of plumbing.";
                    "jobDescription" := Tailor.FormString "Plumber wanted." ]}))) world0.
Proof.
  apply pasted_text_wins. discriminate.
Defined.

(* ===================================================================== *)
(** ** Strings: classification of errors, trimming, file names *)
(* ===================================================================== *)

Section StringFacts.

Lemma append_cons (c : ascii) (a b : string) :
  String c a +:+ b = String c (a +:+ b).
Proof. reflexivity. Qed.

Lemma append_nil_r (s : string) : s +:+ EmptyString = s.
Proof.
  induction s as [|c s IH]; [reflexivity|]. now rewrite append_cons, IH.
Qed.

Lemma append_assoc (a b c : string) : (a +:+ b) +:+ c = a +:+ b +:+ c.
Proof.
  induction a as [|x a IH]; [reflexivity|]. now rewrite !append_cons, IH.
Qed.

Lemma startsWith_spec (p s : string) :
  startsWith p s = true <-> exists post, s = p +:+ post.
Proof.
  revert s. induction p as [|a p IH]; intros s.
  - split; [intros _; now exists s | reflexivity].
  - destruct s as [|b s]; cbn [startsWith].
    + split; [discriminate | intros (post & H); discriminate].
    + setoid_rewrite append_cons.
      destruct (Ascii.eqb_spec a b) as [->|Hne].
      * rewrite IH. split; intros (post & H); exists post; congruence.
      * split; [discriminate | intros (post & H); congruence].
Qed.

Lemma includes_spec (p s : string) :
  includes p s = true <-> Tailor.contains p s.
Proof.
  unfold Tailor.contains. induction s as [|c s IH]; cbn [includes].
  - destruct (startsWith p EmptyString) eqn:Hs.
    + split; [intros _|reflexivity].
      apply startsWith_spec in Hs as (post & H). now exists EmptyString, post.
    + split; [discriminate|]. intros (pre & post & H).
      destruct pre; [|discriminate]. change (EmptyString = p +:+ post) in H.
      assert (startsWith p EmptyString = true)
        by (apply startsWith_spec; now exists post).
      congruence.
  - destruct (startsWith p (String c s)) eqn:Hs.
    + split; [intros _|reflexivity].
      apply startsWith_spec in Hs as (post & H). now exists EmptyString, post.
    + rewrite IH. split.
      * intros (pre & post & ->). now exists (String c pre), post.
      * intros (pre & post & H). destruct pre as [|x pre].
        -- change (String c s = p +:+ post) in H.
           assert (startsWith p (String c s) = true)
             by (apply startsWith_spec; now exists post).
           congruence.
        -- rewrite append_cons in H. injection H as -> ->. now exists pre, post.
Qed.

Lemma lower_ascii_idem (c : ascii) : lower_ascii (lower_ascii c) = lower_ascii c.
Proof. destruct c as [[] [] [] [] [] [] [] []]; reflexivity. Qed.

Lemma toLowerCase_idem (s : string) : toLowerCase (toLowerCase s) = toLowerCase s.
Proof.
  induction s as [|c s IH]; simpl; [reflexivity|].
  now rewrite lower_ascii_idem, IH.
Qed.

Lemma toLowerCase_append (a b : string) :
  toLowerCase (a +:+ b) = toLowerCase a +:+ toLowerCase b.
Proof.
  induction a as [|c a IH]; [reflexivity|].
  rewrite append_cons. cbn [toLowerCase]. now rewrite append_cons, IH.
Qed.

Lemma test_any_i_spec (alts : list string) (s : string) :
  test_any_i alts s = true
  <-> exists kw, In kw alts /\ Tailor.contains (toLowerCase kw) (toLowerCase s).
Proof.
  unfold test_any_i. rewrite existsb_exists.
  split; intros (kw & Hin & H); exists kw; (split; [exact Hin|]);
    now apply includes_spec.
Qed.

End StringFacts.

(** X19. What [isRateLimitError] classifies: exactly the thrown values
    whose [code] is 429 or whose message, read without regard to letter
    case, contains one of the eleven words of the two patterns. *)
Theorem isRateLimitError_spec (error : Thrown) :
  Tailor.isRateLimitError error = true
  <-> codeString error = "429"
      \/ exists kw, In kw Tailor.RATE_LIMIT_WORDS
                    /\ Tailor.contains kw (toLowerCase (messageOrString error)).
Proof.
  unfold Tailor.isRateLimitError.
  rewrite !orb_true_iff, String.eqb_eq, !test_any_i_spec.
  setoid_rewrite toLowerCase_idem.
  split.
  - intros [[H | (kw & Hin & H)] | (kw & Hin & H)].
    + now left.
    + right. exists kw. split.
      * unfold Tailor.RATE_LIMIT_WORDS. simpl in *. tauto.
      * replace kw with (toLowerCase kw) at 1; [exact H|].
        simpl in Hin. repeat (destruct Hin as [<-|Hin]; [reflexivity|]). contradiction.
    + right. exists kw. split.
      * unfold Tailor.RATE_LIMIT_WORDS. simpl in *. tauto.
      * replace kw with (toLowerCase kw) at 1; [exact H|].
        simpl in Hin. repeat (destruct Hin as [<-|Hin]; [reflexivity|]). contradiction.
  - intros [H | (kw & Hin & H)]; [now left; left|].
    assert (Hl : toLowerCase kw = kw).
    { unfold Tailor.RATE_LIMIT_WORDS in Hin. simpl in Hin.
      repeat (destruct Hin as [<-|Hin]; [reflexivity|]). contradiction. }
    assert (Hsplit :
      In kw ["rate limit"; "rate_limit"; "ratelimit"; "quota"; "resource exhausted";
             "resource_exhausted"; "too many requests"; "429"]
      \/ In kw ["quota exceeded"; "billing"; "limit exceeded"])
      by (unfold Tailor.RATE_LIMIT_WORDS in Hin; simpl in *; tauto).
    destruct Hsplit as [H1|H2].
    + left. right. exists kw. split; [exact H1 | now rewrite Hl].
    + right. exists kw. split; [exact H2 | now rewrite Hl].
Qed.

Section TrimFacts.

Lemma trimStart_head (s : string) :
  match trimStart s with
  | EmptyString => True
  | String c _ => Ascii.is_space c = false
  end.
Proof.
  induction s as [|c s IH]; cbn [trimStart]; [exact I|].
  destruct (Ascii.is_space c) eqn:Hc; [exact IH | exact Hc].
Qed.

Lemma trimEnd_idem (s : string) : trimEnd (trimEnd s) = trimEnd s.
Proof.
  induction s as [|c s IH]; [reflexivity|].
  cbn [trimEnd]. destruct (trimEnd s) as [|c' r'] eqn:Hr.
  - destruct (Ascii.is_space c) eqn:Hc; [reflexivity|].
    cbn [trimEnd]. now rewrite Hc.
  - cbn [trimEnd]. cbn [trimEnd] in IH.
    destruct (trimEnd r') as [|c'' r'']; rewrite IH; reflexivity.
Qed.

Lemma trimEnd_head (s : string) :
  match s with
  | String c _ => Ascii.is_space c = false ->
                  exists r, trimEnd s = String c r
  | EmptyString => True
  end.
Proof.
  destruct s as [|c s]; [exact I|]. intros Hc. cbn [trimEnd].
  destruct (trimEnd s); rewrite ?Hc; eauto.
Qed.

(** What [trim] returns has no white space at either end. *)
Lemma trim_trimmed (s : string) :
  trimStart (trim s) = trim s /\ trimEnd (trim s) = trim s.
Proof.
  unfold trim. split; [|apply trimEnd_idem].
  pose proof (trimStart_head s) as Hh. pose proof (trimEnd_head (trimStart s)) as He.
  destruct (trimStart s) as [|c r]; [reflexivity|].
  destruct (He Hh) as (r' & ->). cbn [trimStart]. now rewrite Hh.
Qed.

Lemma trim_idem (s : string) : trim (trim s) = trim s.
Proof.
  destruct (trim_trimmed s) as [H1 H2]. unfold trim at 1. now rewrite H1, H2.
Qed.

End TrimFacts.

(** X20. The markup [getTailoredResume] returns is trimmed, whatever the
    model sent (a string, chunks or something else): it neither starts nor
    ends with white space, and trimming it again changes nothing. *)
Theorem generated_markup_is_trimmed (env : Tailor.Env) (r j : string)
    (h : option string) (w w' : Tailor.World) (l : string) :
  Tailor.getTailoredResume env r j h w = (inr l, w') ->
  trimStart l = l /\ trimEnd l = l /\ trim l = l.
Proof.
  intros H.
  assert (Hl : exists x, l = trim x).
  { destruct (String.eqb_spec (Tailor.apiKey env) EmptyString) as [Hk|Hk].
    - rewrite getTailoredResume_no_key in H by exact Hk. discriminate.
    - rewrite getTailoredResume_unfold in H by exact Hk.
      destruct (Tailor.invokeLoop _ _ _ _ _) as [[e|[c|]] w0]; try discriminate.
      injection H as <- _. destruct c; simpl; eauto. }
  destruct Hl as (x & ->).
  destruct (trim_trimmed x) as [H1 H2].
  split; [exact H1|]. split; [exact H2 | apply trim_idem].
Qed.

Lemma generated_markup_is_trimmed_witness :
  trim "\\section{Education}" = "\\section{Education}".
Proof.
  destruct (generated_markup_is_trimmed (stubEnv answering rendering (fun _ => 1))
              "resume" "job" None world0 _ "\\section{Education}"
              ltac:(vm_compute; reflexivity)) as (_ & _ & H).
  exact H.
Defined.

Section FilenameFacts.
Import Filename.

(** The characters of a file name: word characters, the hyphen, the dot. *)
Lemma allChars_append p a b :
  allChars p (a +:+ b) = allChars p a && allChars p b.
Proof.
  induction a as [|c a IH]; [reflexivity|].
  rewrite append_cons. cbn [allChars]. now rewrite IH, andb_assoc.
Qed.

Lemma allChars_impl (p q : ascii -> bool) s :
  (forall c, p c = true -> q c = true) ->
  allChars p s = true -> allChars q s = true.
Proof.
  intros Hpq. induction s as [|c s IH]; [reflexivity|]. cbn [allChars].
  intros [Hc Hs]%andb_true_iff. now rewrite (Hpq c Hc), IH.
Qed.

Lemma keepNameChars_chars s :
  allChars (fun c => isWord c || Ascii.is_space c || isHyphen c) (keepNameChars s) = true.
Proof.
  induction s as [|c s IH]; [reflexivity|]. cbn [keepNameChars].
  destruct (isWord c || Ascii.is_space c || isHyphen c) eqn:Hc; [|exact IH].
  cbn [allChars]. now rewrite Hc, IH.
Qed.

Lemma spacesToUnderscore_chars s :
  allChars (fun c => isWord c || Ascii.is_space c || isHyphen c) s = true ->
  allChars (fun c => isWord c || isHyphen c) (spacesToUnderscore s) = true.
Proof.
  induction s as [|c s IH]; [reflexivity|]. cbn [allChars spacesToUnderscore].
  intros [Hc Hs]%andb_true_iff. specialize (IH Hs).
  destruct (Ascii.is_space c) eqn:Hsp.
  - destruct s as [|c' s']; [reflexivity|].
    destruct (Ascii.is_space c'); [exact IH|]. cbn [allChars]. now rewrite IH.
  - cbn [allChars]. rewrite IH, andb_true_r.
    rewrite orb_false_r in Hc. exact Hc.
Qed.

Lemma squeezeUnderscores_chars p s :
  p "_"%char = true ->
  allChars p s = true -> allChars p (squeezeUnderscores s) = true.
Proof.
  intros Hu. induction s as [|c s IH]; [reflexivity|].
  cbn [allChars squeezeUnderscores].
  intros [Hc Hs]%andb_true_iff. specialize (IH Hs).
  destruct (isUnderscore c).
  - destruct s as [|c' s']; [cbn [allChars]; now rewrite Hu|].
    destruct (isUnderscore c'); [exact IH|]. cbn [allChars]. now rewrite Hu, IH.
  - cbn [allChars]. now rewrite Hc, IH.
Qed.

Lemma dropLastUnderscore_chars p s :
  allChars p s = true -> allChars p (dropLastUnderscore s) = true.
Proof.
  induction s as [|c s IH]; [reflexivity|]. cbn [allChars].
  intros [Hc Hs]%andb_true_iff. specialize (IH Hs).
  cbn [dropLastUnderscore]. destruct s as [|c' s'].
  - destruct (isUnderscore c); [reflexivity|]. cbn [allChars]. now rewrite Hc.
  - cbn [allChars]. now rewrite Hc, IH.
Qed.

Lemma stripUnderscores_chars p s :
  allChars p s = true -> allChars p (stripUnderscores s) = true.
Proof.
  destruct s as [|c s]; [reflexivity|]. intros H. unfold stripUnderscores.
  destruct (isUnderscore c).
  - apply dropLastUnderscore_chars. cbn [allChars] in H.
    now apply andb_true_iff in H as [_ H].
  - now apply dropLastUnderscore_chars.
Qed.

Lemma substring0_chars p n s :
  allChars p s = true -> allChars p (substring0 n s) = true.
Proof.
  revert s. induction n as [|n IH]; intros [|c s]; try reflexivity.
  cbn [allChars substring0]. intros [Hc Hs]%andb_true_iff. now rewrite Hc, IH.
Qed.

Lemma substring0_length n s : (String.length (substring0 n s) <= n)%nat.
Proof.
  revert s. induction n as [|n IH]; intros [|c s]; cbn [substring0 String.length]; try lia.
  specialize (IH s). lia.
Qed.

Lemma cleanName_safe name :
  allChars (fun c => isWord c || isHyphen c) (cleanName name) = true
  /\ (String.length (cleanName name) <= 50)%nat.
Proof.
  unfold cleanName.
  assert (H : allChars (fun c => isWord c || isHyphen c)
                (stripUnderscores (squeezeUnderscores
                   (spacesToUnderscore (keepNameChars (trim name))))) = true).
  { apply stripUnderscores_chars, squeezeUnderscores_chars; [reflexivity|].
    apply spacesToUnderscore_chars, keepNameChars_chars. }
  destruct (Nat.ltb_spec 50 (String.length
              (stripUnderscores (squeezeUnderscores
                 (spacesToUnderscore (keepNameChars (trim name))))))).
  - split; [now apply substring0_chars | apply substring0_length].
  - split; [exact H | lia].
Qed.

End FilenameFacts.

(** X21. The file name [generateFilename] gives, with the fallback "Resume"
    of the handler, is safe whatever the name extracted from the markup: it
    consists of letters, digits, underscores, hyphens and the dot, it is at
    most 70 characters long, and it ends in "_Tailored_Resume.pdf". *)
Theorem generateFilename_is_safe (name : string) :
  Filename.allChars
    (fun c => Filename.isWord c || Filename.isHyphen c || Ascii.eqb c ".")
    (Filename.generateFilename name "Resume") = true
  /\ (String.length (Filename.generateFilename name "Resume") <= 70)%nat
  /\ exists stem, Filename.generateFilename name "Resume"
                  = stem +:+ "_Tailored_Resume.pdf".
Proof.
  unfold Filename.generateFilename.
  destruct (String.eqb name EmptyString || (String.length (trim name) =? 0)%nat).
  - split; [reflexivity|]. split; [vm_compute; lia | now exists "Resume"].
  - destruct (cleanName_safe name) as [Hc Hl].
    split; [|split; [|now eexists]].
    + rewrite allChars_append. apply andb_true_iff. split; [|reflexivity].
      eapply allChars_impl; [|exact Hc]. intros c H. cbv beta. now rewrite H.
    + rewrite DateFacts.length_append. change (String.length Filename.SUFFIX) with 20%nat.
      lia.
Qed.

(** X22. An extracted name that is empty or white space only gives the
    fallback name "Resume_Tailored_Resume.pdf". *)
Theorem generateFilename_blank (name fallback : string) :
  Filename.allChars Ascii.is_space name = true ->
  Filename.generateFilename name fallback = fallback +:+ "_Tailored_Resume.pdf".
Proof.
  intros H. unfold Filename.generateFilename.
  rewrite (trim_spaces name H). cbn [String.length Nat.eqb].
  now rewrite orb_true_r.
Qed.

Lemma generateFilename_blank_witness :
  Filename.generateFilename "  " "Resume" = "Resume_Tailored_Resume.pdf".
Proof. apply (generateFilename_blank "  " "Resume"). reflexivity. Defined.

(** X23. A parser result without [numpages] counts as zero pages, so the
    first attempt is returned as if it fitted: the loop does not run again
    when the page count is unknown. *)
Theorem unknown_page_count_is_accepted (env : Tailor.Env) (r j : string)
    (w w1 : Tailor.World) (l b : string) (pd : Tailor.PdfData) :
  Tailor.getTailoredResume env r j None w = (inr l, w1) ->
  Tailor.latexToPdf_try env (Tailor.n_render w1) l = inr b ->
  Tailor.pdfParse env (Tailor.n_parse w1) b = inr pd ->
  Tailor.numpages pd = None ->
  Tailor.fitToOnePage env r j w
  = (inr (Tailor.mkFit l b 0), Tailor.counted b (Tailor.rendered l w1)).
Proof.
  intros Hg Hr Hp Hn.
  rewrite fitToOnePage_unfold, Hg, Hr, Hp, Hn. reflexivity.
Qed.

Lemma unknown_page_count_is_accepted_witness :
  exists w',
    Tailor.fitToOnePage
      {| Tailor.GEMINI_API_KEY := None;
         Tailor.GOOGLE_API_KEY := Some "test-key";
         Tailor.NODE_ENV := None;
         Tailor.model_invoke := answering;
         Tailor.latexToPdf_try := rendering;
         Tailor.pdfParse := fun _ _ => inr (Tailor.mkPdfData None (Some "text"));
         Tailor.mammoth_extractRawText := fun _ => inr None;
         Tailor.toBase64 := fun b => b;
         Tailor.extractNameFromLatex := fun _ => EmptyString;
         Tailor.generateFilename := fun n => Filename.generateFilename n "Resume" |}
      "resume" "job" world0
    = (inr (Tailor.mkFit "\\section{Education}" "%PDF \\section{Education}" 0), w').
Proof.
  eexists.
  eapply (unknown_page_count_is_accepted _ "resume" "job" world0
            (Tailor.invoked (Tailor.mkPrompt None "resume" "job")
               (Tailor.logged (Tailor.EvGenerate None) world0))
            "\\section{Education}" "%PDF \\section{Education}");
    reflexivity.
Defined.

(* ===================================================================== *)
(** ** The status endpoint and the browser-side checks *)
(* ===================================================================== *)

Section StatusFacts.
Context (fs : gmap string UserDoc) (userId : string) (now : Z).

(** The three cases of the read-only query. *)
Lemma status_cases :
  ((fs !! userId) ≫= isSpecial = Some true
   /\ checkServerConversionLimit now userId fs = UNLIMITED)
  \/ ((fs !! userId) ≫= isSpecial <> Some true
      /\ (exists doc n, fs !! userId = Some doc
            /\ lastConversionDate doc = Some (getTodayUTC now)
            /\ conversionsToday doc = Some n /\ 1 <= n)
      /\ checkServerConversionLimit now userId fs = DENIED)
  \/ ((fs !! userId) ≫= isSpecial <> Some true
      /\ ((fs !! userId) ≫= lastConversionDate <> Some (getTodayUTC now)
          \/ default 0 ((fs !! userId) ≫= conversionsToday) < 1)
      /\ exists k, 1 <= k
           /\ checkServerConversionLimit now userId fs = mkLimitResult true None (Some k)).
Proof.
  unfold checkServerConversionLimit.
  destruct (fs !! userId) as [doc|] eqn:Hdoc; simpl.
  2:{ right. right. split; [discriminate|]. split; [left; discriminate|].
      exists 1. split; [lia | reflexivity]. }
  destruct (decide (isSpecial doc = Some true)) as [Hsp|Hsp].
  { left. rewrite bool_decide_eq_true_2 by exact Hsp. split; [exact Hsp | reflexivity]. }
  rewrite bool_decide_eq_false_2 by exact Hsp. right.
  destruct (decide (lastConversionDate doc = Some (getTodayUTC now))) as [Hd|Hd].
  - rewrite bool_decide_eq_true_2 by exact Hd.
    destruct (Z.leb_spec 1 (default 0 (conversionsToday doc))) as [Hc|Hc].
    + left. split; [exact Hsp|]. split; [|reflexivity].
      destruct (conversionsToday doc) as [n|] eqn:Hn; simpl in Hc; [|lia].
      exists doc, n. repeat split; assumption.
    + right. split; [exact Hsp|]. split; [right; exact Hc|].
      exists (1 - default 0 (conversionsToday doc)). split; [lia | reflexivity].
  - rewrite bool_decide_eq_false_2 by exact Hd.
    right. split; [exact Hsp|]. split; [left; exact Hd|].
    exists 1. split; [lia | reflexivity].
Qed.

Lemma getTodayUTC_not_empty : getTodayUTC now <> EmptyString.
Proof.
  rewrite DateFacts.getTodayUTC_date. intros H.
  apply (f_equal String.length) in H.
  destruct (JsDate.civil_from_days (JsDate.Day now)) as [[y m] d].
  unfold JsDate.date_string in H.
  rewrite !DateFacts.length_append, !DateFacts.pad_length in H.
  cbn [String.length] in H. lia.
Qed.

End StatusFacts.

(** X24. The status endpoint matches the enforcement of the tailoring
    endpoint: for a "check" of an id that Firestore accepts as a document
    id it answers 200, it reports [isSpecial] exactly when the document says
    so, and it reports 0 remaining exactly when a reservation at that clock
    reading would be denied. *)
Theorem status_route_matches_enforcement
    (fs : gmap string UserDoc) (userId : string) (clk : Clock) :
  validDocId userId = true ->
  exists rem sp r fs',
    LimitRoute.POST (inr fs) (now_today clk)
      (inr (LimitRoute.mkLimitBody (Some userId) (Some "check")))
    = LimitRoute.routeJson (LimitRoute.RouteStatus rem sp) 200
    /\ checkAndReserveConversion clk userId fs = inr (r, fs')
    /\ (sp = true <-> (fs !! userId) ≫= isSpecial = Some true)
    /\ (rem = 0 <-> allowed r = false).
Proof.
  intros Hu. unfold LimitRoute.POST. cbn [LimitRoute.userId LimitRoute.action].
  destruct userId as [|c u]; [discriminate Hu|].
  rewrite bool_decide_eq_true_2 by reflexivity.
  destruct (status_cases fs (String c u) (now_today clk))
    as [(Hsp & ->) | [(Hsp & (doc & n & Hdoc & Hd & Hn & Hge) & ->)
                     | (Hsp & Hfree & k & Hk & ->)]].
  - destruct (fs !! String c u) as [doc|] eqn:Hdoc; [|discriminate].
    destruct (reserve_special fs (String c u) clk doc Hdoc Hsp) as [_ Hres].
    eexists _, _, _, _. split; [reflexivity|]. split; [exact Hres|].
    simpl. split; [tauto | split; discriminate].
  - rewrite Hdoc in Hsp. simpl in Hsp.
    destruct (reserve_denied fs (String c u) clk doc n Hdoc Hsp Hd Hn Hge) as [_ Hres].
    eexists _, _, _, _. split; [reflexivity|]. split; [exact Hres|].
    rewrite Hdoc. simpl. split; [split; [discriminate | tauto] | tauto].
  - assert (Hres : exists fs', checkAndReserveConversion clk (String c u) fs
                               = inr (GRANTED, fs')).
    { destruct (decide ((fs !! String c u) ≫= lastConversionDate
                        = Some (getTodayUTC (now_today clk)))) as [Hd|Hd].
      - destruct (fs !! String c u) as [doc|] eqn:Hdoc; [|discriminate].
        simpl in *. destruct Hfree as [Hfree|Hfree]; [contradiction|].
        eexists. apply (reserve_same_day_under_limit fs (String c u) clk doc);
          assumption.
      - eexists. apply reserve_other_day; assumption. }
    destruct Hres as (fs' & Hres).
    eexists _, _, _, _. split; [reflexivity|]. split; [exact Hres|].
    simpl. split.
    + split; [|tauto]. intros H. apply Z.eqb_eq in H. lia.
    + split; [lia | discriminate].
Qed.

Lemma status_route_matches_enforcement_witness :
  validDocId "alice" = true
  /\ exists rem sp r fs',
       LimitRoute.POST (inr {[ "alice" := usedToday ]}) 1793577600123
         (inr (LimitRoute.mkLimitBody (Some "alice") (Some "check")))
       = LimitRoute.routeJson (LimitRoute.RouteStatus rem sp) 200
       /\ checkAndReserveConversion (mkClock 1793577600123 1 2) "alice"
            {[ "alice" := usedToday ]} = inr (r, fs')
       /\ (sp = true <-> ({[ "alice" := usedToday ]} : gmap string UserDoc) !! "alice"
                           ≫= isSpecial = Some true)
       /\ (rem = 0 <-> allowed r = false).
Proof.
  split; [reflexivity|].
  apply (status_route_matches_enforcement {[ "alice" := usedToday ]} "alice"
           (mkClock 1793577600123 1 2)).
  reflexivity.
Defined.

(** X25. The same credentials error opens the status endpoint and closes
    the tailoring endpoint: if the message of what was thrown mentions
    "credentials" in any letter case, a "check" is answered 200 with one
    conversion remaining, while the handler of the tailoring endpoint
    answers 500 (503 if the error also counts as a rate limit). *)
Theorem status_fails_open_tailoring_fails_closed
    (env : Tailor.Env) (error : Thrown) (userId : string) (now : Z) :
  userId <> EmptyString ->
  Tailor.contains "credentials" (toLowerCase (messageOrString error)) ->
  LimitRoute.POST (inl error) now
    (inr (LimitRoute.mkLimitBody (Some userId) (Some "check")))
  = LimitRoute.routeJson (LimitRoute.RouteStatus 1 false) 200
  /\ (Tailor.status (Tailor.POST_catch env error) = 500
      \/ Tailor.status (Tailor.POST_catch env error) = 503).
Proof.
  intros Hu Hc. split.
  - unfold LimitRoute.POST. cbn [LimitRoute.userId LimitRoute.action].
    destruct userId as [|c u]; [contradiction|].
    rewrite bool_decide_eq_true_2 by reflexivity.
    assert (Ht : test_any_i LimitRoute.CREDENTIALS_WORDS (messageOrString error) = true).
    { apply test_any_i_spec. exists "credentials". split; [simpl; tauto | exact Hc]. }
    now rewrite Ht.
  - unfold Tailor.POST_catch. destruct (Tailor.isRateLimitError error); simpl; tauto.
Qed.

Lemma status_fails_open_tailoring_fails_closed_witness :
  LimitRoute.POST
    (inl (newError "Could not load the default credentials. Browse to https://cloud.google.com/docs/authentication/getting-started for more information."))
    1793577600123 (inr (LimitRoute.mkLimitBody (Some "alice") (Some "check")))
  = LimitRoute.routeJson (LimitRoute.RouteStatus 1 false) 200.
Proof.
  apply (status_fails_open_tailoring_fails_closed
           (stubEnv answering rendering (fun _ => 1))
           (newError "Could not load the default credentials. Browse to https://cloud.google.com/docs/authentication/getting-started for more information.")
           "alice" 1793577600123 ltac:(discriminate)).
  exists "could not load the default ",
         ". browse to https://cloud.google.com/docs/authentication/getting-started for more information.".
  reflexivity.
Defined.

(** X26. The browser-side check agrees with the server: on the same
    collection and clock reading [checkConversionLimit] returns what
    [checkServerConversionLimit] returns, and [getUserLimitStatus] reports
    the same remaining count; when the read fails both browser-side
    functions report one conversion remaining. *)
Theorem client_agrees_with_server
    (fs : gmap string UserDoc) (userId : string) (now : Z) (e : Thrown) :
  ClientLimit.checkConversionLimit (inr fs) now userId
    = checkServerConversionLimit now userId fs
  /\ Some (ClientLimit.ul_remaining (ClientLimit.getUserLimitStatus (inr fs) now userId))
     = remaining (checkServerConversionLimit now userId fs)
  /\ ClientLimit.checkConversionLimit (inl e) now userId = mkLimitResult true None (Some 1)
  /\ ClientLimit.ul_remaining (ClientLimit.getUserLimitStatus (inl e) now userId) = 1.
Proof.
  pose proof (getTodayUTC_not_empty now) as Hne.
  assert (Hor : forall x, bool_decide (ClientLimit.orNull x = Some (getTodayUTC now))
                          = bool_decide (x = Some (getTodayUTC now))).
  { intros [[|c s]|]; simpl; [|reflexivity..].
    rewrite !bool_decide_eq_false_2 by (intros Hx; inversion Hx; congruence).
    reflexivity. }
  split; [|split; [|split; reflexivity]].
  - unfold ClientLimit.checkConversionLimit, checkServerConversionLimit.
    destruct (fs !! userId) as [doc|]; simpl.
    + destruct (bool_decide (isSpecial doc = Some true)); [reflexivity|].
      now rewrite Hor.
    + reflexivity.
  - unfold ClientLimit.getUserLimitStatus, checkServerConversionLimit.
    destruct (fs !! userId) as [doc|]; simpl; [|reflexivity].
    destruct (bool_decide (isSpecial doc = Some true)); [reflexivity|].
    rewrite Hor.
    destruct (bool_decide (lastConversionDate doc = Some (getTodayUTC now)));
      [|reflexivity].
    destruct (Z.leb_spec 1 (default 0 (conversionsToday doc))); simpl; f_equal; lia.
Qed.
